(** * Mandelbrot-Renderer: escape-time kernels, colour maps and the image
    assembler, embedded from the C++ sources.

    Conventions of the embedding.
    - [double] is IEEE-754 binary64: Rocq's primitive [float], whose
      [+ - * /], [sqrt] and comparisons are the correctly rounded IEEE
      operations the C++ operators compile to (no fused multiply-add).
      [a > b] is written [b <? a], [a >= b] is [b <=? a].
    - [std::abs] of a [std::complex<double>] and the complex product are
      library code: [Num.hypot] follows the [hypot] of glibc, which is
      within one unit in the last place of the exact value, and [Cx.mul]
      the product with the recovery of infinities of C99 Annex G, as
      libgcc's [__muldc3] and libc++'s [operator*] compute it.
    - [int] is modelled by [Z].  Loop counters and iteration counts stay
      inside the 32-bit range.  The products that size a pixel buffer and
      the percentage of a progress line can leave it: signed overflow is
      undefined in C++, and the compiled code keeps the result modulo 2^32
      ([Num.wrap_int]).  A wrapped percentage is only printed.  A wrapped
      element count that is negative makes the [std::vector] constructor
      throw [std::length_error]; one that is not negative leaves a buffer
      shorter than what the loops write, and the render is [Undefined].
      Where a render returns, the count was exact and every index it wrote
      is below it.  A count within range is taken to be allocated: running
      out of memory is not modelled.
    - A loop that runs at most [max_iter] times is a [Fixpoint] on a fuel
      that equals the trip-count bound, with the source's guard written
      out; the adequacy lemmas show that more fuel never changes a result.
    - An OpenMP [parallel for] whose iterations write disjoint locations is
      the fold of its body over the iterations in the order the runtime
      carries them out (the schedule); what is proved of such a loop is
      proved for every permutation of its iterations.
    - An object with mutable fields is a record, and a method that changes
      it returns the record after the call. *)

From Stdlib Require Import ZArith Floats Bool List Lia.
From stdpp Require Import list.
Import ListNotations.

Set Warnings "-inexact-float".
Local Open Scope Z_scope.

(** ** Numeric conversions of the C++ code *)

Module Num.

(** [static_cast<double>(n)] and the implicit int-to-double promotion:
    exact for every 32-bit [int]. *)
Definition of_int (n : Z) : float :=
  match n with
  | Z0 => 0%float
  | Zpos _ => PrimFloat.of_uint63 (Uint63.of_Z n)
  | Zneg p => (- PrimFloat.of_uint63 (Uint63.of_Z (Zpos p)))%float
  end.

(** Truncation toward zero of a finite double, the value part of
    [static_cast<int>(x)]; NaN and the infinities (undefined behaviour in
    C++) are sent to 0. *)
Definition trunc (x : float) : Z :=
  match Prim2SF x with
  | S754_finite s m e =>
      let v := match e with
               | Z0 => Zpos m
               | Zpos _ => Zpos m * 2 ^ e
               | Zneg k => Z.shiftr (Zpos m) (Zpos k)
               end in
      if s then - v else v
  | _ => 0
  end.

(** [static_cast<int>(x)]. *)
Definition to_int (x : float) : Z := trunc x.

(** [static_cast<unsigned char>(n)] for an [int] n: reduction modulo 256. *)
Definition int_to_uchar (n : Z) : Z := n mod 256.

(** [static_cast<uint8_t>(x)] for a double: truncation, defined in C++ when
    the truncated value lies in 0..255 (reduced modulo 256 otherwise, as
    the x86 conversion does). *)
Definition to_uint8 (x : float) : Z := trunc x mod 256.

(** [std::abs(double)], [std::max(a, b)] = [(a < b) ? b : a]. *)
Definition fabs (x : float) : float := PrimFloat.abs x.
Definition fmax (a b : float) : float := if (a <? b)%float then b else a.

(** [std::fmod(x, 2)]: x minus twice the truncated half, exact for the
    finite doubles below 2^53 that the hue computations produce. *)
Definition fmod2 (x : float) : float := (x - 2 * of_int (trunc (x / 2)))%float.

(** [INT_MAX], and the value an [int] computation leaves in a 32-bit
    register when the exact result is [n]. *)
Definition INT_MAX : Z := 2147483647.

Definition wrap_int (n : Z) : Z := (n + 2 ^ 31) mod 2 ^ 32 - 2 ^ 31.

(** [std::isnan], [std::isinf], and [std::copysign(v, a)]; the sign of a
    NaN, which no result depends on, is taken as positive. *)
Definition isnan (x : float) : bool := PrimFloat.is_nan x.
Definition isinf (x : float) : bool := PrimFloat.is_infinity x.
Definition copysign (v a : float) : float :=
  if PrimFloat.get_sign a then (- PrimFloat.abs v)%float else PrimFloat.abs v.

Definition isfinite (x : float) : bool := negb (isnan x || isinf x).

(** [hypot] of the C library, which [std::abs(std::complex<double>)] calls
    (through [cabs]).  The result is within one unit in the last place of
    sqrt(x^2 + y^2) and depends on the library; this is glibc's, since
    version 2.35 (sysdeps/ieee754/dbl-64/e_hypot.c, compiled without fused
    multiply-add): an infinite argument gives +infinity, otherwise a NaN
    propagates; the larger and the smaller of |x|, |y| are scaled away from
    overflow and underflow, a negligible smaller one is just added, and the
    kernel corrects the rounded root by one Newton step. *)
Definition hypot_kernel (ax ay : float) : float :=
  let h := PrimFloat.sqrt (ax * ax + ay * ay)%float in
  let '(t1, t2) :=
    if (h <=? 2 * ay)%float then
      let delta := (h - ay)%float in
      ((ax * (2 * delta - ax))%float,
       ((delta - 2 * (ax - ay)) * delta)%float)
    else
      let delta := (h - ax)%float in
      ((2 * delta * (ax - 2 * ay))%float,
       ((4 * delta - ay) * ay + delta * delta)%float) in
  (h - (t1 + t2) / (2 * h))%float.

Definition hypot (x y : float) : float :=
  if negb (isfinite x) || negb (isfinite y) then
    if isinf x || isinf y then infinity else (x + y)%float
  else
    let x := PrimFloat.abs x in
    let y := PrimFloat.abs y in
    let ax := if (x <? y)%float then y else x in
    let ay := if (x <? y)%float then x else y in
    if (0x1p+511 <? ax)%float then
      if (ay <=? ax * 0x1p-54)%float then (ax + ay)%float
      else (hypot_kernel (ax * 0x1p-600) (ay * 0x1p-600) / 0x1p-600)%float
    else if (ay <? 0x1p-459)%float then
      if (ay / 0x1p-54 <=? ax)%float then (ax + ay)%float
      else (hypot_kernel (ax / 0x1p-600) (ay / 0x1p-600) * 0x1p-600)%float
    else if (ay / 0x1p-54 <=? ax)%float then (ax + ay)%float
    else hypot_kernel ax ay.

End Num.

(** ** [std::complex<double>] *)

Module Cx.

Record complex : Type := mk { re : float; im : float }.

Definition add (a b : complex) : complex :=
  mk (re a + re b)%float (im a + im b)%float.

Definition sub (a b : complex) : complex :=
  mk (re a - re b)%float (im a - im b)%float.

(** [operator*] of [std::complex<double>]: (ac - bd, ad + bc), and when
    both parts come out NaN the recovery of infinities of C99 Annex G, as
    libgcc's [__muldc3] and libc++'s [operator*] write it.  [box] and
    [unnan] are the two replacements the recovery applies to an operand. *)
Definition box (v : float) : float :=
  Num.copysign (if Num.isinf v then 1 else 0) v.

Definition unnan (v : float) : float :=
  if Num.isnan v then Num.copysign 0 v else v.

Definition mul (z w : complex) : complex :=
  let a := re z in
  let b := im z in
  let c := re w in
  let d := im w in
  let ac := (a * c)%float in
  let bd := (b * d)%float in
  let ad := (a * d)%float in
  let bc := (b * c)%float in
  let x := (ac - bd)%float in
  let y := (ad + bc)%float in
  if Num.isnan x && Num.isnan y then
    let '(a, b, c, d, recalc) :=
      if Num.isinf a || Num.isinf b
      then (box a, box b, unnan c, unnan d, true)
      else (a, b, c, d, false) in
    let '(a, b, c, d, recalc) :=
      if Num.isinf c || Num.isinf d
      then (unnan a, unnan b, box c, box d, true)
      else (a, b, c, d, recalc) in
    let '(a, b, c, d, recalc) :=
      if negb recalc
         && (Num.isinf ac || Num.isinf bd || Num.isinf ad || Num.isinf bc)
      then (unnan a, unnan b, unnan c, unnan d, true)
      else (a, b, c, d, recalc) in
    if recalc
    then mk (infinity * (a * c - b * d))%float
            (infinity * (a * d + b * c))%float
    else mk x y
  else mk x y.

(** [double * complex] and [complex + double]. *)
Definition scale (k : float) (a : complex) : complex :=
  mk (k * re a)%float (k * im a)%float.
Definition add_real (a : complex) (k : float) : complex :=
  mk (re a + k)%float (im a).

(** [std::abs(z)]. *)
Definition abs (a : complex) : float := Num.hypot (re a) (im a).

Definition zero : complex := mk 0 0.

(** The textbook quotient (ac + bd, bc - ad) / (c^2 + d^2): one instance of
    the division the Newton code is parametrised by, for running examples. *)
Definition div (a b : complex) : complex :=
  let d := (re b * re b + im b * im b)%float in
  mk ((re a * re b + im a * im b) / d)%float
     ((im a * re b - re a * im b) / d)%float.

End Cx.

(** ** src/src/render.cpp, include/render.hpp: namespace MandelbrotCPU *)

Module MandelbrotCPU.

Record RenderParams : Type := mkParams {
  width : Z;
  height : Z;
  max_iter : Z;
  x_min : float;
  x_max : float;
  y_min : float;
  y_max : float
}.

(** The default constructor arguments: the classic Mandelbrot view. *)
Definition default_params : RenderParams :=
  mkParams 800 600 1000 (-2) 1 (-1.2) 1.2.

Record RGB : Type := mkRGB { r : Z; g : Z; b : Z }.

(** The [while (std::abs(z) <= 2.0 && iterations < max_iter)] loop. *)
Fixpoint mandelbrot_loop (fuel : nat) (c z : Cx.complex)
  (iterations max_iter : Z) : Z :=
  match fuel with
  | O => iterations
  | S fuel' =>
      if (Cx.abs z <=? 2)%float && (iterations <? max_iter)
      then mandelbrot_loop fuel' c (Cx.add (Cx.mul z z) c)
             (iterations + 1) max_iter
      else iterations
  end.

Definition mandelbrot_iterations (real imag : float) (max_iter : Z) : Z :=
  mandelbrot_loop (Z.to_nat max_iter) (Cx.mk real imag) Cx.zero 0 max_iter.

Definition iterations_to_color (iterations max_iter : Z) : RGB :=
  if iterations =? max_iter then mkRGB 0 0 0
  else
    let t := (Num.of_int iterations / Num.of_int max_iter)%float in
    let '(r, g, b) :=
      if (t <? 0.16)%float then
        (255, Num.to_int (255 * t / 0.16)%float, 0)
      else if (t <? 0.33)%float then
        (Num.to_int (255 * (0.33 - t) / 0.17)%float, 255, 0)
      else if (t <? 0.5)%float then
        (0, 255, Num.to_int (255 * (t - 0.33) / 0.17)%float)
      else if (t <? 0.66)%float then
        (0, Num.to_int (255 * (0.66 - t) / 0.16)%float, 255)
      else if (t <? 0.83)%float then
        (Num.to_int (255 * (t - 0.66) / 0.17)%float, 0, 255)
      else
        (255, 0, Num.to_int (255 * (1.0 - t) / 0.17)%float) in
    mkRGB (Num.int_to_uchar r) (Num.int_to_uchar g) (Num.int_to_uchar b).

(** What a call can end in besides returning: the exception the
    [std::vector] constructor throws for a negative element count, the
    undefined integer modulo by zero (a trap on x86), and the writes past
    the end of a buffer whose element count overflowed. *)
Inductive outcome (A : Type) : Type :=
| Done (a : A)
| LengthError
| DivideByZero
| Undefined.
Arguments Done {A} a.
Arguments LengthError {A}.
Arguments DivideByZero {A}.
Arguments Undefined {A}.

(** Lines written to [std::cout] that depend on the run. *)
Inductive event : Type :=
| Progress (percent : Z)
| Finished (ms : Z) (pixels_per_second : float).

(** Lines 93-94: the plane sample of pixel column [px] and row [py]. *)
Definition sample_real (params : RenderParams) (px : Z) : float :=
  (x_min params + (x_max params - x_min params) * Num.of_int px
                    / Num.of_int (width params - 1))%float.

Definition sample_imag (params : RenderParams) (py : Z) : float :=
  (y_min params + (y_max params - y_min params) * Num.of_int py
                    / Num.of_int (height params - 1))%float.

(** Lines 92-106: the body of the inner loop. *)
Definition render_pixel (params : RenderParams) (py : Z)
  (image_data : list Z) (px : Z) : list Z :=
  let real := sample_real params px in
  let imag := sample_imag params py in
  let iterations := mandelbrot_iterations real imag (max_iter params) in
  let color := iterations_to_color iterations (max_iter params) in
  let pixel_index := (py * width params + px) * 3 in
  <[Z.to_nat (pixel_index + 2) := b color]>
    (<[Z.to_nat (pixel_index + 1) := g color]>
       (<[Z.to_nat pixel_index := r color]> image_data)).

(** Lines 91-107: [for (int px = 0; px < params.width; ++px)]. *)
Definition render_row (params : RenderParams) (py : Z)
  (image_data : list Z) : list Z :=
  foldl (render_pixel params py) image_data (seqZ 0 (width params)).

(** Lines 90-114: the rows [py], each followed by the progress check
    [py % (params.height / 10) == 0] and the [int] percentage
    [(py * 100) / params.height]. *)
Fixpoint render_rows (params : RenderParams) (rows : list Z)
  (image_data : list Z) (log : list event) : outcome (list Z * list event) :=
  match rows with
  | [] => Done (image_data, log)
  | py :: rest =>
      let image_data' := render_row params py image_data in
      if Z.quot (height params) 10 =? 0 then DivideByZero
      else
        let log' :=
          if Z.rem py (Z.quot (height params) 10) =? 0
          then log ++ [Progress (Z.quot (Num.wrap_int (py * 100))
                                        (height params))]
          else log in
        render_rows params rest image_data' log'
  end.

(** Lines 86-87: [int total_pixels = params.width * params.height] and the
    element count [total_pixels * 3] handed to the vector constructor, as
    the 32-bit values the two products leave. *)
Definition total_pixels (params : RenderParams) : Z :=
  Num.wrap_int (width params * height params).

Definition byte_count (params : RenderParams) : Z :=
  Num.wrap_int (total_pixels params * 3).

(** [render_mandelbrot_cpu]; [start_time] and [end_time] are the two
    readings of the clock, in milliseconds.  The constructor throws on a
    negative count; a count that is not the exact width * height * 3 is a
    buffer the loops overrun. *)
Definition render_mandelbrot_cpu (params : RenderParams)
  (start_time end_time : Z) : outcome (list Z * list event) :=
  if byte_count params <? 0 then LengthError
  else if negb (byte_count params =? width params * height params * 3)
  then Undefined
  else
    let image_data := replicate (Z.to_nat (byte_count params)) 0 in
    match render_rows params (seqZ 0 (height params)) image_data [] with
    | Done (image_data', log) =>
        let duration := end_time - start_time in
        Done (image_data',
              log ++ [Finished duration
                        (Num.of_int (total_pixels params) * 1000.0
                           / Num.of_int duration)%float])
    | LengthError => LengthError
    | DivideByZero => DivideByZero
    | Undefined => Undefined
    end.

(** The pixel buffer a call hands back, if it returns. *)
Definition image_of (o : outcome (list Z * list event)) : option (list Z) :=
  match o with
  | Done (image_data, _) => Some image_data
  | _ => None
  end.

(** src/src/main.cpp, lines 97-147, after the command line is parsed into
    [params]: the validation, the render inside [try], and the save.
    [Exit code image] is the process exit code and the pixel data handed to
    [save_ppm], if any; [Crashed] is the trap of the modulo by zero, and
    [Overrun] a render that wrote past its buffer, after which nothing is
    known of the process.  The [catch] clause turns the constructor's
    exception into exit code 1. *)
Inductive exit : Type :=
| Exit (code : Z) (saved : option (list Z))
| Crashed
| Overrun.

Definition main (params : RenderParams) (start_time end_time : Z) : exit :=
  if (width params <=? 0) || (height params <=? 0) then Exit 1 None
  else if max_iter params <=? 0 then Exit 1 None
  else if (x_max params <=? x_min params)%float
          || (y_max params <=? y_min params)%float then Exit 1 None
  else
    match render_mandelbrot_cpu params start_time end_time with
    | Done (image_data, _) => Exit 0 (Some image_data)
    | LengthError => Exit 1 None
    | DivideByZero => Crashed
    | Undefined => Overrun
    end.

End MandelbrotCPU.

(** ** include/render_omp.hpp: namespace MandelbrotOMP *)

Module MandelbrotOMP.

(** [while (iter < max_iter) { ...; if (zr2 + zi2 > 4.0) break; ... }]. *)
Fixpoint omp_loop (fuel : nat) (real imag zr zi : float)
  (iter max_iter : Z) : Z :=
  match fuel with
  | O => iter
  | S fuel' =>
      if iter <? max_iter then
        let zr2 := (zr * zr)%float in
        let zi2 := (zi * zi)%float in
        if (4 <? zr2 + zi2)%float then iter
        else
          let zi' := (2 * zr * zi + imag)%float in
          let zr' := (zr2 - zi2 + real)%float in
          omp_loop fuel' real imag zr' zi' (iter + 1) max_iter
      else iter
  end.

Definition mandelbrot_iterations_omp (real imag : float) (max_iter : Z) : Z :=
  omp_loop (Z.to_nat max_iter) real imag 0 0 0 max_iter.

(** src/src/render_omp.cpp, lines 75-76: the precomputed pixel steps. *)
Definition x_scale (params : MandelbrotCPU.RenderParams) : float :=
  ((MandelbrotCPU.x_max params - MandelbrotCPU.x_min params)
     / Num.of_int (MandelbrotCPU.width params - 1))%float.

Definition y_scale (params : MandelbrotCPU.RenderParams) : float :=
  ((MandelbrotCPU.y_max params - MandelbrotCPU.y_min params)
     / Num.of_int (MandelbrotCPU.height params - 1))%float.

(** Lines 88-104: the body of the inner loop. *)
Definition render_pixel (params : MandelbrotCPU.RenderParams) (py : Z)
  (image_data : list Z) (px : Z) : list Z :=
  let imag :=
    (MandelbrotCPU.y_min params + Num.of_int py * y_scale params)%float in
  let real :=
    (MandelbrotCPU.x_min params + Num.of_int px * x_scale params)%float in
  let iterations :=
    mandelbrot_iterations_omp real imag (MandelbrotCPU.max_iter params) in
  let color :=
    MandelbrotCPU.iterations_to_color iterations
      (MandelbrotCPU.max_iter params) in
  let pixel_index := (py * MandelbrotCPU.width params + px) * 3 in
  <[Z.to_nat (pixel_index + 2) := MandelbrotCPU.b color]>
    (<[Z.to_nat (pixel_index + 1) := MandelbrotCPU.g color]>
       (<[Z.to_nat pixel_index := MandelbrotCPU.r color]> image_data)).

Definition render_row (params : MandelbrotCPU.RenderParams) (py : Z)
  (image_data : list Z) : list Z :=
  foldl (render_pixel params py) image_data
    (seqZ 0 (MandelbrotCPU.width params)).

(** src/src/render_omp.cpp, lines 23-46: [get_optimal_thread_count] and the
    thread count [configure_openmp] hands to [omp_set_num_threads];
    [hw_threads] is what [omp_get_max_threads()] returns before the call. *)
Definition get_optimal_thread_count (hw_threads : Z) : Z :=
  Z.min hw_threads 16.

Definition configure_openmp (num_threads hw_threads : Z) : Z :=
  if num_threads <=? 0 then get_optimal_thread_count hw_threads
  else num_threads.

(** Lines written to [std::cout] that depend on the run: the thread count
    [configure_openmp] reports (line 45), what [omp_get_max_threads()]
    returns afterwards (lines 82 and 123), a progress line with its
    percentage and the number [omp_get_thread_num()] of the thread that
    prints it, and the timing. *)
Inductive event : Type :=
| Configured (threads : Z)
| Threads (max_threads : Z)
| Progress (percent thread : Z)
| Finished (ms : Z) (pixels_per_second : float).

(** Lines 85-117: [#pragma omp parallel for schedule(dynamic, 1)] over the
    rows.  The rows write disjoint bytes and the progress check sits in a
    critical section, so a run is the rows taken in the order in which they
    pass the critical section: [schedule] lists them in that order, each
    with the number of the thread that carried it out; [progress_counter]
    is the shared counter. *)
Fixpoint render_rows (params : MandelbrotCPU.RenderParams)
  (schedule : list (Z * Z)) (image_data : list Z) (progress_counter : Z)
  (log : list event)
  : MandelbrotCPU.outcome (list Z * list event) :=
  match schedule with
  | [] => MandelbrotCPU.Done (image_data, log)
  | (py, thread) :: rest =>
      let image_data' := render_row params py image_data in
      let progress_counter' := progress_counter + 1 in
      let progress_step := Z.quot (MandelbrotCPU.height params) 10 in
      if progress_step =? 0 then MandelbrotCPU.DivideByZero
      else
        let log' :=
          if Z.rem progress_counter' progress_step =? 0
          then log ++ [Progress
                         (Z.quot (Num.wrap_int (progress_counter' * 100))
                            (MandelbrotCPU.height params))
                         thread]
          else log in
        render_rows params rest image_data' progress_counter' log'
  end.

(** [render_mandelbrot_omp]: [schedule] is the order in which the runtime
    hands out the rows 0 .. height - 1 and the thread each one goes to;
    [max_threads] is what [omp_get_max_threads()] returns once the thread
    count is set. *)
Definition render_mandelbrot_omp (params : MandelbrotCPU.RenderParams)
  (num_threads hw_threads max_threads : Z) (schedule : list (Z * Z))
  (start_time end_time : Z)
  : MandelbrotCPU.outcome (list Z * list event) :=
  let threads := configure_openmp num_threads hw_threads in
  if MandelbrotCPU.byte_count params <? 0 then MandelbrotCPU.LengthError
  else if negb (MandelbrotCPU.byte_count params
                =? MandelbrotCPU.width params * MandelbrotCPU.height params
                   * 3)
  then MandelbrotCPU.Undefined
  else
    let image_data :=
      replicate (Z.to_nat (MandelbrotCPU.byte_count params)) 0 in
    match render_rows params schedule image_data 0
            [Configured threads; Threads max_threads] with
    | MandelbrotCPU.Done (image_data', log) =>
        let duration := end_time - start_time in
        MandelbrotCPU.Done
          (image_data',
           log ++ [Finished duration
                     (Num.of_int (MandelbrotCPU.total_pixels params) * 1000.0
                        / Num.of_int duration)%float;
                   Threads max_threads])
    | MandelbrotCPU.LengthError => MandelbrotCPU.LengthError
    | MandelbrotCPU.DivideByZero => MandelbrotCPU.DivideByZero
    | MandelbrotCPU.Undefined => MandelbrotCPU.Undefined
    end.

(** The pixel buffer a call hands back, if it returns, and the outcome
    with the thread numbers of the progress lines left out. *)
Definition image_of (o : MandelbrotCPU.outcome (list Z * list event))
  : option (list Z) :=
  match o with
  | MandelbrotCPU.Done (image_data, _) => Some image_data
  | _ => None
  end.

Definition without_thread (e : event) : event :=
  match e with
  | Progress percent _ => Progress percent 0
  | _ => e
  end.

Definition without_threads (o : MandelbrotCPU.outcome (list Z * list event))
  : MandelbrotCPU.outcome (list Z * list event) :=
  match o with
  | MandelbrotCPU.Done (image_data, log) =>
      MandelbrotCPU.Done (image_data, map without_thread log)
  | MandelbrotCPU.LengthError => MandelbrotCPU.LengthError
  | MandelbrotCPU.DivideByZero => MandelbrotCPU.DivideByZero
  | MandelbrotCPU.Undefined => MandelbrotCPU.Undefined
  end.

End MandelbrotOMP.

(** ** src/src/julia.cpp, include/julia.hpp: namespace fractal *)

Module JuliaRenderer.

Record JuliaParams : Type := mkParams {
  cx : float;
  cy : float;
  width : Z;
  height : Z;
  max_iterations : Z;
  x_min : float;
  x_max : float;
  y_min : float;
  y_max : float
}.

(** [for (int i = 0; i < max_iter; ++i) { ... return i; ... }] followed by
    [return max_iter;]. *)
Fixpoint julia_loop (fuel : nat) (zx zy cx cy : float) (i max_iter : Z) : Z :=
  match fuel with
  | O => max_iter
  | S fuel' =>
      if i <? max_iter then
        let zx2 := (zx * zx)%float in
        let zy2 := (zy * zy)%float in
        if (4 <? zx2 + zy2)%float then i
        else
          let new_zx := (zx2 - zy2 + cx)%float in
          let new_zy := (2 * zx * zy + cy)%float in
          julia_loop fuel' new_zx new_zy cx cy (i + 1) max_iter
      else max_iter
  end.

Definition julia_iterations (x y cx cy : float) (max_iter : Z) : Z :=
  julia_loop (Z.to_nat max_iter) x y cx cy 0 max_iter.

(** [iterations_to_color]: the three [int] channels it assigns. *)
Definition iterations_to_color (iterations max_iterations : Z) : Z * Z * Z :=
  if iterations =? max_iterations then (0, 0, 0)
  else
    let hue := (360.0 * Num.of_int iterations
                  / Num.of_int max_iterations)%float in
    let saturation := 1.0%float in
    let value := 1.0%float in
    let hi := Z.rem (Num.to_int (hue / 60)%float) 6 in
    let f := (hue / 60 - Num.of_int hi)%float in
    let p := (value * (1 - saturation))%float in
    let q := (value * (1 - f * saturation))%float in
    let t := (value * (1 - (1 - f) * saturation))%float in
    let '(red, green, blue) :=
      match hi with
      | 0 => (value, t, p)
      | 1 => (q, value, p)
      | 2 => (p, value, t)
      | 3 => (p, q, value)
      | 4 => (t, p, value)
      | 5 => (value, p, q)
      | _ => (0, 0, 0)%float
      end in
    (Num.to_int (red * 255)%float,
     Num.to_int (green * 255)%float,
     Num.to_int (blue * 255)%float).

(** [save_ppm]: the pixel triples written after the P3 header, row by row;
    the colour is normalised with the literal 1000 of line 110.  A read
    outside [data] (undefined in C++) yields 0. *)
Definition save_ppm (data : list Z) (width height : Z) : list (Z * Z * Z) :=
  flat_map
    (fun py =>
       map (fun px =>
              let iterations :=
                default 0 (data !! Z.to_nat (py * width + px)) in
              iterations_to_color iterations 1000)
           (seqZ 0 width))
    (seqZ 0 height).

(** Lines 29-30 and 36-37: the pixel steps [dx], [dy] and the plane sample of
    pixel column [px] and row [py]. *)
Definition dx (params : JuliaParams) : float :=
  ((x_max params - x_min params) / Num.of_int (width params))%float.

Definition dy (params : JuliaParams) : float :=
  ((y_max params - y_min params) / Num.of_int (height params))%float.

Definition sample_x (params : JuliaParams) (px : Z) : float :=
  (x_min params + Num.of_int px * dx params)%float.

Definition sample_y (params : JuliaParams) (py : Z) : float :=
  (y_min params + Num.of_int py * dy params)%float.

(** Lines 36-43: the body of the inner loop of [render]. *)
Definition render_pixel (params : JuliaParams) (py : Z)
  (image_data : list Z) (px : Z) : list Z :=
  let x := sample_x params px in
  let y := sample_y params py in
  let iterations :=
    julia_iterations x y (cx params) (cy params) (max_iterations params) in
  <[Z.to_nat (py * width params + px) := iterations]> image_data.

(** Line 26, [std::vector<int> image_data(params.width * params.height)]:
    the call returns the buffer when the [int] product is the exact
    width * height and not negative.  A negative count makes the
    constructor throw, and [render] is left before anything is stored or
    written; a product that overflowed to a count that is not negative
    leaves a buffer the loops overrun, and nothing is known to be stored or
    written either. *)
Definition allocates (params : JuliaParams) : bool :=
  let count := Num.wrap_int (width params * height params) in
  (0 <=? count) && (count =? width params * height params).

(** Lines 26-45 of [render]: the iteration counts of all pixels; none
    where the buffer is not allocated. *)
Definition render_data (params : JuliaParams) : list Z :=
  if allocates params then
    let image_data := replicate (Z.to_nat (width params * height params)) 0 in
    foldl (fun data py =>
             foldl (render_pixel params py) data (seqZ 0 (width params)))
          image_data (seqZ 0 (height params))
  else [].

(** [render]: the pixels that end up in the output file. *)
Definition render (params : JuliaParams) : list (Z * Z * Z) :=
  if allocates params
  then save_ppm (render_data params) (width params) (height params)
  else [].

End JuliaRenderer.

(** ** src/src/julia.cpp: class JuliaRendererOMP *)

Module JuliaRendererOMP.

(** The iterations of [#pragma omp parallel for collapse(2)]: one task for
    each pixel (py, px). *)
Definition pixel_tasks (params : JuliaRenderer.JuliaParams) : list (Z * Z) :=
  py ← seqZ 0 (JuliaRenderer.height params);
  (fun px => (py, px)) <$> seqZ 0 (JuliaRenderer.width params).

(** Lines 158-181 of [JuliaRendererOMP::render]: the loop body is that of
    [JuliaRenderer::render]; the tasks write disjoint entries, so a run is
    the tasks taken in the order [schedule] in which they are carried
    out. *)
Definition render_data (params : JuliaRenderer.JuliaParams)
  (schedule : list (Z * Z)) : list Z :=
  if JuliaRenderer.allocates params then
    let image_data :=
      replicate
        (Z.to_nat (JuliaRenderer.width params * JuliaRenderer.height params))
        0 in
    foldl (fun data '(py, px) => JuliaRenderer.render_pixel params py data px)
          image_data schedule
  else [].

(** [JuliaRendererOMP::render]: the pixels that end up in the output file. *)
Definition render (params : JuliaRenderer.JuliaParams)
  (schedule : list (Z * Z)) : list (Z * Z * Z) :=
  if JuliaRenderer.allocates params
  then JuliaRenderer.save_ppm (render_data params schedule)
         (JuliaRenderer.width params) (JuliaRenderer.height params)
  else [].

End JuliaRendererOMP.

(** ** [std::vector<std::vector<T>>] indexed as [data[y][x]] *)

Module Grid.

(** [data[y][x] = v]; a write outside the table (undefined in C++) leaves it
    as it is. *)
Definition set_cell {A : Type} (data : list (list A)) (y x : Z) (v : A)
  : list (list A) :=
  alter (fun row => <[Z.to_nat x := v]> row) (Z.to_nat y) data.

(** [data[y][x]]; a read outside the table yields [d]. *)
Definition get_cell {A : Type} (d : A) (data : list (list A)) (y x : Z) : A :=
  default d (data !! Z.to_nat y ≫= fun row => row !! Z.to_nat x).

(** The table has [height] rows of [width] entries each, as the
    constructors' [resize(height, std::vector<T>(width, v))] leaves it. *)
Definition shaped {A : Type} (height width : Z) (data : list (list A))
  : bool :=
  (Z.of_nat (length data) =? height)
  && forallb (fun row => Z.of_nat (length row) =? width) data.

End Grid.

(** ** src/src/burning_ship.cpp: class BurningShipCPU *)

Module BurningShipCPU.

(** [while (zx * zx + zy * zy < 4.0 && iterations < max_iterations_)]. *)
Fixpoint ship_loop (fuel : nat) (cx cy zx zy : float)
  (iterations max_iterations : Z) : Z :=
  match fuel with
  | O => iterations
  | S fuel' =>
      if (zx * zx + zy * zy <? 4)%float && (iterations <? max_iterations)
      then
        let abs_zx := Num.fabs zx in
        let abs_zy := Num.fabs zy in
        let new_zx := (abs_zx * abs_zx - abs_zy * abs_zy + cx)%float in
        let new_zy := (2 * abs_zx * abs_zy + cy)%float in
        ship_loop fuel' cx cy new_zx new_zy (iterations + 1) max_iterations
      else iterations
  end.

(** [max_iterations_] is a field of the renderer object. *)
Definition computeBurningShip (max_iterations : Z) (cx cy : float) : Z :=
  ship_loop (Z.to_nat max_iterations) cx cy 0 0 0 max_iterations.

(** [hsvToRgb]: the standard six-sector conversion. *)
Definition hsvToRgb (h s v : float) : Z * Z * Z :=
  let c := (v * s)%float in
  let x := (c * (1 - Num.fabs (Num.fmod2 (h / 60.0) - 1)))%float in
  let m := (v - c)%float in
  let '(r, g, b) :=
    if (h <? 60)%float then (c, x, 0%float)
    else if (h <? 120)%float then (x, c, 0%float)
    else if (h <? 180)%float then (0%float, c, x)
    else if (h <? 240)%float then (0%float, x, c)
    else if (h <? 300)%float then (x, 0%float, c)
    else (c, 0%float, x) in
  (Num.to_uint8 ((r + m) * 255)%float,
   Num.to_uint8 ((g + m) * 255)%float,
   Num.to_uint8 ((b + m) * 255)%float).

Definition iterationsToRGB (max_iterations iterations : Z) : Z * Z * Z :=
  if iterations =? max_iterations then (0, 0, 0)
  else
    let t := (Num.of_int iterations / Num.of_int max_iterations)%float in
    let '(hue, saturation, value) :=
      if (t <? 0.16)%float then
        (240 + t * 60 / 0.16, 1.0, 0.5 + t * 0.5 / 0.16)%float
      else if (t <? 0.42)%float then
        (300 + (t - 0.16) * 60 / 0.26, 1.0, 1.0)%float
      else if (t <? 0.6425)%float then
        (0 + (t - 0.42) * 30 / 0.2225, 1.0, 1.0)%float
      else if (t <? 0.8575)%float then
        (30 + (t - 0.6425) * 30 / 0.215, 1.0, 1.0)%float
      else
        (60, 1.0 - (t - 0.8575) / 0.1425, 1.0)%float in
    hsvToRgb hue saturation value.

(** The renderer object: the three sizes and the table [fractal_data_] of
    iteration counts, one row per image row. *)
Record renderer : Type := mkRenderer {
  width_ : Z;
  height_ : Z;
  max_iterations_ : Z;
  fractal_data_ : list (list Z)
}.

(** The constructor, for sizes that are not negative (a negative size
    converts to a huge [size_t] and the allocation throws). *)
Definition new (width height max_iterations : Z) : renderer :=
  mkRenderer width height max_iterations
    (replicate (Z.to_nat height) (replicate (Z.to_nat width) 0)).

(** Lines 17-28: the plane sample of pixel column [x] and row [y]. *)
Definition sample (center zoom : float) (size k : Z) : float :=
  let scale := (4.0 / zoom)%float in
  let min := (center - scale / 2.0)%float in
  let max := (center + scale / 2.0)%float in
  (min + (max - min) * Num.of_int k / Num.of_int (size - 1))%float.

(** [render]: the object after the call. *)
Definition render (self : renderer) (center_x center_y zoom : float)
  : renderer :=
  let data :=
    foldl
      (fun data y =>
         foldl
           (fun data x =>
              let cx := sample center_x zoom (width_ self) x in
              let cy := sample center_y zoom (height_ self) y in
              Grid.set_cell data y x
                (computeBurningShip (max_iterations_ self) cx cy))
           data (seqZ 0 (width_ self)))
      (fractal_data_ self) (seqZ 0 (height_ self)) in
  mkRenderer (width_ self) (height_ self) (max_iterations_ self) data.

(** [saveAsPPM]: the pixel triples written after the P3 header, row by
    row. *)
Definition saveAsPPM (self : renderer) : list (Z * Z * Z) :=
  flat_map
    (fun y =>
       map (fun x =>
              iterationsToRGB (max_iterations_ self)
                (Grid.get_cell 0 (fractal_data_ self) y x))
           (seqZ 0 (width_ self)))
    (seqZ 0 (height_ self)).

(** [renderToFile]: the object after the call and the pixels written. *)
Definition renderToFile (self : renderer) (center_x center_y zoom : float)
  : renderer * list (Z * Z * Z) :=
  let self' := render self center_x center_y zoom in
  (self', saveAsPPM self').

End BurningShipCPU.

(** ** src/src/newton_fractal.cpp: class NewtonFractalCPU *)

Module NewtonFractalCPU.

Section WithDivision.

(** [operator/] of [std::complex<double>] is the compiler runtime's complex
    division; the development holds for any such function. *)
Variable cdiv : Cx.complex -> Cx.complex -> Cx.complex.

Definition ROOT1_REAL : float := 1.0.
Definition ROOT1_IMAG : float := 0.0.
Definition ROOT2_REAL : float := (-0.5)%float.
Definition ROOT2_IMAG : float := 0.866025403784.
Definition ROOT3_REAL : float := (-0.5)%float.
Definition ROOT3_IMAG : float := (-0.866025403784)%float.
Definition CONVERGENCE_THRESHOLD : float := 1e-6.

Definition newtonIteration (z : Cx.complex) : Cx.complex :=
  let z2 := Cx.mul z z in
  let z3 := Cx.mul z2 z in
  if (Cx.abs z2 <? 1e-10)%float then z
  else cdiv (Cx.add_real (Cx.scale 2.0 z3) 1.0) (Cx.scale 3.0 z2).

Definition identifyRoot (z : Cx.complex) : Z :=
  if (Cx.abs (Cx.sub z (Cx.mk ROOT1_REAL ROOT1_IMAG))
        <? CONVERGENCE_THRESHOLD)%float then 1
  else if (Cx.abs (Cx.sub z (Cx.mk ROOT2_REAL ROOT2_IMAG))
             <? CONVERGENCE_THRESHOLD)%float then 2
  else if (Cx.abs (Cx.sub z (Cx.mk ROOT3_REAL ROOT3_IMAG))
             <? CONVERGENCE_THRESHOLD)%float then 3
  else 0.

(** Lines 35-44: [while (iterations < max_iterations_)] with its [break]. *)
Fixpoint newton_loop (fuel : nat) (z : Cx.complex)
  (iterations max_iterations : Z) : Cx.complex * Z :=
  match fuel with
  | O => (z, iterations)
  | S fuel' =>
      if iterations <? max_iterations then
        let z_old := z in
        let z' := newtonIteration z in
        if (Cx.abs (Cx.sub z' z_old) <? CONVERGENCE_THRESHOLD)%float
        then (z', iterations)
        else newton_loop fuel' z' (iterations + 1) max_iterations
      else (z, iterations)
  end.

(** Lines 31-48: the value [{root, iterations}] stored for the sample
    (cx, cy). *)
Definition render_pixel (max_iterations : Z) (cx cy : float) : Z * Z :=
  let '(z, iterations) :=
    newton_loop (Z.to_nat max_iterations) (Cx.mk cx cy) 0 max_iterations in
  (identifyRoot z, iterations).

End WithDivision.

Definition rootToRGB (max_iterations root iterations : Z) : Z * Z * Z :=
  let paint (base_color : Z * Z * Z) :=
    let convergence_factor :=
      (Num.of_int (max_iterations - iterations)
         / Num.of_int max_iterations)%float in
    let convergence_factor := Num.fmax 0.3 convergence_factor in
    let '(c0, c1, c2) := base_color in
    (Num.to_uint8 (Num.of_int c0 * convergence_factor)%float,
     Num.to_uint8 (Num.of_int c1 * convergence_factor)%float,
     Num.to_uint8 (Num.of_int c2 * convergence_factor)%float) in
  match root with
  | 1 => paint (255, 50, 50)
  | 2 => paint (50, 255, 50)
  | 3 => paint (50, 50, 255)
  | _ => (0, 0, 0)
  end.

(** The renderer object: [fractal_data_] holds the pair (root, iterations)
    of each pixel, (-1, 0) before the first render. *)
Record renderer : Type := mkRenderer {
  width_ : Z;
  height_ : Z;
  max_iterations_ : Z;
  fractal_data_ : list (list (Z * Z))
}.

Definition new (width height max_iterations : Z) : renderer :=
  mkRenderer width height max_iterations
    (replicate (Z.to_nat height) (replicate (Z.to_nat width) (-1, 0))).

(** Lines 17-28: the plane sample of pixel column [x] and row [y]. *)
Definition sample (center zoom : float) (size k : Z) : float :=
  let scale := (4.0 / zoom)%float in
  let min := (center - scale / 2.0)%float in
  let max := (center + scale / 2.0)%float in
  (min + (max - min) * Num.of_int k / Num.of_int (size - 1))%float.

(** [render]: the object after the call. *)
Definition render (cdiv : Cx.complex -> Cx.complex -> Cx.complex)
  (self : renderer) (center_x center_y zoom : float) : renderer :=
  let data :=
    foldl
      (fun data y =>
         foldl
           (fun data x =>
              let cx := sample center_x zoom (width_ self) x in
              let cy := sample center_y zoom (height_ self) y in
              Grid.set_cell data y x
                (render_pixel cdiv (max_iterations_ self) cx cy))
           data (seqZ 0 (width_ self)))
      (fractal_data_ self) (seqZ 0 (height_ self)) in
  mkRenderer (width_ self) (height_ self) (max_iterations_ self) data.

(** [saveAsPPM]: the pixel triples written after the P3 header. *)
Definition saveAsPPM (self : renderer) : list (Z * Z * Z) :=
  flat_map
    (fun y =>
       map (fun x =>
              let '(root, iterations) :=
                Grid.get_cell (-1, 0) (fractal_data_ self) y x in
              rootToRGB (max_iterations_ self) root iterations)
           (seqZ 0 (width_ self)))
    (seqZ 0 (height_ self)).

Definition renderToFile (cdiv : Cx.complex -> Cx.complex -> Cx.complex)
  (self : renderer) (center_x center_y zoom : float)
  : renderer * list (Z * Z * Z) :=
  let self' := render cdiv self center_x center_y zoom in
  (self', saveAsPPM self').

End NewtonFractalCPU.

(** ** src/wasm/src/fractals_wasm.cpp *)

Module Wasm.

Record Color : Type := mkColor { r : Z; g : Z; b : Z; a : Z }.

Definition hsvToRgb (h s v : float) : Color :=
  let c := (v * s)%float in
  let x := (c * (1 - Num.fabs (Num.fmod2 (h / 60.0) - 1)))%float in
  let m := (v - c)%float in
  let '(r, g, b) :=
    if (0 <=? h)%float && (h <? 60)%float then (c, x, 0%float)
    else if (60 <=? h)%float && (h <? 120)%float then (x, c, 0%float)
    else if (120 <=? h)%float && (h <? 180)%float then (0%float, c, x)
    else if (180 <=? h)%float && (h <? 240)%float then (0%float, x, c)
    else if (240 <=? h)%float && (h <? 300)%float then (x, 0%float, c)
    else (c, 0%float, x) in
  mkColor (Num.to_uint8 ((r + m) * 255)%float)
          (Num.to_uint8 ((g + m) * 255)%float)
          (Num.to_uint8 ((b + m) * 255)%float) 255.

(** [for (int i = 0; i < maxIter; i++) { if (abs(z) > 2.0) return i; ... }] *)
Fixpoint mandelbrot_loop (fuel : nat) (c z : Cx.complex) (i maxIter : Z) : Z :=
  match fuel with
  | O => maxIter
  | S fuel' =>
      if i <? maxIter then
        if (2 <? Cx.abs z)%float then i
        else mandelbrot_loop fuel' c (Cx.add (Cx.mul z z) c) (i + 1) maxIter
      else maxIter
  end.

Definition mandelbrotIterations (real imag : float) (maxIter : Z) : Z :=
  mandelbrot_loop (Z.to_nat maxIter) (Cx.mk real imag) Cx.zero 0 maxIter.

Definition juliaIterations (real imag cReal cImag : float) (maxIter : Z) : Z :=
  mandelbrot_loop (Z.to_nat maxIter) (Cx.mk cReal cImag) (Cx.mk real imag)
    0 maxIter.

Fixpoint ship_loop (fuel : nat) (c z : Cx.complex) (i maxIter : Z) : Z :=
  match fuel with
  | O => maxIter
  | S fuel' =>
      if i <? maxIter then
        if (2 <? Cx.abs z)%float then i
        else
          let zx := Num.fabs (Cx.re z) in
          let zy := Num.fabs (Cx.im z) in
          ship_loop fuel' c
            (Cx.add (Cx.mk (zx * zx - zy * zy) (2 * zx * zy))%float c)
            (i + 1) maxIter
      else maxIter
  end.

Definition burningShipIterations (real imag : float) (maxIter : Z) : Z :=
  ship_loop (Z.to_nat maxIter) (Cx.mk real imag) Cx.zero 0 maxIter.

Section WithDivision.

Variable cdiv : Cx.complex -> Cx.complex -> Cx.complex.

Fixpoint newton_loop (fuel : nat) (z : Cx.complex) (i maxIter : Z) : Z :=
  let tolerance := 1e-6%float in
  let root1 := Cx.mk 1.0 0.0 in
  let root2 := Cx.mk (-0.5) (PrimFloat.sqrt 3.0 / 2.0)%float in
  let root3 := Cx.mk (-0.5) (- PrimFloat.sqrt 3.0 / 2.0)%float in
  match fuel with
  | O => 0
  | S fuel' =>
      if i <? maxIter then
        let z3 := Cx.mul (Cx.mul z z) z in
        let z2 := Cx.mul z z in
        let numerator := Cx.sub z3 (Cx.mk 1.0 0.0) in
        let denominator := Cx.scale 3.0 z2 in
        if (Cx.abs denominator <? tolerance)%float then 0
        else
          let z' := Cx.sub z (cdiv numerator denominator) in
          if (Cx.abs (Cx.sub z' root1) <? tolerance)%float then i + 1000
          else if (Cx.abs (Cx.sub z' root2) <? tolerance)%float then i + 2000
          else if (Cx.abs (Cx.sub z' root3) <? tolerance)%float then i + 3000
          else newton_loop fuel' z' (i + 1) maxIter
      else 0
  end.

Definition newtonIterations (real imag : float) (maxIter : Z) : Z :=
  newton_loop (Z.to_nat maxIter) (Cx.mk real imag) 0 maxIter.

(** Lines 208-264: the iteration count and the colour of one sample. *)
Definition shade (fractalType : Z) (real imag cReal cImag : float)
  (maxIter : Z) : Color :=
  let iterations :=
    match fractalType with
    | 0 => mandelbrotIterations real imag maxIter
    | 1 => juliaIterations real imag cReal cImag maxIter
    | 2 => burningShipIterations real imag maxIter
    | 3 => newtonIterations real imag maxIter
    | _ => 0
    end in
  if fractalType =? 3 then
    if 3000 <=? iterations then
      let iter := iterations - 3000 in
      let intensity := (1.0 - Num.of_int iter / Num.of_int maxIter)%float in
      mkColor 0 0 (Num.to_uint8 (255 * intensity)%float) 255
    else if 2000 <=? iterations then
      let iter := iterations - 2000 in
      let intensity := (1.0 - Num.of_int iter / Num.of_int maxIter)%float in
      mkColor 0 (Num.to_uint8 (255 * intensity)%float) 0 255
    else if 1000 <=? iterations then
      let iter := iterations - 1000 in
      let intensity := (1.0 - Num.of_int iter / Num.of_int maxIter)%float in
      mkColor (Num.to_uint8 (255 * intensity)%float) 0 0 255
    else mkColor 0 0 0 255
  else if fractalType =? 2 then
    if iterations =? maxIter then mkColor 0 0 0 255
    else
      let t := (Num.of_int iterations / Num.of_int maxIter)%float in
      let hue := (60.0 * (1.0 - t))%float in
      hsvToRgb hue 1.0 (PrimFloat.sqrt t)
  else
    if iterations =? maxIter then mkColor 0 0 0 255
    else
      let t := (Num.of_int iterations / Num.of_int maxIter)%float in
      let hue := (240.0 * (1.0 - t))%float in
      hsvToRgb hue 1.0 t.

(** Lines 266-271: the four bytes of pixel (x, y). *)
Definition store (width : Z) (y : Z) (imageData : list Z) (x : Z)
  (color : Color) : list Z :=
  let index := (y * width + x) * 4 in
  <[Z.to_nat (index + 3) := a color]>
    (<[Z.to_nat (index + 2) := b color]>
       (<[Z.to_nat (index + 1) := g color]>
          (<[Z.to_nat index := r color]> imageData))).

(** [renderFractalImage]; [imageData] is [None] for a null pointer, and the
    result is the buffer as the call leaves it. *)
Definition renderFractalImage (fractalType width height : Z)
  (centerX centerY zoom cReal cImag : float) (maxIter : Z)
  (imageData : option (list Z)) : option (list Z) :=
  match imageData with
  | None => None
  | Some buffer =>
      if (width <=? 0) || (height <=? 0) || (maxIter <=? 0) then Some buffer
      else
        let zoom := if (zoom <=? 0)%float then 1.0%float else zoom in
        let maxIter := if 10000 <? maxIter then 1000 else maxIter in
        let scale := (4.0 / zoom)%float in
        let stepX := (scale / Num.of_int width)%float in
        let stepY := (scale / Num.of_int height)%float in
        let startX := (centerX - scale / 2.0)%float in
        let startY := (centerY - scale / 2.0)%float in
        Some
          (foldl
             (fun data y =>
                foldl
                  (fun data x =>
                     let real := (startX + Num.of_int x * stepX)%float in
                     let imag := (startY + Num.of_int y * stepY)%float in
                     store width y data x
                       (shade fractalType real imag cReal cImag maxIter))
                  data (seqZ 0 width))
             buffer (seqZ 0 height))
  end.

(** [computeFractalBatch]: the array [results] as the call leaves it.  A
    read outside [realValues] or [imagValues] (undefined in C++) yields 0,
    a write outside [results] is dropped. *)
Definition computeFractalBatch (fractalType : Z)
  (realValues imagValues : list float) (cReal cImag : float)
  (count maxIter : Z) (results : list Z) : list Z :=
  foldl
    (fun results i =>
       let real := default 0%float (realValues !! Z.to_nat i) in
       let imag := default 0%float (imagValues !! Z.to_nat i) in
       <[Z.to_nat i :=
           match fractalType with
           | 0 => mandelbrotIterations real imag maxIter
           | 1 => juliaIterations real imag cReal cImag maxIter
           | 2 => burningShipIterations real imag maxIter
           | 3 => newtonIterations real imag maxIter
           | _ => 0
           end]> results)
    results (seqZ 0 count).

End WithDivision.

End Wasm.

(** ** The specification's vocabulary *)

Module Spec.

(** Section 4.2: the index at which the stop condition first holds along
    z0, step z0, step (step z0), ..., counted from [i], and [i + n] when it
    holds at none of the first [n] states. *)
Fixpoint first_stop {A : Type} (stop : A -> bool) (step : A -> A)
  (z : A) (i : Z) (n : nat) : Z :=
  match n with
  | O => i
  | S n' => if stop z then i else first_stop stop step (step z) (i + 1) n'
  end.

Definition escape_index {A : Type} (stop : A -> bool) (step : A -> A)
  (z0 : A) (max_iterations : Z) : Z :=
  first_stop stop step z0 0 (Z.to_nat max_iterations).

(** The state after [i] steps. *)
Definition orbit {A : Type} (step : A -> A) (z0 : A) (i : nat) : A :=
  Nat.iter i step z0.

(** The stop condition of the table, |z|^2 > 4, on (re, im). *)
Definition escaped (z : float * float) : bool :=
  (4 <? fst z * fst z + snd z * snd z)%float.

(** The step rules of the table: z^2 + c, and (|Re z| + i |Im z|)^2 + c. *)
Definition quadratic_step (c z : float * float) : float * float :=
  (fst z * fst z - snd z * snd z + fst c, 2 * fst z * snd z + snd c)%float.

Definition ship_step (c z : float * float) : float * float :=
  let ax := Num.fabs (fst z) in
  let ay := Num.fabs (snd z) in
  (ax * ax - ay * ay + fst c, 2 * ax * ay + snd c)%float.

(** Section 4.1: the linear interpolation lo + (hi - lo) * k / (n - 1). *)
Definition linear_sample (lo hi : float) (n k : Z) : float :=
  (lo + (hi - lo) * Num.of_int k / Num.of_int (n - 1))%float.

(** The stop tests the two Mandelbrot kernels apply, and their step rules
    as the sources compute them. *)
Definition true_modulus_stop (z : Cx.complex) : bool :=
  negb (Cx.abs z <=? 2)%float.

Definition complex_step (c z : Cx.complex) : Cx.complex :=
  Cx.add (Cx.mul z z) c.

(** The continuation test of burning_ship.cpp, line 57, negated:
    zx^2 + zy^2 < 4 fails. *)
Definition not_inside (z : float * float) : bool :=
  negb (fst z * fst z + snd z * snd z <? 4)%float.

(** Among the first [n] states of the orbit from [z], every state before
    the first one with |z|^2 > 4 has |z|^2 < 4: the orbit neither touches
    the circle of radius 2 nor turns NaN before it escapes. *)
Fixpoint inside_until_escape (step : float * float -> float * float)
  (z : float * float) (n : nat) : bool :=
  match n with
  | O => true
  | S n' =>
      let s := (fst z * fst z + snd z * snd z)%float in
      if (4 <? s)%float then true
      else if (s <? 4)%float then inside_until_escape step (step z) n'
      else false
  end.

(** The colour [render_pixel] computes for pixel (px, py), with the plane
    sample written as the interpolation formula of section 4.1. *)
Definition mandelbrot_pixel_color (params : MandelbrotCPU.RenderParams)
  (px py : Z) : MandelbrotCPU.RGB :=
  MandelbrotCPU.iterations_to_color
    (MandelbrotCPU.mandelbrot_iterations
       (linear_sample (MandelbrotCPU.x_min params)
          (MandelbrotCPU.x_max params) (MandelbrotCPU.width params) px)
       (linear_sample (MandelbrotCPU.y_min params)
          (MandelbrotCPU.y_max params) (MandelbrotCPU.height params) py)
       (MandelbrotCPU.max_iter params))
    (MandelbrotCPU.max_iter params).

(** Channel [c] (0, 1, 2) of a colour. *)
Definition channel (color : MandelbrotCPU.RGB) (c : Z) : Z :=
  match c with
  | 0 => MandelbrotCPU.r color
  | 1 => MandelbrotCPU.g color
  | _ => MandelbrotCPU.b color
  end.

(** The colour the OpenMP loop body computes for pixel (px, py), from the
    precomputed steps of render_omp.cpp. *)
Definition omp_pixel_color (params : MandelbrotCPU.RenderParams)
  (px py : Z) : MandelbrotCPU.RGB :=
  MandelbrotCPU.iterations_to_color
    (MandelbrotOMP.mandelbrot_iterations_omp
       (MandelbrotCPU.x_min params
        + Num.of_int px * MandelbrotOMP.x_scale params)%float
       (MandelbrotCPU.y_min params
        + Num.of_int py * MandelbrotOMP.y_scale params)%float
       (MandelbrotCPU.max_iter params))
    (MandelbrotCPU.max_iter params).

(** The buffer of an image given pixel by pixel: row after row, pixel
    after pixel, the three channels of [color px py]. *)
Definition image_bytes (width height : Z)
  (color : Z -> Z -> MandelbrotCPU.RGB) : list Z :=
  py ← seqZ 0 height;
  px ← seqZ 0 width;
  [MandelbrotCPU.r (color px py); MandelbrotCPU.g (color px py);
   MandelbrotCPU.b (color px py)].

(** Section 4.3: the colour (0, 0, 0). *)
Definition is_black (color : Z * Z * Z) : bool :=
  let '(r, g, b) := color in (r =? 0) && (g =? 0) && (b =? 0).

(** No root colour of [rootToRGB] is black for the cap [max_iterations]:
    all three roots at every step count 0..max_iterations. *)
Definition newton_colours_visible (max_iterations : Z) : bool :=
  forallb
    (fun iterations =>
       forallb
         (fun root =>
            negb (is_black
                    (NewtonFractalCPU.rootToRGB max_iterations root
                       iterations)))
         [1; 2; 3])
    (seqZ 0 (max_iterations + 1)).

(** No escaped count of [iterationsToRGB] is black for the cap
    [max_iterations]: every count 0..max_iterations - 1. *)
Definition ship_colours_visible (max_iterations : Z) : bool :=
  forallb
    (fun iterations =>
       negb (is_black
               (BurningShipCPU.iterationsToRGB max_iterations iterations)))
    (seqZ 0 max_iterations).

End Spec.

(** * Properties *)

(** ** The escape index *)

Section FirstStop.

Context {A : Type} (stop : A -> bool) (step : A -> A).

Lemma first_stop_bounds (n : nat) (z : A) (i : Z) :
  i <= Spec.first_stop stop step z i n <= i + Z.of_nat n.
Proof.
  revert z i; induction n as [|n IH]; intros z i; simpl.
  - lia.
  - destruct (stop z); [lia|]. specialize (IH (step z) (i + 1)). lia.
Qed.

Lemma first_stop_before (n : nat) (z : A) (i : Z) (k : nat) :
  i + Z.of_nat k < Spec.first_stop stop step z i n ->
  stop (Spec.orbit step z k) = false.
Proof.
  revert z i k; induction n as [|n IH]; intros z i k; simpl.
  - lia.
  - destruct (stop z) eqn:Hz; [lia|]. intros Hk.
    destruct k as [|k]; [exact Hz|].
    unfold Spec.orbit. rewrite Nat.iter_succ_r.
    apply (IH (step z) (i + 1) k). lia.
Qed.

Lemma first_stop_at (n : nat) (z : A) (i : Z) :
  Spec.first_stop stop step z i n < i + Z.of_nat n ->
  stop (Spec.orbit step z
          (Z.to_nat (Spec.first_stop stop step z i n - i))) = true.
Proof.
  revert z i; induction n as [|n IH]; intros z i; simpl.
  - lia.
  - destruct (stop z) eqn:Hz.
    + intros _. replace (i - i) with 0 by lia. exact Hz.
    + intros Hlt. specialize (IH (step z) (i + 1)).
      pose proof (first_stop_bounds n (step z) (i + 1)) as Hb.
      replace (Z.to_nat (Spec.first_stop stop step (step z) (i + 1) n - i))
        with (S (Z.to_nat (Spec.first_stop stop step (step z) (i + 1) n
                             - (i + 1)))) by lia.
      unfold Spec.orbit in *. rewrite Nat.iter_succ_r. apply IH. lia.
Qed.

(** An index with no stop before it, and a stop at it unless it is the
    cap, is the one [first_stop] returns. *)
Lemma first_stop_unique (n : nat) (z : A) (r : nat) :
  (r <= n)%nat ->
  (forall k : nat, (k < r)%nat -> stop (Spec.orbit step z k) = false) ->
  ((r < n)%nat -> stop (Spec.orbit step z r) = true) ->
  Spec.first_stop stop step z 0 n = Z.of_nat r.
Proof.
  intros Hle Hbefore Hat.
  pose proof (first_stop_bounds n z 0) as Hb.
  destruct (Z.lt_trichotomy (Spec.first_stop stop step z 0 n) (Z.of_nat r))
    as [Hl|[He|Hg]]; [|exact He|].
  - assert (Hs : Spec.first_stop stop step z 0 n < 0 + Z.of_nat n) by lia.
    apply first_stop_at in Hs.
    rewrite Hbefore in Hs; [discriminate|lia].
  - assert (Hr : (r < n)%nat) by lia.
    apply (first_stop_before n z 0 r) in Hg.
    rewrite (Hat Hr) in Hg. discriminate.
Qed.

End FirstStop.

(** ** The kernels as escape indices *)

Ltac fuel_step max i :=
  replace (Z.to_nat (max - i)) with (S (Z.to_nat (max - (i + 1)))) by lia.

(** [julia_iterations] (julia.cpp) returns the first index at which
    zx^2 + zy^2 > 4 holds on the orbit of z^2 + c from the sample, and the
    cap when there is none. *)
Lemma julia_loop_first_stop (cx cy : float) (max_iter : Z) (fuel : nat) :
  forall (zx zy : float) (i : Z),
    i <= max_iter -> fuel = Z.to_nat (max_iter - i) ->
    JuliaRenderer.julia_loop fuel zx zy cx cy i max_iter
    = Spec.first_stop Spec.escaped (Spec.quadratic_step (cx, cy)) (zx, zy)
        i fuel.
Proof.
  induction fuel as [|fuel IH]; intros zx zy i Hi Hfuel.
  - cbn [JuliaRenderer.julia_loop Spec.first_stop]. lia.
  - cbn [JuliaRenderer.julia_loop Spec.first_stop].
    replace (i <? max_iter) with true by (symmetry; apply Z.ltb_lt; lia).
    unfold Spec.escaped at 1. cbn [fst snd].
    destruct (4 <? zx * zx + zy * zy)%float; [reflexivity|].
    rewrite IH by lia. reflexivity.
Qed.

Lemma julia_iterations_escape_index (x y cx cy : float) (max_iter : Z) :
  0 <= max_iter ->
  JuliaRenderer.julia_iterations x y cx cy max_iter
  = Spec.escape_index Spec.escaped (Spec.quadratic_step (cx, cy)) (x, y)
      max_iter.
Proof.
  intros H. unfold JuliaRenderer.julia_iterations, Spec.escape_index.
  apply julia_loop_first_stop; [lia|f_equal; lia].
Qed.

(** [mandelbrot_iterations_omp] (render_omp.hpp): the same index, from
    z0 = 0 with c the sample. *)
Lemma omp_loop_first_stop (real imag : float) (max_iter : Z) (fuel : nat) :
  forall (zr zi : float) (iter : Z),
    fuel = Z.to_nat (max_iter - iter) ->
    MandelbrotOMP.omp_loop fuel real imag zr zi iter max_iter
    = Spec.first_stop Spec.escaped (Spec.quadratic_step (real, imag))
        (zr, zi) iter fuel.
Proof.
  induction fuel as [|fuel IH]; intros zr zi iter Hfuel.
  - reflexivity.
  - cbn [MandelbrotOMP.omp_loop Spec.first_stop].
    replace (iter <? max_iter) with true by (symmetry; apply Z.ltb_lt; lia).
    unfold Spec.escaped at 1. cbn [fst snd].
    destruct (4 <? zr * zr + zi * zi)%float; [reflexivity|].
    rewrite IH by lia. reflexivity.
Qed.

Lemma mandelbrot_iterations_omp_escape_index (real imag : float)
  (max_iter : Z) :
  MandelbrotOMP.mandelbrot_iterations_omp real imag max_iter
  = Spec.escape_index Spec.escaped (Spec.quadratic_step (real, imag))
      (0, 0)%float max_iter.
Proof.
  unfold MandelbrotOMP.mandelbrot_iterations_omp, Spec.escape_index.
  apply omp_loop_first_stop. f_equal; lia.
Qed.

(** [mandelbrot_iterations] (render.cpp): the first index at which
    [std::abs(z) <= 2.0] fails. *)
Lemma mandelbrot_loop_first_stop (c : Cx.complex) (max_iter : Z)
  (fuel : nat) :
  forall (z : Cx.complex) (iterations : Z),
    fuel = Z.to_nat (max_iter - iterations) ->
    MandelbrotCPU.mandelbrot_loop fuel c z iterations max_iter
    = Spec.first_stop Spec.true_modulus_stop (Spec.complex_step c) z
        iterations fuel.
Proof.
  induction fuel as [|fuel IH]; intros z iterations Hfuel.
  - reflexivity.
  - cbn [MandelbrotCPU.mandelbrot_loop Spec.first_stop].
    replace (iterations <? max_iter) with true
      by (symmetry; apply Z.ltb_lt; lia).
    unfold Spec.true_modulus_stop at 1. rewrite andb_true_r.
    destruct (Cx.abs z <=? 2)%float; [|reflexivity].
    cbn [negb]. rewrite IH by lia. reflexivity.
Qed.

Lemma mandelbrot_iterations_first_stop (real imag : float) (max_iter : Z) :
  MandelbrotCPU.mandelbrot_iterations real imag max_iter
  = Spec.escape_index Spec.true_modulus_stop
      (Spec.complex_step (Cx.mk real imag)) Cx.zero max_iter.
Proof.
  unfold MandelbrotCPU.mandelbrot_iterations, Spec.escape_index.
  apply mandelbrot_loop_first_stop. f_equal; lia.
Qed.

(** [computeBurningShip] (burning_ship.cpp): the first index at which
    [zx * zx + zy * zy < 4.0] fails. *)
Lemma ship_loop_first_stop (cx cy : float) (max_iterations : Z)
  (fuel : nat) :
  forall (zx zy : float) (iterations : Z),
    fuel = Z.to_nat (max_iterations - iterations) ->
    BurningShipCPU.ship_loop fuel cx cy zx zy iterations max_iterations
    = Spec.first_stop
        (fun z => negb (fst z * fst z + snd z * snd z <? 4)%float)
        (Spec.ship_step (cx, cy)) (zx, zy) iterations fuel.
Proof.
  induction fuel as [|fuel IH]; intros zx zy iterations Hfuel.
  - reflexivity.
  - cbn [BurningShipCPU.ship_loop Spec.first_stop].
    replace (iterations <? max_iterations) with true
      by (symmetry; apply Z.ltb_lt; lia).
    rewrite andb_true_r. cbn [fst snd].
    destruct (zx * zx + zy * zy <? 4)%float; [|reflexivity].
    cbn [negb]. rewrite IH by lia. reflexivity.
Qed.

Lemma computeBurningShip_first_stop (max_iterations : Z) (cx cy : float) :
  BurningShipCPU.computeBurningShip max_iterations cx cy
  = Spec.escape_index
      (fun z => negb (fst z * fst z + snd z * snd z <? 4)%float)
      (Spec.ship_step (cx, cy)) (0, 0)%float max_iterations.
Proof.
  unfold BurningShipCPU.computeBurningShip, Spec.escape_index.
  apply ship_loop_first_stop. f_equal; lia.
Qed.

(** ** Fuel adequacy: the loops stop by their own guard

    Every loop model is run with fuel [Z.to_nat max_iter]; any larger fuel
    gives the same result, so the fuel never cuts a run short. *)

Lemma mandelbrot_loop_fuel (c : Cx.complex) (max_iter : Z) (fuel : nat) :
  forall (z : Cx.complex) (iterations : Z),
    (Z.to_nat (max_iter - iterations) <= fuel)%nat ->
    MandelbrotCPU.mandelbrot_loop fuel c z iterations max_iter
    = MandelbrotCPU.mandelbrot_loop (Z.to_nat (max_iter - iterations)) c z
        iterations max_iter.
Proof.
  induction fuel as [|fuel IH]; intros z iterations Hfuel.
  - replace (Z.to_nat (max_iter - iterations)) with O by lia. reflexivity.
  - cbn [MandelbrotCPU.mandelbrot_loop].
    destruct (iterations <? max_iter) eqn:Hlt.
    + apply Z.ltb_lt in Hlt. fuel_step max_iter iterations.
      cbn [MandelbrotCPU.mandelbrot_loop].
      replace (iterations <? max_iter) with true
        by (symmetry; apply Z.ltb_lt; lia).
      destruct (Cx.abs z <=? 2)%float; cbn [andb]; [|reflexivity].
      apply IH. lia.
    + rewrite andb_false_r.
      apply Z.ltb_ge in Hlt.
      replace (Z.to_nat (max_iter - iterations)) with O by lia. reflexivity.
Qed.

Lemma omp_loop_fuel (real imag : float) (max_iter : Z) (fuel : nat) :
  forall (zr zi : float) (iter : Z),
    (Z.to_nat (max_iter - iter) <= fuel)%nat ->
    MandelbrotOMP.omp_loop fuel real imag zr zi iter max_iter
    = MandelbrotOMP.omp_loop (Z.to_nat (max_iter - iter)) real imag zr zi
        iter max_iter.
Proof.
  induction fuel as [|fuel IH]; intros zr zi iter Hfuel.
  - replace (Z.to_nat (max_iter - iter)) with O by lia. reflexivity.
  - cbn [MandelbrotOMP.omp_loop].
    destruct (iter <? max_iter) eqn:Hlt.
    + apply Z.ltb_lt in Hlt. fuel_step max_iter iter.
      cbn [MandelbrotOMP.omp_loop].
      replace (iter <? max_iter) with true by (symmetry; apply Z.ltb_lt; lia).
      destruct (4 <? zr * zr + zi * zi)%float; [reflexivity|].
      apply IH. lia.
    + apply Z.ltb_ge in Hlt.
      replace (Z.to_nat (max_iter - iter)) with O by lia. reflexivity.
Qed.

Lemma julia_loop_fuel (cx cy : float) (max_iter : Z) (fuel : nat) :
  forall (zx zy : float) (i : Z),
    (Z.to_nat (max_iter - i) <= fuel)%nat ->
    JuliaRenderer.julia_loop fuel zx zy cx cy i max_iter
    = JuliaRenderer.julia_loop (Z.to_nat (max_iter - i)) zx zy cx cy i
        max_iter.
Proof.
  induction fuel as [|fuel IH]; intros zx zy i Hfuel.
  - replace (Z.to_nat (max_iter - i)) with O by lia. reflexivity.
  - cbn [JuliaRenderer.julia_loop].
    destruct (i <? max_iter) eqn:Hlt.
    + apply Z.ltb_lt in Hlt. fuel_step max_iter i.
      cbn [JuliaRenderer.julia_loop].
      replace (i <? max_iter) with true by (symmetry; apply Z.ltb_lt; lia).
      destruct (4 <? zx * zx + zy * zy)%float; [reflexivity|].
      apply IH. lia.
    + apply Z.ltb_ge in Hlt.
      replace (Z.to_nat (max_iter - i)) with O by lia. reflexivity.
Qed.

Lemma ship_loop_fuel (cx cy : float) (max_iterations : Z) (fuel : nat) :
  forall (zx zy : float) (iterations : Z),
    (Z.to_nat (max_iterations - iterations) <= fuel)%nat ->
    BurningShipCPU.ship_loop fuel cx cy zx zy iterations max_iterations
    = BurningShipCPU.ship_loop (Z.to_nat (max_iterations - iterations))
        cx cy zx zy iterations max_iterations.
Proof.
  induction fuel as [|fuel IH]; intros zx zy iterations Hfuel.
  - replace (Z.to_nat (max_iterations - iterations)) with O by lia.
    reflexivity.
  - cbn [BurningShipCPU.ship_loop].
    destruct (iterations <? max_iterations) eqn:Hlt.
    + apply Z.ltb_lt in Hlt. fuel_step max_iterations iterations.
      cbn [BurningShipCPU.ship_loop].
      replace (iterations <? max_iterations) with true
        by (symmetry; apply Z.ltb_lt; lia).
      destruct (zx * zx + zy * zy <? 4)%float; cbn [andb]; [|reflexivity].
      apply IH. lia.
    + rewrite andb_false_r.
      apply Z.ltb_ge in Hlt.
      replace (Z.to_nat (max_iterations - iterations)) with O by lia.
      reflexivity.
Qed.

Lemma newton_loop_fuel (cdiv : Cx.complex -> Cx.complex -> Cx.complex)
  (max_iterations : Z) (fuel : nat) :
  forall (z : Cx.complex) (iterations : Z),
    (Z.to_nat (max_iterations - iterations) <= fuel)%nat ->
    NewtonFractalCPU.newton_loop cdiv fuel z iterations max_iterations
    = NewtonFractalCPU.newton_loop cdiv
        (Z.to_nat (max_iterations - iterations)) z iterations max_iterations.
Proof.
  induction fuel as [|fuel IH]; intros z iterations Hfuel.
  - replace (Z.to_nat (max_iterations - iterations)) with O by lia.
    reflexivity.
  - cbn [NewtonFractalCPU.newton_loop].
    destruct (iterations <? max_iterations) eqn:Hlt.
    + apply Z.ltb_lt in Hlt. fuel_step max_iterations iterations.
      cbn [NewtonFractalCPU.newton_loop].
      replace (iterations <? max_iterations) with true
        by (symmetry; apply Z.ltb_lt; lia).
      destruct (Cx.abs _ <? _)%float; [reflexivity|].
      apply IH. lia.
    + apply Z.ltb_ge in Hlt.
      replace (Z.to_nat (max_iterations - iterations)) with O by lia.
      reflexivity.
Qed.

Lemma wasm_mandelbrot_loop_fuel (c : Cx.complex) (maxIter : Z) (fuel : nat) :
  forall (z : Cx.complex) (i : Z),
    (Z.to_nat (maxIter - i) <= fuel)%nat ->
    Wasm.mandelbrot_loop fuel c z i maxIter
    = Wasm.mandelbrot_loop (Z.to_nat (maxIter - i)) c z i maxIter.
Proof.
  induction fuel as [|fuel IH]; intros z i Hfuel.
  - replace (Z.to_nat (maxIter - i)) with O by lia. reflexivity.
  - cbn [Wasm.mandelbrot_loop].
    destruct (i <? maxIter) eqn:Hlt.
    + apply Z.ltb_lt in Hlt. fuel_step maxIter i.
      cbn [Wasm.mandelbrot_loop].
      replace (i <? maxIter) with true by (symmetry; apply Z.ltb_lt; lia).
      destruct (2 <? Cx.abs z)%float; [reflexivity|].
      apply IH. lia.
    + apply Z.ltb_ge in Hlt.
      replace (Z.to_nat (maxIter - i)) with O by lia. reflexivity.
Qed.

Lemma wasm_ship_loop_fuel (c : Cx.complex) (maxIter : Z) (fuel : nat) :
  forall (z : Cx.complex) (i : Z),
    (Z.to_nat (maxIter - i) <= fuel)%nat ->
    Wasm.ship_loop fuel c z i maxIter
    = Wasm.ship_loop (Z.to_nat (maxIter - i)) c z i maxIter.
Proof.
  induction fuel as [|fuel IH]; intros z i Hfuel.
  - replace (Z.to_nat (maxIter - i)) with O by lia. reflexivity.
  - cbn [Wasm.ship_loop].
    destruct (i <? maxIter) eqn:Hlt.
    + apply Z.ltb_lt in Hlt. fuel_step maxIter i.
      cbn [Wasm.ship_loop].
      replace (i <? maxIter) with true by (symmetry; apply Z.ltb_lt; lia).
      destruct (2 <? Cx.abs z)%float; [reflexivity|].
      apply IH. lia.
    + apply Z.ltb_ge in Hlt.
      replace (Z.to_nat (maxIter - i)) with O by lia. reflexivity.
Qed.

Lemma wasm_newton_loop_fuel
  (cdiv : Cx.complex -> Cx.complex -> Cx.complex) (maxIter : Z)
  (fuel : nat) :
  forall (z : Cx.complex) (i : Z),
    (Z.to_nat (maxIter - i) <= fuel)%nat ->
    Wasm.newton_loop cdiv fuel z i maxIter
    = Wasm.newton_loop cdiv (Z.to_nat (maxIter - i)) z i maxIter.
Proof.
  induction fuel as [|fuel IH]; intros z i Hfuel.
  - replace (Z.to_nat (maxIter - i)) with O by lia. reflexivity.
  - cbn [Wasm.newton_loop].
    destruct (i <? maxIter) eqn:Hlt.
    + apply Z.ltb_lt in Hlt. fuel_step maxIter i.
      cbn [Wasm.newton_loop].
      replace (i <? maxIter) with true by (symmetry; apply Z.ltb_lt; lia).
      cbv zeta.
      repeat (destruct (_ <? _)%float; [reflexivity|]).
      apply IH. lia.
    + apply Z.ltb_ge in Hlt.
      replace (Z.to_nat (maxIter - i)) with O by lia. reflexivity.
Qed.

(** ** Bounds on the step counts *)

Lemma escape_index_bounds {A : Type} (stop : A -> bool) (step : A -> A)
  (z0 : A) (max_iterations : Z) :
  0 <= max_iterations ->
  0 <= Spec.escape_index stop step z0 max_iterations <= max_iterations.
Proof.
  intros H. unfold Spec.escape_index.
  pose proof (first_stop_bounds stop step (Z.to_nat max_iterations) z0 0).
  lia.
Qed.





(** ** Escape at the first test *)

Lemma abs_zero_within_radius : (Cx.abs Cx.zero <=? 2)%float = true.
Proof. reflexivity. Qed.

Lemma mandelbrot_iterations_positive (real imag : float) (max_iter : Z) :
  0 < max_iter -> 1 <= MandelbrotCPU.mandelbrot_iterations real imag max_iter.
Proof.
  intros H. unfold MandelbrotCPU.mandelbrot_iterations.
  replace (Z.to_nat max_iter) with (S (Z.to_nat (max_iter - 1))) by lia.
  cbn [MandelbrotCPU.mandelbrot_loop].
  rewrite abs_zero_within_radius.
  replace (0 <? max_iter) with true by (symmetry; apply Z.ltb_lt; lia).
  cbn [andb]. rewrite mandelbrot_loop_first_stop by (f_equal; lia).
  pose proof (first_stop_bounds Spec.true_modulus_stop
                (Spec.complex_step (Cx.mk real imag))
                (Z.to_nat (max_iter - 1))
                (Cx.add (Cx.mul Cx.zero Cx.zero) (Cx.mk real imag)) (0 + 1)).
  lia.
Qed.

Lemma mandelbrot_iterations_one (real imag : float) (max_iter : Z) :
  0 < max_iter ->
  Spec.true_modulus_stop (Spec.complex_step (Cx.mk real imag) Cx.zero) = true ->
  MandelbrotCPU.mandelbrot_iterations real imag max_iter = 1.
Proof.
  intros H Hstop. unfold MandelbrotCPU.mandelbrot_iterations.
  replace (Z.to_nat max_iter) with (S (Z.to_nat (max_iter - 1))) by lia.
  cbn [MandelbrotCPU.mandelbrot_loop].
  rewrite abs_zero_within_radius.
  replace (0 <? max_iter) with true by (symmetry; apply Z.ltb_lt; lia).
  cbn [andb].
  unfold Spec.true_modulus_stop, Spec.complex_step in Hstop.
  apply negb_true_iff in Hstop.
  destruct (Z.to_nat (max_iter - 1)); cbn [MandelbrotCPU.mandelbrot_loop];
    [reflexivity|].
  rewrite Hstop. reflexivity.
Qed.

Lemma wasm_mandelbrotIterations_positive (real imag : float) (maxIter : Z) :
  0 < maxIter -> 1 <= Wasm.mandelbrotIterations real imag maxIter.
Proof.
  intros H. unfold Wasm.mandelbrotIterations.
  replace (Z.to_nat maxIter) with (S (Z.to_nat (maxIter - 1))) by lia.
  cbn [Wasm.mandelbrot_loop].
  replace (0 <? maxIter) with true by (symmetry; apply Z.ltb_lt; lia).
  replace (2 <? Cx.abs Cx.zero)%float with false by reflexivity.
  generalize (Cx.add (Cx.mul Cx.zero Cx.zero) (Cx.mk real imag)).
  assert (Hgen : forall fuel z i, 1 <= i -> i <= maxIter ->
            1 <= Wasm.mandelbrot_loop fuel (Cx.mk real imag) z i maxIter).
  { induction fuel as [|fuel IH]; intros z i Hi Hle;
      cbn [Wasm.mandelbrot_loop]; [lia|].
    destruct (i <? maxIter) eqn:Hlt; [|lia].
    apply Z.ltb_lt in Hlt.
    destruct (2 <? Cx.abs z)%float; [lia|]. apply IH; lia. }
  intros z. apply Hgen; lia.
Qed.

Lemma computeBurningShip_positive (max_iterations : Z) (cx cy : float) :
  0 < max_iterations ->
  1 <= BurningShipCPU.computeBurningShip max_iterations cx cy.
Proof.
  intros H. unfold BurningShipCPU.computeBurningShip.
  replace (Z.to_nat max_iterations)
    with (S (Z.to_nat (max_iterations - 1))) by lia.
  cbn [BurningShipCPU.ship_loop].
  replace (0 * 0 + 0 * 0 <? 4)%float with true by reflexivity.
  replace (0 <? max_iterations) with true by (symmetry; apply Z.ltb_lt; lia).
  cbn [andb]. rewrite ship_loop_first_stop by (f_equal; lia).
  match goal with
  | |- 1 <= Spec.first_stop ?stop ?step ?z ?i ?n =>
      pose proof (first_stop_bounds stop step n z i)
  end.
  lia.
Qed.

Lemma mandelbrot_iterations_omp_positive (real imag : float) (max_iter : Z) :
  0 < max_iter -> 1 <= MandelbrotOMP.mandelbrot_iterations_omp real imag max_iter.
Proof.
  intros H. unfold MandelbrotOMP.mandelbrot_iterations_omp.
  replace (Z.to_nat max_iter) with (S (Z.to_nat (max_iter - 1))) by lia.
  cbn [MandelbrotOMP.omp_loop].
  replace (0 <? max_iter) with true by (symmetry; apply Z.ltb_lt; lia).
  cbv zeta. replace (4 <? 0 * 0 + 0 * 0)%float with false by reflexivity.
  rewrite omp_loop_first_stop by (f_equal; lia).
  match goal with
  | |- 1 <= Spec.first_stop ?stop ?step ?z ?i ?n =>
      pose proof (first_stop_bounds stop step n z i)
  end.
  lia.
Qed.

Lemma mandelbrot_iterations_omp_one (real imag : float) (max_iter : Z) :
  1 < max_iter ->
  Spec.escaped (Spec.quadratic_step (real, imag) (0, 0)%float) = true ->
  MandelbrotOMP.mandelbrot_iterations_omp real imag max_iter = 1.
Proof.
  intros H Hesc. unfold MandelbrotOMP.mandelbrot_iterations_omp.
  replace (Z.to_nat max_iter) with (S (S (Z.to_nat (max_iter - 2)))) by lia.
  cbn [MandelbrotOMP.omp_loop].
  replace (0 <? max_iter) with true by (symmetry; apply Z.ltb_lt; lia).
  cbv zeta. replace (4 <? 0 * 0 + 0 * 0)%float with false by reflexivity.
  replace (0 + 1 <? max_iter) with true by (symmetry; apply Z.ltb_lt; lia).
  unfold Spec.escaped, Spec.quadratic_step in Hesc. cbn [fst snd] in Hesc.
  rewrite Hesc. reflexivity.
Qed.

(** C2, as the code has it.  For every cap [max_iter > 0]: a Julia sample
    with x^2 + y^2 > 4 returns 0; the Mandelbrot kernels (render.cpp,
    render_omp.hpp and the wasm one) and the Burning Ship kernel start from
    z0 = 0, which passes the first test, so they never return 0;
    [mandelbrot_iterations] returns 1 for a sample whose first iterate
    0^2 + c fails [std::abs(z) <= 2.0], and [mandelbrot_iterations_omp]
    returns 1 for a sample whose first iterate has zr^2 + zi^2 > 4. *)
Theorem immediate_escape (max_iter : Z) :
  0 < max_iter ->
  (forall x y cx cy : float,
      (4 <? x * x + y * y)%float = true ->
      JuliaRenderer.julia_iterations x y cx cy max_iter = 0)
  /\ (forall real imag : float,
         1 <= MandelbrotCPU.mandelbrot_iterations real imag max_iter)
  /\ (forall real imag : float,
         Spec.true_modulus_stop
           (Spec.complex_step (Cx.mk real imag) Cx.zero) = true ->
         MandelbrotCPU.mandelbrot_iterations real imag max_iter = 1)
  /\ (forall real imag : float,
         1 <= MandelbrotOMP.mandelbrot_iterations_omp real imag max_iter)
  /\ (forall real imag : float,
         Spec.escaped (Spec.quadratic_step (real, imag) (0, 0)%float) = true ->
         MandelbrotOMP.mandelbrot_iterations_omp real imag max_iter = 1)
  /\ (forall real imag : float,
         1 <= Wasm.mandelbrotIterations real imag max_iter)
  /\ (forall cx cy : float,
         1 <= BurningShipCPU.computeBurningShip max_iter cx cy).
Proof.
  intros H. repeat split.
  - intros x y cx cy Hesc. unfold JuliaRenderer.julia_iterations.
    replace (Z.to_nat max_iter) with (S (Z.to_nat (max_iter - 1))) by lia.
    cbn [JuliaRenderer.julia_loop].
    replace (0 <? max_iter) with true by (symmetry; apply Z.ltb_lt; lia).
    rewrite Hesc. reflexivity.
  - intros. apply mandelbrot_iterations_positive; exact H.
  - intros. apply mandelbrot_iterations_one; assumption.
  - intros. apply mandelbrot_iterations_omp_positive; exact H.
  - intros real imag Hesc.
    destruct (Z.eq_dec max_iter 1) as [->|Hne].
    + pose proof (mandelbrot_iterations_omp_positive real imag 1 H) as Hlo.
      pose proof (mandelbrot_iterations_omp_escape_index real imag 1) as Hidx.
      pose proof (escape_index_bounds Spec.escaped
                    (Spec.quadratic_step (real, imag)) (0, 0)%float 1) as Hhi.
      rewrite <- Hidx in Hhi. lia.
    + apply mandelbrot_iterations_omp_one; [lia|exact Hesc].
  - intros. apply wasm_mandelbrotIterations_positive; exact H.
  - intros. apply computeBurningShip_positive; exact H.
Qed.

Lemma immediate_escape_witness :
  JuliaRenderer.julia_iterations 3 0 (-0.8) 0.156 1000 = 0
  /\ MandelbrotCPU.mandelbrot_iterations 3 0 1000 = 1
  /\ MandelbrotOMP.mandelbrot_iterations_omp 3 0 1000 = 1
  /\ 1 <= Wasm.mandelbrotIterations 3 0 1000
  /\ 1 <= BurningShipCPU.computeBurningShip 1000 3 0.
Proof.
  assert (Hpos : 0 < 1000) by lia.
  pose proof (immediate_escape 1000 Hpos) as (HJ & _ & HM & _ & HO & HW & HB).
  split; [apply HJ; reflexivity|].
  split; [apply HM; reflexivity|].
  split; [apply HO; reflexivity|].
  split; [apply HW|apply HB].
Defined.

(** C2 fails as stated on the Mandelbrot kernels: the sample c = 3 + 0i has
    re^2 + im^2 = 9 > 4, and the kernels of render.cpp, render_omp.hpp and
    fractals_wasm.cpp all return 1, not 0. *)
Lemma immediate_escape_counterexample :
  (4 <? 3 * 3 + 0 * 0)%float = true
  /\ MandelbrotCPU.mandelbrot_iterations 3 0 1000 = 1
  /\ MandelbrotOMP.mandelbrot_iterations_omp 3 0 1000 = 1
  /\ Wasm.mandelbrotIterations 3 0 1000 = 1.
Proof. vm_compute. repeat split; reflexivity. Qed.

(** ** True modulus against squared modulus *)

(** C7 on the code.  render_omp.hpp, line 66, takes zr2 + zi2 > 4.0 for
    equivalent to |z| > 2, and the render.cpp kernel tests
    [std::abs(z) <= 2.0]; in double arithmetic the two kernels part.
    A one-pixel-wide request (width 1 passes the validation of main.cpp)
    makes both renders sample NaN in the only column: there
    [mandelbrot_iterations] stops at 1 ([NaN <= 2.0] is false) and
    [mandelbrot_iterations_omp] runs to the cap ([NaN > 4.0] is false).
    On the finite sample c = 2 + 2^-25 i rounding separates them the other
    way: zr2 + zi2 is 4 + 2^-50 > 4 and the squared-modulus kernel returns
    1, while the modulus rounds to exactly 2 and the true-modulus kernel
    returns 2. *)
Theorem squared_modulus_kernels_differ :
  MandelbrotCPU.sample_real
    (MandelbrotCPU.mkParams 1 10 1000 (-2) 1 (-1.2) 1.2) 0 = nan
  /\ (-2 + Num.of_int 0
           * MandelbrotOMP.x_scale
               (MandelbrotCPU.mkParams 1 10 1000 (-2) 1 (-1.2) 1.2))%float
     = nan
  /\ MandelbrotCPU.mandelbrot_iterations nan 0 1000 = 1
  /\ MandelbrotOMP.mandelbrot_iterations_omp nan 0 1000 = 1000
  /\ MandelbrotCPU.mandelbrot_iterations 2 0x1p-25 1000 = 2
  /\ MandelbrotOMP.mandelbrot_iterations_omp 2 0x1p-25 1000 = 1.
Proof. vm_compute. repeat split; reflexivity. Qed.

(** ** The image assembler: which byte each pixel ends up in *)

Section FoldWrites.

Context {B : Type} (f : list Z -> B -> list Z).

Lemma foldl_preserves (P : list Z -> Prop) (l : list B) :
  (forall acc x, P acc -> P (f acc x)) ->
  forall image : list Z, P image -> P (foldl f image l).
Proof.
  intros Hstep. induction l as [|x l IH]; intros image HP; cbn; [exact HP|].
  apply IH, Hstep, HP.
Qed.

Lemma foldl_lookup_untouched (l : list B) (j : nat) :
  (forall acc x, x ∈ l -> f acc x !! j = acc !! j) ->
  forall image : list Z, foldl f image l !! j = image !! j.
Proof.
  induction l as [|x l IH]; intros Hmiss image; cbn; [reflexivity|].
  rewrite IH.
  - apply Hmiss. left.
  - intros acc y Hy. apply Hmiss. right. exact Hy.
Qed.

Lemma foldl_lookup_written (P : list Z -> Prop) (l : list B) (j : nat)
  (x0 : B) (v : Z) :
  NoDup l -> x0 ∈ l ->
  (forall acc x, P acc -> P (f acc x)) ->
  (forall acc, P acc -> f acc x0 !! j = Some v) ->
  (forall acc x, x ∈ l -> x <> x0 -> f acc x !! j = acc !! j) ->
  forall image : list Z, P image -> foldl f image l !! j = Some v.
Proof.
  intros Hnodup Hin Hstep Hhit.
  induction l as [|x l IH]; intros Hmiss image HP.
  - inversion Hin.
  - cbn. apply NoDup_cons in Hnodup as [Hnotin Hnodup].
    apply elem_of_cons in Hin as [-> | Hin].
    + rewrite foldl_lookup_untouched; [apply Hhit, HP|].
      intros acc y Hy. apply Hmiss; [right; exact Hy|].
      intros ->. contradiction.
    + apply IH; [exact Hnodup|exact Hin| |apply Hstep, HP].
      intros acc y Hy. apply Hmiss. right. exact Hy.
Qed.

End FoldWrites.

Lemma pixel_index_inj (W px py px0 py0 : Z) :
  0 <= px < W -> 0 <= px0 < W ->
  py * W + px = py0 * W + px0 -> px = px0 /\ py = py0.
Proof. intros Hpx Hpx0 Heq. assert (py = py0) by nia. subst. lia. Qed.

(** An [int] result inside the 32-bit range is left as it is, and so are
    the two products that size the Mandelbrot buffer when the byte count
    fits. *)
Lemma wrap_int_exact (n : Z) :
  - 2 ^ 31 <= n <= Num.INT_MAX -> Num.wrap_int n = n.
Proof.
  unfold Num.wrap_int, Num.INT_MAX. intros H.
  rewrite Z.mod_small by lia. lia.
Qed.

Lemma byte_count_exact (params : MandelbrotCPU.RenderParams) :
  0 <= MandelbrotCPU.width params * MandelbrotCPU.height params ->
  MandelbrotCPU.width params * MandelbrotCPU.height params * 3
  <= Num.INT_MAX ->
  MandelbrotCPU.total_pixels params
  = MandelbrotCPU.width params * MandelbrotCPU.height params
  /\ MandelbrotCPU.byte_count params
     = MandelbrotCPU.width params * MandelbrotCPU.height params * 3.
Proof.
  intros Hlo Hhi. unfold MandelbrotCPU.byte_count, MandelbrotCPU.total_pixels.
  rewrite (wrap_int_exact (_ * _)) by (unfold Num.INT_MAX in *; lia).
  split; [reflexivity|]. apply wrap_int_exact. unfold Num.INT_MAX in *. lia.
Qed.

Lemma pixel_index_nonneg (W px py : Z) :
  0 <= px < W -> 0 <= py -> 0 <= py * W + px.
Proof. intros. nia. Qed.

Section MandelbrotAssembler.

Import MandelbrotCPU.

Variable params : RenderParams.
Let W := width params.

Lemma render_pixel_length (py px : Z) (image : list Z) :
  length (render_pixel params py image px) = length image.
Proof. unfold render_pixel. cbv zeta. rewrite !length_insert. reflexivity. Qed.

Lemma render_row_length (py : Z) (image : list Z) :
  length (render_row params py image) = length image.
Proof.
  unfold render_row.
  apply (foldl_preserves (render_pixel params py)
           (fun acc => length acc = length image)); [|reflexivity].
  intros acc x Hacc. rewrite render_pixel_length. exact Hacc.
Qed.

Lemma render_pixel_lookup_other (py px py0 px0 c : Z) (image : list Z) :
  0 <= px < W -> 0 <= py -> 0 <= px0 < W -> 0 <= py0 -> 0 <= c < 3 ->
  px <> px0 \/ py <> py0 ->
  render_pixel params py image px !! Z.to_nat ((py0 * W + px0) * 3 + c)
  = image !! Z.to_nat ((py0 * W + px0) * 3 + c).
Proof.
  intros Hpx Hpy Hpx0 Hpy0 Hc Hne.
  pose proof (pixel_index_nonneg W px py Hpx Hpy) as Ha.
  pose proof (pixel_index_nonneg W px0 py0 Hpx0 Hpy0) as Hb.
  assert (Hab : py * W + px <> py0 * W + px0).
  { intros Heq. apply pixel_index_inj in Heq; [|assumption..]. lia. }
  unfold render_pixel. cbv zeta. fold W.
  rewrite !list_lookup_insert_ne by lia. reflexivity.
Qed.

Lemma render_pixel_lookup_self (py px c : Z) (image : list Z) :
  0 <= px < W -> 0 <= py -> 0 <= c < 3 ->
  (py * W + px) * 3 + 2 < Z.of_nat (length image) ->
  render_pixel params py image px !! Z.to_nat ((py * W + px) * 3 + c)
  = Some (Spec.channel (Spec.mandelbrot_pixel_color params px py) c).
Proof.
  intros Hpx Hpy Hc Hlen.
  pose proof (pixel_index_nonneg W px py Hpx Hpy) as Ha.
  unfold render_pixel. cbv zeta. fold W.
  assert (Hcases : c = 0 \/ c = 1 \/ c = 2) by lia.
  destruct Hcases as [-> | [-> | ->]]; cbn [Spec.channel].
  - rewrite Z.add_0_r.
    rewrite !list_lookup_insert_ne by lia.
    rewrite list_lookup_insert_eq by lia. reflexivity.
  - rewrite list_lookup_insert_ne by lia.
    rewrite list_lookup_insert_eq by (rewrite length_insert; lia).
    reflexivity.
  - rewrite list_lookup_insert_eq by (rewrite !length_insert; lia).
    reflexivity.
Qed.

Lemma render_row_lookup_other (py py0 px0 c : Z) (image : list Z) :
  0 <= py -> 0 <= px0 < W -> 0 <= py0 -> 0 <= c < 3 -> py <> py0 ->
  render_row params py image !! Z.to_nat ((py0 * W + px0) * 3 + c)
  = image !! Z.to_nat ((py0 * W + px0) * 3 + c).
Proof.
  intros Hpy Hpx0 Hpy0 Hc Hne. unfold render_row.
  apply foldl_lookup_untouched. intros acc px Hin.
  apply elem_of_seqZ in Hin.
  apply render_pixel_lookup_other;
    [unfold W; lia|exact Hpy|exact Hpx0|exact Hpy0|exact Hc|right; exact Hne].
Qed.

Lemma render_row_lookup_self (py px c : Z) (image : list Z) :
  0 <= px < W -> 0 <= py -> 0 <= c < 3 ->
  (py * W + px) * 3 + 2 < Z.of_nat (length image) ->
  render_row params py image !! Z.to_nat ((py * W + px) * 3 + c)
  = Some (Spec.channel (Spec.mandelbrot_pixel_color params px py) c).
Proof.
  intros Hpx Hpy Hc Hlen. unfold render_row.
  apply (foldl_lookup_written (render_pixel params py)
           (fun acc => length acc = length image) _ _ px).
  - apply NoDup_seqZ.
  - apply elem_of_seqZ. unfold W in Hpx. lia.
  - intros acc x Hacc. rewrite render_pixel_length. exact Hacc.
  - intros acc Hacc.
    apply render_pixel_lookup_self; [exact Hpx|exact Hpy|exact Hc|].
    rewrite Hacc. exact Hlen.
  - intros acc x Hin Hx. apply elem_of_seqZ in Hin.
    apply render_pixel_lookup_other;
      [unfold W; lia|exact Hpy|exact Hpx|exact Hpy|exact Hc|left; exact Hx].
  - reflexivity.
Qed.

(** All rows, ignoring the progress check. *)
Lemma rows_lookup (px py c : Z) (image : list Z) :
  0 <= px < W -> 0 <= py < height params -> 0 <= c < 3 ->
  (py * W + px) * 3 + 2 < Z.of_nat (length image) ->
  foldl (fun acc y => render_row params y acc) image
    (seqZ 0 (height params)) !! Z.to_nat ((py * W + px) * 3 + c)
  = Some (Spec.channel (Spec.mandelbrot_pixel_color params px py) c).
Proof.
  intros Hpx Hpy Hc Hlen.
  apply (foldl_lookup_written (fun acc y => render_row params y acc)
           (fun acc => length acc = length image) _ _ py).
  - apply NoDup_seqZ.
  - apply elem_of_seqZ. lia.
  - intros acc y Hacc. rewrite render_row_length. exact Hacc.
  - intros acc Hacc.
    apply render_row_lookup_self; [exact Hpx|lia|exact Hc|].
    rewrite Hacc. exact Hlen.
  - intros acc y Hin Hy. apply elem_of_seqZ in Hin.
    apply render_row_lookup_other; [lia|exact Hpx|lia|exact Hc|exact Hy].
  - reflexivity.
Qed.

(** With [height / 10] nonzero the progress check never traps, and the row
    loop is the plain fold of [render_row]. *)
Lemma render_rows_done (rows : list Z) :
  Z.quot (height params) 10 <> 0 ->
  forall (image : list Z) (log : list event),
  exists log' : list event,
    render_rows params rows image log
    = Done (foldl (fun acc y => render_row params y acc) image rows, log').
Proof.
  intros Hq. induction rows as [|py rows IH]; intros image log.
  - exists log. reflexivity.
  - cbn [render_rows foldl].
    destruct (Z.eqb_spec (Z.quot (height params) 10) 0) as [E|_];
      [contradiction|].
    apply IH.
Qed.

(** With [height / 10] zero the first row ends in the trap. *)
Lemma render_rows_trap (rows : list Z) (image : list Z) (log : list event) :
  Z.quot (height params) 10 = 0 -> rows <> [] ->
  render_rows params rows image log = DivideByZero.
Proof.
  intros Hq Hne. destruct rows as [|py rows]; [contradiction|].
  cbn [render_rows]. rewrite Hq. reflexivity.
Qed.

(** The two tests on the byte count pass when the exact count fits an
    [int]. *)
Lemma render_mandelbrot_cpu_allocates (start_time end_time : Z) :
  0 <= W * height params -> W * height params * 3 <= Num.INT_MAX ->
  render_mandelbrot_cpu params start_time end_time
  = match render_rows params (seqZ 0 (height params))
            (replicate (Z.to_nat (W * height params * 3)) 0) [] with
    | Done (image_data', log) =>
        Done (image_data',
              log ++ [Finished (end_time - start_time)
                        (Num.of_int (W * height params) * 1000.0
                           / Num.of_int (end_time - start_time))%float])
    | LengthError => LengthError
    | DivideByZero => DivideByZero
    | Undefined => Undefined
    end.
Proof.
  intros Hlo Hhi. unfold render_mandelbrot_cpu.
  destruct (byte_count_exact params Hlo Hhi) as [-> ->]. fold W.
  replace (W * height params * 3 <? 0) with false
    by (symmetry; apply Z.ltb_ge; lia).
  rewrite Z.eqb_refl. reflexivity.
Qed.

Lemma render_mandelbrot_cpu_done (start_time end_time : Z) :
  0 <= W -> 10 <= height params -> W * height params * 3 <= Num.INT_MAX ->
  exists (image : list Z) (log : list event),
    render_mandelbrot_cpu params start_time end_time = Done (image, log)
    /\ image
       = foldl (fun acc y => render_row params y acc)
           (replicate (Z.to_nat (W * height params * 3)) 0)
           (seqZ 0 (height params))
    /\ length image = Z.to_nat (W * height params * 3).
Proof.
  intros HW HH Hfit.
  rewrite render_mandelbrot_cpu_allocates by (try exact Hfit; nia).
  assert (Hq : Z.quot (height params) 10 <> 0).
  { intros E. apply Z.quot_small_iff in E; lia. }
  destruct (render_rows_done (seqZ 0 (height params)) Hq
              (replicate (Z.to_nat (W * height params * 3)) 0) [])
    as [log' Hrows].
  rewrite Hrows. eexists _, _. split; [reflexivity|]. split; [reflexivity|].
  apply (foldl_preserves (fun acc y => render_row params y acc)
           (fun acc => length acc = Z.to_nat (W * height params * 3))).
  - intros acc y Hacc. rewrite render_row_length. exact Hacc.
  - apply length_replicate.
Qed.

End MandelbrotAssembler.

Section JuliaAssembler.

Import JuliaRenderer.

Variable params : JuliaParams.
Let W := width params.

Lemma julia_render_pixel_length (py px : Z) (image : list Z) :
  length (render_pixel params py image px) = length image.
Proof. unfold render_pixel. cbv zeta. apply length_insert. Qed.

Lemma julia_row_length (py : Z) (image : list Z) :
  length (foldl (render_pixel params py) image (seqZ 0 W)) = length image.
Proof.
  apply (foldl_preserves (render_pixel params py)
           (fun acc => length acc = length image)); [|reflexivity].
  intros acc x Hacc. rewrite julia_render_pixel_length. exact Hacc.
Qed.

(** The buffer is allocated when the exact count fits an [int]. *)
Lemma julia_allocates_fit :
  0 <= W * height params -> W * height params <= Num.INT_MAX ->
  allocates params = true.
Proof.
  intros Hlo Hhi. unfold allocates. cbv zeta. fold W.
  rewrite wrap_int_exact by (unfold Num.INT_MAX in *; lia).
  rewrite Z.eqb_refl, andb_true_r. apply Z.leb_le. exact Hlo.
Qed.

Lemma julia_allocates_range :
  allocates params = true -> 0 <= W * height params <= Num.INT_MAX.
Proof.
  unfold allocates. cbv zeta. fold W. intros Halloc.
  apply andb_true_iff in Halloc as [Hlo Heq].
  apply Z.leb_le in Hlo. apply Z.eqb_eq in Heq. rewrite Heq in Hlo.
  split; [exact Hlo|]. rewrite <- Heq.
  unfold Num.wrap_int, Num.INT_MAX.
  pose proof (Z.mod_pos_bound (W * height params + 2 ^ 31) (2 ^ 32)
                ltac:(lia)).
  lia.
Qed.

Lemma julia_render_data_lookup (px py : Z) :
  0 <= px < W -> 0 <= py < height params ->
  W * height params <= Num.INT_MAX ->
  render_data params !! Z.to_nat (py * W + px)
  = Some (julia_iterations (sample_x params px) (sample_y params py)
            (cx params) (cy params) (max_iterations params)).
Proof.
  intros Hpx Hpy Hfit. unfold render_data.
  rewrite julia_allocates_fit by (try exact Hfit; nia).
  cbv zeta. fold W.
  set (image := replicate (Z.to_nat (W * height params)) 0).
  assert (Hlen : py * W + px < Z.of_nat (length image)).
  { unfold image. rewrite length_replicate. nia. }
  pose proof (pixel_index_nonneg W px py Hpx (proj1 Hpy)) as Ha.
  apply (foldl_lookup_written
           (fun data y => foldl (render_pixel params y) data (seqZ 0 W))
           (fun acc => length acc = length image) _ _ py).
  - apply NoDup_seqZ.
  - apply elem_of_seqZ. lia.
  - intros acc y Hacc. rewrite julia_row_length. exact Hacc.
  - intros acc Hacc.
    apply (foldl_lookup_written (render_pixel params py)
             (fun acc' => length acc' = length image) _ _ px).
    + apply NoDup_seqZ.
    + apply elem_of_seqZ. lia.
    + intros acc' x Hacc'. rewrite julia_render_pixel_length. exact Hacc'.
    + intros acc' Hacc'. unfold render_pixel. cbv zeta. fold W.
      apply list_lookup_insert_eq. lia.
    + intros acc' x Hin Hx. apply elem_of_seqZ in Hin.
      unfold render_pixel. cbv zeta. fold W.
      apply list_lookup_insert_ne.
      assert (0 <= py * W + x) by (apply pixel_index_nonneg; lia). lia.
    + exact Hacc.
  - intros acc y Hin Hy. apply elem_of_seqZ in Hin.
    apply foldl_lookup_untouched. intros acc' x Hx.
    apply elem_of_seqZ in Hx.
    unfold render_pixel. cbv zeta. fold W.
    apply list_lookup_insert_ne.
    assert (Hne : y * W + x <> py * W + px).
    { intros Heq. apply pixel_index_inj in Heq; lia. }
    assert (0 <= y * W + x) by (apply pixel_index_nonneg; lia). lia.
  - reflexivity.
Qed.

End JuliaAssembler.

(** ** Viewport mapping *)

(** C4, as the code has it.  In a Mandelbrot CPU render whose byte count
    width * height * 3 fits an [int] and whose height is at least 10 (the
    renders that return), the three bytes of pixel (px, py) are the colour
    of the kernel at re = x_min + (x_max - x_min) * px / (W - 1),
    im = y_min + (y_max - y_min) * py / (H - 1); in a Julia render whose
    count width * height fits an [int] the count stored for pixel (jx, jy)
    is the kernel's at x = x_min + jx * ((x_max - x_min) / W),
    y = y_min + jy * ((y_max - y_min) / H); and for W = 801 and x-bounds
    [-2, 1] the Mandelbrot sample of column 400 is exactly -0.5 whatever the
    height. *)
Theorem viewport_mapping (params : MandelbrotCPU.RenderParams)
  (start_time end_time : Z) (px py : Z)
  (jparams : JuliaRenderer.JuliaParams) (jx jy : Z) :
  10 <= MandelbrotCPU.height params ->
  MandelbrotCPU.width params * MandelbrotCPU.height params * 3
  <= Num.INT_MAX ->
  0 <= px < MandelbrotCPU.width params ->
  0 <= py < MandelbrotCPU.height params ->
  JuliaRenderer.width jparams * JuliaRenderer.height jparams
  <= Num.INT_MAX ->
  0 <= jx < JuliaRenderer.width jparams ->
  0 <= jy < JuliaRenderer.height jparams ->
  (exists (image : list Z) (log : list MandelbrotCPU.event),
      MandelbrotCPU.render_mandelbrot_cpu params start_time end_time
      = MandelbrotCPU.Done (image, log)
      /\ forall c : Z, 0 <= c < 3 ->
           image !! Z.to_nat ((py * MandelbrotCPU.width params + px) * 3 + c)
           = Some (Spec.channel (Spec.mandelbrot_pixel_color params px py) c))
  /\ JuliaRenderer.render_data jparams
       !! Z.to_nat (jy * JuliaRenderer.width jparams + jx)
     = Some (JuliaRenderer.julia_iterations
               (JuliaRenderer.x_min jparams
                + Num.of_int jx
                  * ((JuliaRenderer.x_max jparams - JuliaRenderer.x_min jparams)
                     / Num.of_int (JuliaRenderer.width jparams)))%float
               (JuliaRenderer.y_min jparams
                + Num.of_int jy
                  * ((JuliaRenderer.y_max jparams - JuliaRenderer.y_min jparams)
                     / Num.of_int (JuliaRenderer.height jparams)))%float
               (JuliaRenderer.cx jparams) (JuliaRenderer.cy jparams)
               (JuliaRenderer.max_iterations jparams))
  /\ forall (h max_iter : Z) (y_min y_max : float),
       MandelbrotCPU.sample_real
         (MandelbrotCPU.mkParams 801 h max_iter (-2) 1 y_min y_max) 400
       = (-0.5)%float.
Proof.
  intros HH Hfit Hpx Hpy Hjfit Hjx Hjy. split; [|split].
  - destruct (render_mandelbrot_cpu_done params start_time end_time)
      as (image & log & Hdone & Himage & Hlen); [lia|exact HH|exact Hfit|].
    exists image, log. split; [exact Hdone|].
    intros c Hc. rewrite Himage. apply rows_lookup; try assumption.
    rewrite length_replicate.
    pose proof (pixel_index_nonneg (MandelbrotCPU.width params) px py
                  Hpx (proj1 Hpy)).
    nia.
  - apply julia_render_data_lookup; assumption.
  - intros. reflexivity.
Qed.

Lemma viewport_mapping_witness :
  (exists (image : list Z) (log : list MandelbrotCPU.event),
      MandelbrotCPU.render_mandelbrot_cpu
        (MandelbrotCPU.mkParams 3 10 5 (-2) 1 (-1.2) 1.2) 0 7
      = MandelbrotCPU.Done (image, log)
      /\ forall c : Z, 0 <= c < 3 ->
           image !! Z.to_nat ((2 * 3 + 1) * 3 + c)
           = Some (Spec.channel
                     (Spec.mandelbrot_pixel_color
                        (MandelbrotCPU.mkParams 3 10 5 (-2) 1 (-1.2) 1.2) 1 2)
                     c))
  /\ JuliaRenderer.render_data
       (JuliaRenderer.mkParams (-0.8) 0.156 3 2 5 (-2) 2 (-1.5) 1.5)
       !! Z.to_nat (1 * 3 + 1)
     = Some (JuliaRenderer.julia_iterations
               (-2 + Num.of_int 1 * ((2 - -2) / Num.of_int 3))%float
               (-1.5 + Num.of_int 1 * ((1.5 - -1.5) / Num.of_int 2))%float
               (-0.8) 0.156 5).
Proof.
  pose proof (viewport_mapping
                (MandelbrotCPU.mkParams 3 10 5 (-2) 1 (-1.2) 1.2) 0 7 1 2
                (JuliaRenderer.mkParams (-0.8) 0.156 3 2 5 (-2) 2 (-1.5) 1.5)
                1 1) as H.
  cbn [MandelbrotCPU.height MandelbrotCPU.width JuliaRenderer.width
       JuliaRenderer.height] in H.
  destruct H as (HM & HJ & _); [unfold Num.INT_MAX; lia..|].
  split; [exact HM|exact HJ].
Defined.

(** C4 fails as stated on the Julia renderer, whose step is
    (x_max - x_min) / W: with the classic preset (800 columns on [-2, 2]) the
    last column samples 1.995, not x_max = 2, and with W = 801 on [-2, 1]
    column 400 samples -0.50187..., not -0.5. *)
Lemma viewport_mapping_counterexample :
  JuliaRenderer.sample_x
    (JuliaRenderer.mkParams (-0.7269) 0.1889 800 600 1000 (-2) 2 (-1.5) 1.5)
    799 = 1.9950000000000001%float
  /\ Spec.linear_sample (-2) 2 800 799 = 2%float
  /\ JuliaRenderer.sample_x
       (JuliaRenderer.mkParams (-0.7269) 0.1889 801 600 1000 (-2) 1 (-1.2) 1.2)
       400 = (-0.50187265917602986)%float
  /\ Spec.linear_sample (-2) 1 801 400 = (-0.5)%float.
Proof. vm_compute. repeat split; reflexivity. Qed.

(** ** Validation *)

Lemma renderFractalImage_guard
  (cdiv : Cx.complex -> Cx.complex -> Cx.complex)
  (fractalType width height : Z)
  (centerX centerY zoom cReal cImag : float) (maxIter : Z)
  (imageData : option (list Z)) :
  width <= 0 \/ height <= 0 \/ maxIter <= 0 ->
  Wasm.renderFractalImage cdiv fractalType width height centerX centerY zoom
    cReal cImag maxIter imageData = imageData.
Proof.
  intros Hbad. unfold Wasm.renderFractalImage.
  destruct imageData as [buffer|]; [|reflexivity].
  replace ((width <=? 0) || (height <=? 0) || (maxIter <=? 0)) with true;
    [reflexivity|].
  symmetry. rewrite !orb_true_iff, !Z.leb_le. tauto.
Qed.

(** C5, as the code has it.  The command-line program (main.cpp) ends with
    exit code 1, before [render_mandelbrot_cpu] is called and with nothing
    saved, when width <= 0, height <= 0, max_iter <= 0, x_min >= x_max or
    y_min >= y_max; and [renderFractalImage] returns with the buffer
    untouched when width <= 0, height <= 0 or maxIter <= 0. *)
Theorem validation_fail_fast (params : MandelbrotCPU.RenderParams)
  (start_time end_time : Z)
  (cdiv : Cx.complex -> Cx.complex -> Cx.complex) (fractalType : Z)
  (centerX centerY zoom cReal cImag : float) (imageData : option (list Z)) :
  MandelbrotCPU.width params <= 0 \/ MandelbrotCPU.height params <= 0
  \/ MandelbrotCPU.max_iter params <= 0
  \/ (MandelbrotCPU.x_max params <=? MandelbrotCPU.x_min params)%float = true
  \/ (MandelbrotCPU.y_max params <=? MandelbrotCPU.y_min params)%float = true ->
  MandelbrotCPU.main params start_time end_time = MandelbrotCPU.Exit 1 None
  /\ (MandelbrotCPU.width params <= 0 \/ MandelbrotCPU.height params <= 0
      \/ MandelbrotCPU.max_iter params <= 0 ->
      Wasm.renderFractalImage cdiv fractalType (MandelbrotCPU.width params)
        (MandelbrotCPU.height params) centerX centerY zoom cReal cImag
        (MandelbrotCPU.max_iter params) imageData = imageData).
Proof.
  intros Hbad. split; [|apply renderFractalImage_guard].
  unfold MandelbrotCPU.main.
  destruct (Z.leb_spec (MandelbrotCPU.width params) 0); [reflexivity|].
  destruct (Z.leb_spec (MandelbrotCPU.height params) 0); [reflexivity|].
  cbn [orb].
  destruct (Z.leb_spec (MandelbrotCPU.max_iter params) 0); [reflexivity|].
  destruct Hbad as [Hb|[Hb|[Hb|[Hb|Hb]]]]; try lia.
  - rewrite Hb. reflexivity.
  - rewrite Hb, orb_true_r. reflexivity.
Qed.

Lemma validation_fail_fast_witness :
  MandelbrotCPU.main (MandelbrotCPU.mkParams 0 600 1000 1 (-2) (-1.2) 1.2)
    0 7 = MandelbrotCPU.Exit 1 None
  /\ Wasm.renderFractalImage Cx.div 0 0 600 0 0 1 0 0 1000
       (Some [9; 9; 9; 9])
     = Some [9; 9; 9; 9].
Proof.
  destruct (validation_fail_fast
              (MandelbrotCPU.mkParams 0 600 1000 1 (-2) (-1.2) 1.2) 0 7
              Cx.div 0 0 0 1 0 0 (Some [9; 9; 9; 9])) as [Hmain Hwasm].
  - left. cbn. lia.
  - split; [exact Hmain|]. apply Hwasm. left. cbn. lia.
Defined.

(** C5 fails as stated on the renderer itself: [render_mandelbrot_cpu]
    checks nothing.  With x_min = 1 >= x_max = -2 it returns a full 3 x 10
    buffer, with width = 0 it returns an empty one, and [renderFractalImage]
    replaces zoom <= 0 by 1.0 and writes the pixel. *)
Lemma validation_counterexample :
  MandelbrotCPU.image_of
    (MandelbrotCPU.render_mandelbrot_cpu
       (MandelbrotCPU.mkParams 3 10 5 1 (-2) (-1.2) 1.2) 0 7)
  = Some [0; 255; 105; 0; 95; 255; 194; 255; 0;
          0; 255; 105; 210; 0; 255; 194; 255; 0;
          0; 255; 105; 0; 0; 0; 194; 255; 0;
          0; 255; 105; 0; 0; 0; 194; 255; 0;
          0; 255; 105; 0; 0; 0; 194; 255; 0;
          0; 255; 105; 0; 0; 0; 194; 255; 0;
          0; 255; 105; 0; 0; 0; 194; 255; 0;
          0; 255; 105; 0; 0; 0; 194; 255; 0;
          0; 255; 105; 210; 0; 255; 194; 255; 0;
          0; 255; 105; 0; 95; 255; 194; 255; 0]
  /\ MandelbrotCPU.image_of
       (MandelbrotCPU.render_mandelbrot_cpu
          (MandelbrotCPU.mkParams 0 10 5 (-2) 1 (-1.2) 1.2) 0 7)
     = Some []
  /\ Wasm.renderFractalImage Cx.div 0 1 1 0 0 (-1) 0 0 5 (Some [9; 9; 9; 9])
     = Some [0; 40; 51; 255].
Proof. vm_compute. repeat split; reflexivity. Qed.

(** ** The progress check *)



(** ** The escape-time kernels against the stop condition |z|^2 > 4 *)

(** The order of doubles is asymmetric. *)
Lemma SFcompare_antisym (x y : spec_float) :
  SFcompare y x = option_map CompOpp (SFcompare x y).
Proof.
  destruct x as [s|s| |s m e], y as [s'|s'| |s' m' e']; cbn;
    try reflexivity; try (destruct s; reflexivity);
    try (destruct s'; reflexivity); try (destruct s, s'; reflexivity).
  destruct s, s'; try reflexivity.
  - rewrite (Z.compare_antisym e e'). destruct (e ?= e'); cbn; try reflexivity.
    change Eq with (CompOpp Eq) at 1.
    rewrite <- (Pos.compare_cont_antisym m m' Eq). cbn.
    destruct (Pos.compare_cont Eq m m'); reflexivity.
  - rewrite (Z.compare_antisym e e'). destruct (e ?= e'); cbn; try reflexivity.
    change Eq with (CompOpp Eq) at 1.
    rewrite <- (Pos.compare_cont_antisym m m' Eq). reflexivity.
Qed.

Lemma float_ltb_asym (x y : float) :
  (x <? y)%float = true -> (y <? x)%float = false.
Proof.
  rewrite !ltb_spec. unfold SFltb.
  rewrite (SFcompare_antisym (Prim2SF x) (Prim2SF y)).
  destruct (SFcompare (Prim2SF x) (Prim2SF y)) as [[| |]|]; cbn; congruence.
Qed.

(** Where the orbit stays inside the circle until it escapes, the test
    [zx*zx + zy*zy < 4.0] of [computeBurningShip] fails first at the index
    at which |z|^2 > 4 first holds. *)
Lemma first_stop_inside_until_escape (step : float * float -> float * float)
  (n : nat) :
  forall (z : float * float) (i : Z),
    Spec.inside_until_escape step z n = true ->
    Spec.first_stop Spec.not_inside step z i n
    = Spec.first_stop Spec.escaped step z i n.
Proof.
  induction n as [|n IH]; intros z i Hclear; [reflexivity|].
  cbn [Spec.first_stop Spec.inside_until_escape] in *. cbv zeta in Hclear.
  unfold Spec.not_inside at 1, Spec.escaped at 1.
  destruct (4 <? fst z * fst z + snd z * snd z)%float eqn:Hout.
  - rewrite (float_ltb_asym _ _ Hout). reflexivity.
  - destruct (fst z * fst z + snd z * snd z <? 4)%float; [|discriminate].
    cbn [negb]. apply IH. exact Hclear.
Qed.

Lemma computeBurningShip_not_inside (max_iterations : Z) (cx cy : float) :
  BurningShipCPU.computeBurningShip max_iterations cx cy
  = Spec.escape_index Spec.not_inside (Spec.ship_step (cx, cy)) (0, 0)%float
      max_iterations.
Proof. apply computeBurningShip_first_stop. Qed.

Lemma computeBurningShip_escape_index (max_iterations : Z) (cx cy : float) :
  Spec.inside_until_escape (Spec.ship_step (cx, cy)) (0, 0)%float
    (Z.to_nat max_iterations) = true ->
  BurningShipCPU.computeBurningShip max_iterations cx cy
  = Spec.escape_index Spec.escaped (Spec.ship_step (cx, cy)) (0, 0)%float
      max_iterations.
Proof.
  intros Hclear. rewrite computeBurningShip_not_inside.
  unfold Spec.escape_index.
  apply first_stop_inside_until_escape. exact Hclear.
Qed.

(** C1, as the code has it.  For every sample and every cap
    [max_iter >= 0]: [julia_iterations] and [mandelbrot_iterations_omp]
    return the first index at which zx^2 + zy^2 > 4 holds along the orbit of
    the variant's step rule from the variant's z0, or the cap if it holds at
    no index below it; [mandelbrot_iterations] (render.cpp) returns the
    first index at which [std::abs(z) <= 2.0] fails, or the cap;
    [computeBurningShip] returns the first index at which
    [zx*zx + zy*zy < 4.0] fails, or the cap, and that is the first index at
    which zx^2 + zy^2 > 4 holds, or the cap, for every sample whose orbit
    has |z|^2 < 4 at each state before the first with |z|^2 > 4 (it neither
    touches the circle nor turns NaN before it escapes). *)
Theorem escape_time_kernels_first_stop (x y cx cy : float) (max_iter : Z) :
  0 <= max_iter ->
  JuliaRenderer.julia_iterations x y cx cy max_iter
  = Spec.escape_index Spec.escaped (Spec.quadratic_step (cx, cy)) (x, y)
      max_iter
  /\ MandelbrotOMP.mandelbrot_iterations_omp x y max_iter
     = Spec.escape_index Spec.escaped (Spec.quadratic_step (x, y))
         (0, 0)%float max_iter
  /\ MandelbrotCPU.mandelbrot_iterations x y max_iter
     = Spec.escape_index Spec.true_modulus_stop
         (Spec.complex_step (Cx.mk x y)) Cx.zero max_iter
  /\ BurningShipCPU.computeBurningShip max_iter x y
     = Spec.escape_index Spec.not_inside (Spec.ship_step (x, y)) (0, 0)%float
         max_iter
  /\ (Spec.inside_until_escape (Spec.ship_step (x, y)) (0, 0)%float
        (Z.to_nat max_iter) = true ->
      BurningShipCPU.computeBurningShip max_iter x y
      = Spec.escape_index Spec.escaped (Spec.ship_step (x, y)) (0, 0)%float
          max_iter).
Proof.
  intros Hmax.
  split; [apply julia_iterations_escape_index; exact Hmax|].
  split; [apply mandelbrot_iterations_omp_escape_index|].
  split; [apply mandelbrot_iterations_first_stop|].
  split; [apply computeBurningShip_not_inside|].
  apply computeBurningShip_escape_index.
Qed.

Lemma escape_time_kernels_first_stop_witness :
  JuliaRenderer.julia_iterations 0.5 0.75 (-0.8) 0.156 100
  = Spec.escape_index Spec.escaped
      (Spec.quadratic_step (-0.8, 0.156)%float) (0.5, 0.75)%float 100
  /\ MandelbrotOMP.mandelbrot_iterations_omp 0.5 0.75 100
     = Spec.escape_index Spec.escaped
         (Spec.quadratic_step (0.5, 0.75)%float) (0, 0)%float 100
  /\ MandelbrotCPU.mandelbrot_iterations 0.5 0.75 100
     = Spec.escape_index Spec.true_modulus_stop
         (Spec.complex_step (Cx.mk 0.5 0.75)) Cx.zero 100
  /\ BurningShipCPU.computeBurningShip 100 0.5 0.75
     = Spec.escape_index Spec.escaped
         (Spec.ship_step (0.5, 0.75)%float) (0, 0)%float 100
  /\ BurningShipCPU.computeBurningShip 100 (-0.5) (-0.5)
     = Spec.escape_index Spec.escaped
         (Spec.ship_step (-0.5, -0.5)%float) (0, 0)%float 100.
Proof.
  assert (Hcap : 0 <= 100) by lia.
  pose proof (escape_time_kernels_first_stop 0.5 0.75 (-0.8) 0.156 100 Hcap)
    as (HJ & HO & HM & _ & HB).
  pose proof (escape_time_kernels_first_stop (-0.5) (-0.5) 0 0 100 Hcap)
    as (_ & _ & _ & _ & HB').
  split; [exact HJ|]. split; [exact HO|]. split; [exact HM|].
  split; [apply HB; vm_compute; reflexivity
         |apply HB'; vm_compute; reflexivity].
Defined.

(** C1 fails as stated.  On the Burning Ship sample c = -2 + 0i the orbit
    is 0, -2, 2, 2, ...: |z|^2 never exceeds 4, so the index of section 4.2
    is the cap 1000, yet [computeBurningShip] returns 1, because its loop
    continues only while zx*zx + zy*zy < 4.0 and |z1|^2 = 4 (the wasm kernel
    returns 1000).  On the Mandelbrot sample (NaN, 0) the condition
    |z|^2 > 4 never holds either, yet [mandelbrot_iterations] returns 1,
    because [NaN <= 2.0] is false. *)
Lemma escape_time_kernels_counterexample :
  BurningShipCPU.computeBurningShip 1000 (-2) 0 = 1
  /\ Spec.escape_index Spec.escaped (Spec.ship_step (-2, 0)%float)
       (0, 0)%float 1000 = 1000
  /\ Wasm.burningShipIterations (-2) 0 1000 = 1000
  /\ MandelbrotCPU.mandelbrot_iterations nan 0 1000 = 1
  /\ Spec.escape_index Spec.escaped (Spec.quadratic_step (nan, 0)%float)
       (0, 0)%float 1000 = 1000.
Proof. vm_compute. repeat split; reflexivity. Qed.

(** ** Colours *)

Lemma mandelbrot_cap_is_black (max_iter : Z) :
  MandelbrotCPU.iterations_to_color max_iter max_iter
  = MandelbrotCPU.mkRGB 0 0 0.
Proof.
  unfold MandelbrotCPU.iterations_to_color. rewrite Z.eqb_refl. reflexivity.
Qed.

Lemma burning_ship_cap_is_black (max_iterations : Z) :
  BurningShipCPU.iterationsToRGB max_iterations max_iterations = (0, 0, 0).
Proof.
  unfold BurningShipCPU.iterationsToRGB. rewrite Z.eqb_refl. reflexivity.
Qed.

Lemma newton_unresolved_is_black (max_iterations root iterations : Z) :
  root <> 1 -> root <> 2 -> root <> 3 ->
  NewtonFractalCPU.rootToRGB max_iterations root iterations = (0, 0, 0).
Proof.
  intros H1 H2 H3. unfold NewtonFractalCPU.rootToRGB.
  destruct root as [|p|p]; [reflexivity| |reflexivity].
  destruct p as [[q|q|]|[q|q|]|];
    first [reflexivity
          |exfalso;
           first [apply H1; reflexivity|apply H2; reflexivity
                 |apply H3; reflexivity]].
Qed.

(** C3 on a Julia render with max_iterations = 500 (c = 0, a 2 x 2 image
    on [-0.5, 0.5]^2): every pixel runs to the cap, so every stored count
    equals max_iterations = 500, and every pixel written is (0, 255, 255),
    because [save_ppm] passes the literal 1000 to [iterations_to_color]. *)
Theorem julia_cap_pixels_not_black :
  JuliaRenderer.render_data
    (JuliaRenderer.mkParams 0 0 2 2 500 (-0.5) 0.5 (-0.5) 0.5)
  = [500; 500; 500; 500]
  /\ JuliaRenderer.render
       (JuliaRenderer.mkParams 0 0 2 2 500 (-0.5) 0.5 (-0.5) 0.5)
     = [(0, 255, 255); (0, 255, 255); (0, 255, 255); (0, 255, 255)]
  /\ JuliaRenderer.iterations_to_color 500 500 = (0, 0, 0).
Proof. vm_compute. repeat split; reflexivity. Qed.

(** ** One-pixel axes *)

(** C6 at width = 1 (height 10, classic bounds): the only column's sample is
    0.0 / 0 = NaN, not the midpoint -0.5; the kernel leaves NaN at index 1,
    while the midpoint column runs to the cap on row 5. *)
Theorem single_column_sample_is_nan :
  MandelbrotCPU.sample_real
    (MandelbrotCPU.mkParams 1 10 1000 (-2) 1 (-1.2) 1.2) 0 = nan
  /\ MandelbrotCPU.mandelbrot_iterations nan
       (MandelbrotCPU.sample_imag
          (MandelbrotCPU.mkParams 1 10 1000 (-2) 1 (-1.2) 1.2) 5) 1000 = 1
  /\ MandelbrotCPU.mandelbrot_iterations (-0.5)
       (MandelbrotCPU.sample_imag
          (MandelbrotCPU.mkParams 1 10 1000 (-2) 1 (-1.2) 1.2) 5) 1000 = 1000.
Proof. vm_compute. repeat split; reflexivity. Qed.

(** Whatever the bounds, the sample of a one-column image is NaN. *)
Lemma single_column_always_nan (params : MandelbrotCPU.RenderParams) :
  MandelbrotCPU.width params = 1 ->
  MandelbrotCPU.sample_real params 0 = nan.
Proof.
  intros HW. unfold MandelbrotCPU.sample_real. rewrite HW.
  change (Num.of_int 0) with 0%float. change (Num.of_int (1 - 1)) with 0%float.
  apply Prim2SF_inj.
  rewrite add_spec, div_spec, mul_spec.
  change (Prim2SF 0) with (S754_zero false).
  change (Prim2SF nan) with S754_nan.
  destruct (Prim2SF (MandelbrotCPU.x_max params - MandelbrotCPU.x_min params))
    as [s|s| |s m e];
    destruct (Prim2SF (MandelbrotCPU.x_min params)) as [s'|s'| |s' m' e'];
    reflexivity.
Qed.

(** ** Further properties of the kernels and colour maps *)

(** X1.  [julia_iterations] returns the first index at which
    zx^2 + zy^2 > 4 holds along the orbit of z^2 + c started at the sample,
    and the cap when it holds at no index below the cap. *)
Theorem julia_kernel_first_escape (x y cx cy : float) (max_iter : Z) :
  0 <= max_iter ->
  0 <= JuliaRenderer.julia_iterations x y cx cy max_iter <= max_iter
  /\ (forall k : nat,
         Z.of_nat k < JuliaRenderer.julia_iterations x y cx cy max_iter ->
         Spec.escaped (Spec.orbit (Spec.quadratic_step (cx, cy)) (x, y) k)
         = false)
  /\ (JuliaRenderer.julia_iterations x y cx cy max_iter < max_iter ->
      Spec.escaped
        (Spec.orbit (Spec.quadratic_step (cx, cy)) (x, y)
           (Z.to_nat (JuliaRenderer.julia_iterations x y cx cy max_iter)))
      = true).
Proof.
  intros Hmax. rewrite julia_iterations_escape_index by exact Hmax.
  unfold Spec.escape_index. split; [|split].
  - apply (escape_index_bounds Spec.escaped
             (Spec.quadratic_step (cx, cy)) (x, y) max_iter Hmax).
  - intros k Hk. apply (first_stop_before _ _ (Z.to_nat max_iter) _ 0 k).
    lia.
  - intros Hlt.
    pose proof (first_stop_at Spec.escaped (Spec.quadratic_step (cx, cy))
                  (Z.to_nat max_iter) (x, y) 0) as Hat.
    rewrite Z.sub_0_r in Hat. apply Hat. lia.
Qed.

Lemma julia_kernel_first_escape_witness :
  0 <= JuliaRenderer.julia_iterations 1.5 1 (-0.8) 0.156 100 <= 100
  /\ (forall k : nat,
         Z.of_nat k < JuliaRenderer.julia_iterations 1.5 1 (-0.8) 0.156 100 ->
         Spec.escaped
           (Spec.orbit (Spec.quadratic_step (-0.8, 0.156)%float)
              (1.5, 1)%float k)
         = false)
  /\ (JuliaRenderer.julia_iterations 1.5 1 (-0.8) 0.156 100 < 100 ->
      Spec.escaped
        (Spec.orbit (Spec.quadratic_step (-0.8, 0.156)%float) (1.5, 1)%float
           (Z.to_nat (JuliaRenderer.julia_iterations 1.5 1 (-0.8) 0.156 100)))
      = true).
Proof. apply (julia_kernel_first_escape 1.5 1 (-0.8) 0.156 100). lia. Defined.

(** X2.  [mandelbrot_iterations_omp] returns the first index at which
    zr^2 + zi^2 > 4 holds along the orbit of z^2 + c from 0, and the cap when
    it holds at no index below the cap. *)
Theorem omp_kernel_first_escape (real imag : float) (max_iter : Z) :
  (forall k : nat,
      Z.of_nat k < MandelbrotOMP.mandelbrot_iterations_omp real imag max_iter ->
      Spec.escaped
        (Spec.orbit (Spec.quadratic_step (real, imag)) (0, 0)%float k)
      = false)
  /\ (MandelbrotOMP.mandelbrot_iterations_omp real imag max_iter
      < Z.max 0 max_iter ->
      Spec.escaped
        (Spec.orbit (Spec.quadratic_step (real, imag)) (0, 0)%float
           (Z.to_nat
              (MandelbrotOMP.mandelbrot_iterations_omp real imag max_iter)))
      = true)
  /\ 0 <= MandelbrotOMP.mandelbrot_iterations_omp real imag max_iter
     <= Z.max 0 max_iter.
Proof.
  rewrite mandelbrot_iterations_omp_escape_index. unfold Spec.escape_index.
  pose proof (first_stop_bounds Spec.escaped
                (Spec.quadratic_step (real, imag)) (Z.to_nat max_iter)
                (0, 0)%float 0) as Hb.
  split; [|split].
  - intros k Hk. apply (first_stop_before _ _ (Z.to_nat max_iter) _ 0 k).
    lia.
  - intros Hlt.
    pose proof (first_stop_at Spec.escaped
                  (Spec.quadratic_step (real, imag))
                  (Z.to_nat max_iter) (0, 0)%float 0) as Hat.
    rewrite Z.sub_0_r in Hat. apply Hat. lia.
  - lia.
Qed.

(** X3.  Section 8, escape-time boundary: the sample c = 0 never escapes; the
    render.cpp and render_omp.hpp kernels return the cap for any cap >= 0. *)
Theorem origin_never_escapes (max_iter : Z) :
  0 <= max_iter ->
  MandelbrotCPU.mandelbrot_iterations 0 0 max_iter = max_iter
  /\ MandelbrotOMP.mandelbrot_iterations_omp 0 0 max_iter = max_iter.
Proof.
  intros Hmax. split.
  - unfold MandelbrotCPU.mandelbrot_iterations.
    assert (Hloop : forall fuel iterations,
               fuel = Z.to_nat (max_iter - iterations) ->
               iterations <= max_iter ->
               MandelbrotCPU.mandelbrot_loop fuel (Cx.mk 0 0) Cx.zero
                 iterations max_iter = max_iter).
    { induction fuel as [|fuel IH]; intros iterations Hfuel Hle;
        cbn [MandelbrotCPU.mandelbrot_loop]; [lia|].
      rewrite abs_zero_within_radius.
      replace (iterations <? max_iter) with true
        by (symmetry; apply Z.ltb_lt; lia).
      cbn [andb].
      change (Cx.add (Cx.mul Cx.zero Cx.zero) (Cx.mk 0 0)) with Cx.zero.
      apply IH; lia. }
    apply Hloop; [f_equal; lia|exact Hmax].
  - unfold MandelbrotOMP.mandelbrot_iterations_omp.
    assert (Hloop : forall fuel iter,
               fuel = Z.to_nat (max_iter - iter) -> iter <= max_iter ->
               MandelbrotOMP.omp_loop fuel 0 0 0 0 iter max_iter = max_iter).
    { induction fuel as [|fuel IH]; intros iter Hfuel Hle;
        cbn [MandelbrotOMP.omp_loop]; [lia|].
      replace (iter <? max_iter) with true
        by (symmetry; apply Z.ltb_lt; lia).
      change (4 <? 0 * 0 + 0 * 0)%float with false. cbv iota.
      change (2 * 0 * 0 + 0)%float with 0%float.
      change (0 * 0 - 0 * 0 + 0)%float with 0%float.
      apply IH; lia. }
    apply Hloop; [f_equal; lia|exact Hmax].
Qed.

Lemma origin_never_escapes_witness :
  MandelbrotCPU.mandelbrot_iterations 0 0 1000 = 1000
  /\ MandelbrotOMP.mandelbrot_iterations_omp 0 0 1000 = 1000.
Proof. apply (origin_never_escapes 1000). lia. Defined.

(** X4.  Section 8, Newton immediate convergence: with a division that returns
    1 for 3 / 3, the sample (1, 0) is stored as root 1 with 0 steps, for any
    cap > 0. *)
Theorem newton_root_one_immediate
  (cdiv : Cx.complex -> Cx.complex -> Cx.complex) (max_iterations : Z) :
  0 < max_iterations ->
  cdiv (Cx.mk 3 0) (Cx.mk 3 0) = Cx.mk 1 0 ->
  NewtonFractalCPU.render_pixel cdiv max_iterations 1 0 = (1, 0).
Proof.
  intros Hmax Hdiv. unfold NewtonFractalCPU.render_pixel.
  replace (Z.to_nat max_iterations)
    with (S (Z.to_nat (max_iterations - 1))) by lia.
  cbn [NewtonFractalCPU.newton_loop].
  replace (0 <? max_iterations) with true by (symmetry; apply Z.ltb_lt; lia).
  assert (Hstep : NewtonFractalCPU.newtonIteration cdiv (Cx.mk 1 0)
                  = Cx.mk 1 0).
  { unfold NewtonFractalCPU.newtonIteration. cbv zeta.
    change (Cx.abs (Cx.mul (Cx.mk 1 0) (Cx.mk 1 0)) <? 1e-10)%float
      with false.
    cbv iota.
    change (Cx.add_real
              (Cx.scale 2.0
                 (Cx.mul (Cx.mul (Cx.mk 1 0) (Cx.mk 1 0)) (Cx.mk 1 0))) 1.0)
      with (Cx.mk 3 0).
    change (Cx.scale 3.0 (Cx.mul (Cx.mk 1 0) (Cx.mk 1 0))) with (Cx.mk 3 0).
    exact Hdiv. }
  cbv zeta. rewrite Hstep. reflexivity.
Qed.

Lemma newton_root_one_immediate_witness :
  NewtonFractalCPU.render_pixel Cx.div 100 1 0 = (1, 0).
Proof.
  apply (newton_root_one_immediate Cx.div 100); [lia|reflexivity].
Defined.

(** X5.  Section 8, colour contract, the parts the code keeps: the cap maps to
    black in the Mandelbrot and Burning Ship colour maps, and every Newton
    root id other than 1, 2, 3 (0 is Unresolved) maps to black. *)
Theorem cap_and_unresolved_are_black (max_iterations iterations : Z) :
  MandelbrotCPU.iterations_to_color max_iterations max_iterations
  = MandelbrotCPU.mkRGB 0 0 0
  /\ BurningShipCPU.iterationsToRGB max_iterations max_iterations = (0, 0, 0)
  /\ NewtonFractalCPU.rootToRGB max_iterations 0 iterations = (0, 0, 0).
Proof.
  split; [apply mandelbrot_cap_is_black|].
  split; [apply burning_ship_cap_is_black|].
  apply newton_unresolved_is_black; discriminate.
Qed.

Lemma newton_colours_checked :
  forallb Spec.newton_colours_visible (seqZ 1 256) = true.
Proof. vm_compute. reflexivity. Qed.

(** X6.  Section 8, colour contract, Newton roots: for every cap from 1 to 256
    (the renderer's default is 100), every step count 0..cap and every root
    id in {1, 2, 3}, [rootToRGB] is not black. *)
Theorem newton_roots_not_black (max_iterations root iterations : Z) :
  1 <= max_iterations <= 256 ->
  0 <= iterations <= max_iterations ->
  1 <= root <= 3 ->
  Spec.is_black (NewtonFractalCPU.rootToRGB max_iterations root iterations)
  = false.
Proof.
  intros Hmax Hit Hroot.
  pose proof newton_colours_checked as Hall.
  rewrite forallb_forall in Hall.
  specialize (Hall max_iterations).
  unfold Spec.newton_colours_visible in Hall.
  rewrite forallb_forall in Hall.
  assert (Hin : In max_iterations (seqZ 1 256)).
  { apply list_elem_of_In, elem_of_seqZ. lia. }
  specialize (Hall Hin iterations).
  rewrite forallb_forall in Hall.
  assert (Hin' : In iterations (seqZ 0 (max_iterations + 1))).
  { apply list_elem_of_In, elem_of_seqZ. lia. }
  specialize (Hall Hin' root).
  apply negb_true_iff. apply Hall.
  assert (Hcases : root = 1 \/ root = 2 \/ root = 3) by lia.
  destruct Hcases as [-> | [-> | ->]]; cbn; tauto.
Qed.

Lemma newton_roots_not_black_witness :
  Spec.is_black (NewtonFractalCPU.rootToRGB 100 1 100) = false.
Proof. apply (newton_roots_not_black 100 1 100); lia. Defined.

(** X7.  The sample of a one-column Mandelbrot image is NaN for any bounds. *)
Theorem one_column_sample_nan (params : MandelbrotCPU.RenderParams) :
  MandelbrotCPU.width params = 1 ->
  MandelbrotCPU.sample_real params 0 = nan.
Proof. apply single_column_always_nan. Qed.

Lemma one_column_sample_nan_witness :
  MandelbrotCPU.sample_real
    (MandelbrotCPU.mkParams 1 600 1000 (-2) 1 (-1.2) 1.2) 0 = nan.
Proof.
  apply (one_column_sample_nan
           (MandelbrotCPU.mkParams 1 600 1000 (-2) 1 (-1.2) 1.2)).
  reflexivity.
Defined.

(** X8.  Every count a Julia render stores lies in [0, max_iterations]: for
    a cap >= 0, an image whose pixel count width * height fits an [int],
    and a pixel (px, py) of the image, the entry at py * width + px exists
    and is between 0 and the cap. *)
Theorem julia_render_counts_bounded (params : JuliaRenderer.JuliaParams)
  (px py : Z) :
  0 <= JuliaRenderer.max_iterations params ->
  JuliaRenderer.width params * JuliaRenderer.height params <= Num.INT_MAX ->
  0 <= px < JuliaRenderer.width params ->
  0 <= py < JuliaRenderer.height params ->
  exists steps : Z,
    JuliaRenderer.render_data params
      !! Z.to_nat (py * JuliaRenderer.width params + px) = Some steps
    /\ 0 <= steps <= JuliaRenderer.max_iterations params.
Proof.
  intros Hmax Hfit Hpx Hpy. eexists. split.
  - apply julia_render_data_lookup; assumption.
  - rewrite julia_iterations_escape_index by exact Hmax.
    apply escape_index_bounds. exact Hmax.
Qed.

Lemma julia_render_counts_bounded_witness :
  exists steps : Z,
    JuliaRenderer.render_data
      (JuliaRenderer.mkParams (-0.8) 0.156 3 2 50 (-2) 2 (-1.5) 1.5)
      !! Z.to_nat (1 * 3 + 2) = Some steps
    /\ 0 <= steps <= 50.
Proof.
  apply (julia_render_counts_bounded
           (JuliaRenderer.mkParams (-0.8) 0.156 3 2 50 (-2) 2 (-1.5) 1.5)
           2 1); cbn; unfold Num.INT_MAX; lia.
Defined.

(** ** Black pixels of a Mandelbrot image *)

(** Outside the cap every branch of the palette sets one channel to 255. *)
Lemma iterations_to_color_black (iterations max_iter : Z) :
  MandelbrotCPU.iterations_to_color iterations max_iter
  = MandelbrotCPU.mkRGB 0 0 0 ->
  iterations = max_iter.
Proof.
  unfold MandelbrotCPU.iterations_to_color.
  destruct (Z.eqb_spec iterations max_iter) as [E|_]; [intros _; exact E|].
  cbv zeta.
  repeat match goal with
         | |- context [if ?c then _ else _] => destruct c
         end;
    intros H; exfalso; injection H; intros;
    match goal with
    | H255 : Num.int_to_uchar 255 = 0 |- _ => vm_compute in H255; discriminate
    end.
Qed.

(** X9.  In the image a Mandelbrot CPU render returns (height >= 10 and a
    byte count width * height * 3 that fits an [int]), the three bytes of
    pixel (px, py) are all 0 exactly when the kernel ran to the cap at that
    pixel's sample: black marks the samples that did not escape, and only
    those. *)
Theorem mandelbrot_black_iff_cap (params : MandelbrotCPU.RenderParams)
  (start_time end_time : Z) (px py : Z) :
  10 <= MandelbrotCPU.height params ->
  MandelbrotCPU.width params * MandelbrotCPU.height params * 3
  <= Num.INT_MAX ->
  0 <= px < MandelbrotCPU.width params ->
  0 <= py < MandelbrotCPU.height params ->
  exists (image : list Z) (log : list MandelbrotCPU.event) (r g b : Z),
    MandelbrotCPU.render_mandelbrot_cpu params start_time end_time
    = MandelbrotCPU.Done (image, log)
    /\ image !! Z.to_nat ((py * MandelbrotCPU.width params + px) * 3) = Some r
    /\ image !! Z.to_nat ((py * MandelbrotCPU.width params + px) * 3 + 1)
       = Some g
    /\ image !! Z.to_nat ((py * MandelbrotCPU.width params + px) * 3 + 2)
       = Some b
    /\ (Spec.is_black (r, g, b) = true
        <-> MandelbrotCPU.mandelbrot_iterations
              (MandelbrotCPU.sample_real params px)
              (MandelbrotCPU.sample_imag params py)
              (MandelbrotCPU.max_iter params)
            = MandelbrotCPU.max_iter params).
Proof.
  intros HH Hfit Hpx Hpy.
  destruct (render_mandelbrot_cpu_done params start_time end_time)
    as (image & log & Hdone & Himage & Hlen); [lia|exact HH|exact Hfit|].
  pose proof (pixel_index_nonneg (MandelbrotCPU.width params) px py
                Hpx (proj1 Hpy)) as Hidx.
  assert (Hlook : forall c : Z, 0 <= c < 3 ->
            image !! Z.to_nat ((py * MandelbrotCPU.width params + px) * 3 + c)
            = Some (Spec.channel (Spec.mandelbrot_pixel_color params px py) c)).
  { intros c Hc. rewrite Himage. apply rows_lookup; try assumption.
    rewrite length_replicate. nia. }
  set (color := Spec.mandelbrot_pixel_color params px py) in *.
  exists image, log, (MandelbrotCPU.r color), (MandelbrotCPU.g color),
    (MandelbrotCPU.b color).
  split; [exact Hdone|].
  split; [rewrite <- (Z.add_0_r (_ * 3)); apply (Hlook 0); lia|].
  split; [apply (Hlook 1); lia|].
  split; [apply (Hlook 2); lia|].
  assert (Hcolor : color
            = MandelbrotCPU.iterations_to_color
                (MandelbrotCPU.mandelbrot_iterations
                   (MandelbrotCPU.sample_real params px)
                   (MandelbrotCPU.sample_imag params py)
                   (MandelbrotCPU.max_iter params))
                (MandelbrotCPU.max_iter params)) by reflexivity.
  split.
  - intros Hblack. apply iterations_to_color_black. rewrite <- Hcolor.
    destruct color as [r g b]. cbn in Hblack.
    apply andb_true_iff in Hblack as [Hrg Hb].
    apply andb_true_iff in Hrg as [Hr Hg].
    apply Z.eqb_eq in Hr, Hg, Hb. cbn in Hr, Hg, Hb. subst. reflexivity.
  - intros Hcap. rewrite Hcolor, Hcap, mandelbrot_cap_is_black. reflexivity.
Qed.

Lemma mandelbrot_black_iff_cap_witness :
  exists (image : list Z) (log : list MandelbrotCPU.event) (r g b : Z),
    MandelbrotCPU.render_mandelbrot_cpu
      (MandelbrotCPU.mkParams 3 10 5 (-2) 1 (-1.2) 1.2) 0 7
    = MandelbrotCPU.Done (image, log)
    /\ image !! Z.to_nat ((5 * 3 + 1) * 3) = Some r
    /\ image !! Z.to_nat ((5 * 3 + 1) * 3 + 1) = Some g
    /\ image !! Z.to_nat ((5 * 3 + 1) * 3 + 2) = Some b
    /\ (Spec.is_black (r, g, b) = true
        <-> MandelbrotCPU.mandelbrot_iterations
              (MandelbrotCPU.sample_real
                 (MandelbrotCPU.mkParams 3 10 5 (-2) 1 (-1.2) 1.2) 1)
              (MandelbrotCPU.sample_imag
                 (MandelbrotCPU.mkParams 3 10 5 (-2) 1 (-1.2) 1.2) 5)
              5
            = 5).
Proof.
  apply (mandelbrot_black_iff_cap
           (MandelbrotCPU.mkParams 3 10 5 (-2) 1 (-1.2) 1.2) 0 7 1 5);
    cbn; unfold Num.INT_MAX; lia.
Defined.

(** ** The command-line program on a valid request *)

(** X10.  main.cpp on a request that passes the validation (width, height,
    max_iter > 0, and neither x_max <= x_min nor y_max <= y_min holds).
    When the byte count width * height * 3 fits an [int]: with height < 10
    the process dies in the progress check, and with height >= 10 it exits
    with code 0 and hands the renderer's buffer of width * height * 3 bytes
    to [save_ppm].  When the [int] byte count comes out negative (30000 x
    30000, say) the vector constructor throws, the [catch] clause reports
    the failure, and the process exits with code 1 and saves nothing. *)
Theorem main_valid_request (params : MandelbrotCPU.RenderParams)
  (start_time end_time : Z) :
  0 < MandelbrotCPU.width params -> 0 < MandelbrotCPU.height params ->
  0 < MandelbrotCPU.max_iter params ->
  (MandelbrotCPU.x_max params <=? MandelbrotCPU.x_min params)%float = false ->
  (MandelbrotCPU.y_max params <=? MandelbrotCPU.y_min params)%float = false ->
  (MandelbrotCPU.width params * MandelbrotCPU.height params * 3
   <= Num.INT_MAX ->
   MandelbrotCPU.height params < 10 ->
   MandelbrotCPU.main params start_time end_time = MandelbrotCPU.Crashed)
  /\ (MandelbrotCPU.width params * MandelbrotCPU.height params * 3
      <= Num.INT_MAX ->
      10 <= MandelbrotCPU.height params ->
      exists image : list Z,
        MandelbrotCPU.main params start_time end_time
        = MandelbrotCPU.Exit 0 (Some image)
        /\ MandelbrotCPU.image_of
             (MandelbrotCPU.render_mandelbrot_cpu params start_time end_time)
           = Some image
        /\ length image
           = Z.to_nat (MandelbrotCPU.width params
                       * MandelbrotCPU.height params * 3))
  /\ (MandelbrotCPU.byte_count params < 0 ->
      MandelbrotCPU.main params start_time end_time
      = MandelbrotCPU.Exit 1 None).
Proof.
  intros HW HH Hmax Hx Hy.
  assert (Hmain : MandelbrotCPU.main params start_time end_time
            = match MandelbrotCPU.render_mandelbrot_cpu params start_time
                      end_time with
              | MandelbrotCPU.Done (image_data, _) =>
                  MandelbrotCPU.Exit 0 (Some image_data)
              | MandelbrotCPU.LengthError => MandelbrotCPU.Exit 1 None
              | MandelbrotCPU.DivideByZero => MandelbrotCPU.Crashed
              | MandelbrotCPU.Undefined => MandelbrotCPU.Overrun
              end).
  { unfold MandelbrotCPU.main.
    replace (MandelbrotCPU.width params <=? 0) with false
      by (symmetry; apply Z.leb_gt; lia).
    replace (MandelbrotCPU.height params <=? 0) with false
      by (symmetry; apply Z.leb_gt; lia).
    replace (MandelbrotCPU.max_iter params <=? 0) with false
      by (symmetry; apply Z.leb_gt; lia).
    rewrite Hx, Hy. reflexivity. }
  split; [|split].
  - intros Hfit Hlt. rewrite Hmain.
    rewrite render_mandelbrot_cpu_allocates by (try exact Hfit; nia).
    rewrite render_rows_trap; [reflexivity| |].
    + apply Z.quot_small_iff; lia.
    + rewrite seqZ_cons by lia. discriminate.
  - intros Hfit Hge.
    destruct (render_mandelbrot_cpu_done params start_time end_time)
      as (image & log & Hdone & _ & Hlen); [lia|exact Hge|exact Hfit|].
    exists image. rewrite Hmain, Hdone.
    split; [reflexivity|]. split; [reflexivity|exact Hlen].
  - intros Hneg. rewrite Hmain.
    unfold MandelbrotCPU.render_mandelbrot_cpu.
    replace (MandelbrotCPU.byte_count params <? 0) with true
      by (symmetry; apply Z.ltb_lt; exact Hneg).
    reflexivity.
Qed.

Lemma main_valid_request_witness :
  MandelbrotCPU.main (MandelbrotCPU.mkParams 2 3 5 (-2) 1 (-1.2) 1.2) 0 7
  = MandelbrotCPU.Crashed
  /\ (exists image : list Z,
         MandelbrotCPU.main (MandelbrotCPU.mkParams 2 10 5 (-2) 1 (-1.2) 1.2)
           0 7
         = MandelbrotCPU.Exit 0 (Some image)
         /\ MandelbrotCPU.image_of
              (MandelbrotCPU.render_mandelbrot_cpu
                 (MandelbrotCPU.mkParams 2 10 5 (-2) 1 (-1.2) 1.2) 0 7)
            = Some image
         /\ length image = Z.to_nat (2 * 10 * 3))
  /\ MandelbrotCPU.main
       (MandelbrotCPU.mkParams 30000 30000 1000 (-2) 1 (-1.2) 1.2) 0 7
     = MandelbrotCPU.Exit 1 None.
Proof.
  split; [|split].
  - apply (main_valid_request
             (MandelbrotCPU.mkParams 2 3 5 (-2) 1 (-1.2) 1.2) 0 7);
      cbn; first [unfold Num.INT_MAX; lia|reflexivity].
  - apply (main_valid_request
             (MandelbrotCPU.mkParams 2 10 5 (-2) 1 (-1.2) 1.2) 0 7);
      cbn; first [unfold Num.INT_MAX; lia|reflexivity].
  - apply (main_valid_request
             (MandelbrotCPU.mkParams 30000 30000 1000 (-2) 1 (-1.2) 1.2) 0 7);
      first [cbn; lia|reflexivity|vm_compute; reflexivity].
Defined.

(** ** The OpenMP Mandelbrot render under any schedule *)

(** Every byte index below 3 * W * H is channel c of one pixel (px, py). *)
Lemma byte_index_decompose (W H : Z) (i : nat) :
  0 < W -> (i < Z.to_nat (W * H * 3))%nat ->
  exists px py c : Z,
    0 <= px < W /\ 0 <= py < H /\ 0 <= c < 3
    /\ i = Z.to_nat ((py * W + px) * 3 + c).
Proof.
  intros HW Hi.
  set (k := Z.of_nat i).
  assert (Hk : 0 <= k < W * H * 3) by lia.
  exists ((k / 3) mod W), ((k / 3) / W), (k mod 3).
  pose proof (Z.mod_pos_bound k 3 ltac:(lia)) as Hc.
  pose proof (Z.div_mod k 3 ltac:(lia)) as Hk3.
  assert (Hq : 0 <= k / 3 < W * H).
  { split; [apply Z.div_pos; lia|].
    apply Z.div_lt_upper_bound; lia. }
  pose proof (Z.mod_pos_bound (k / 3) W HW) as Hpx.
  pose proof (Z.div_mod (k / 3) W ltac:(lia)) as HqW.
  assert (Hpy : 0 <= k / 3 / W < H).
  { split; [apply Z.div_pos; lia|].
    apply Z.div_lt_upper_bound; lia. }
  repeat split; lia.
Qed.

Section MandelbrotOMPAssembler.

Import MandelbrotOMP.

Variable params : MandelbrotCPU.RenderParams.
Let W := MandelbrotCPU.width params.
Let H := MandelbrotCPU.height params.

(** The colour the OpenMP loop body computes for pixel (px, py). *)
Let color (px py : Z) : MandelbrotCPU.RGB :=
  MandelbrotCPU.iterations_to_color
    (mandelbrot_iterations_omp
       (MandelbrotCPU.x_min params + Num.of_int px * x_scale params)%float
       (MandelbrotCPU.y_min params + Num.of_int py * y_scale params)%float
       (MandelbrotCPU.max_iter params))
    (MandelbrotCPU.max_iter params).

Lemma omp_render_pixel_length (py px : Z) (image : list Z) :
  length (render_pixel params py image px) = length image.
Proof. unfold render_pixel. cbv zeta. rewrite !length_insert. reflexivity. Qed.

Lemma omp_render_row_length (py : Z) (image : list Z) :
  length (render_row params py image) = length image.
Proof.
  unfold render_row.
  apply (foldl_preserves (render_pixel params py)
           (fun acc => length acc = length image)); [|reflexivity].
  intros acc x Hacc. rewrite omp_render_pixel_length. exact Hacc.
Qed.

Lemma omp_render_pixel_lookup_other (py px py0 px0 c : Z) (image : list Z) :
  0 <= px < W -> 0 <= py -> 0 <= px0 < W -> 0 <= py0 -> 0 <= c < 3 ->
  px <> px0 \/ py <> py0 ->
  render_pixel params py image px !! Z.to_nat ((py0 * W + px0) * 3 + c)
  = image !! Z.to_nat ((py0 * W + px0) * 3 + c).
Proof.
  intros Hpx Hpy Hpx0 Hpy0 Hc Hne.
  pose proof (pixel_index_nonneg W px py Hpx Hpy) as Ha.
  pose proof (pixel_index_nonneg W px0 py0 Hpx0 Hpy0) as Hb.
  assert (Hab : py * W + px <> py0 * W + px0).
  { intros Heq. apply pixel_index_inj in Heq; [|assumption..]. lia. }
  unfold render_pixel. cbv zeta. fold W.
  rewrite !list_lookup_insert_ne by lia. reflexivity.
Qed.

Lemma omp_render_pixel_lookup_self (py px c : Z) (image : list Z) :
  0 <= px < W -> 0 <= py -> 0 <= c < 3 ->
  (py * W + px) * 3 + 2 < Z.of_nat (length image) ->
  render_pixel params py image px !! Z.to_nat ((py * W + px) * 3 + c)
  = Some (Spec.channel (color px py) c).
Proof.
  intros Hpx Hpy Hc Hlen.
  pose proof (pixel_index_nonneg W px py Hpx Hpy) as Ha.
  unfold render_pixel. cbv zeta. fold W. fold (color px py).
  assert (Hcases : c = 0 \/ c = 1 \/ c = 2) by lia.
  destruct Hcases as [-> | [-> | ->]]; cbn [Spec.channel].
  - rewrite Z.add_0_r.
    rewrite !list_lookup_insert_ne by lia.
    rewrite list_lookup_insert_eq by lia. reflexivity.
  - rewrite list_lookup_insert_ne by lia.
    rewrite list_lookup_insert_eq by (rewrite length_insert; lia).
    reflexivity.
  - rewrite list_lookup_insert_eq by (rewrite !length_insert; lia).
    reflexivity.
Qed.

Lemma omp_render_row_lookup_other (py py0 px0 c : Z) (image : list Z) :
  0 <= py -> 0 <= px0 < W -> 0 <= py0 -> 0 <= c < 3 -> py <> py0 ->
  render_row params py image !! Z.to_nat ((py0 * W + px0) * 3 + c)
  = image !! Z.to_nat ((py0 * W + px0) * 3 + c).
Proof.
  intros Hpy Hpx0 Hpy0 Hc Hne. unfold render_row.
  apply foldl_lookup_untouched. intros acc px Hin.
  apply elem_of_seqZ in Hin.
  apply omp_render_pixel_lookup_other;
    [unfold W; lia|exact Hpy|exact Hpx0|exact Hpy0|exact Hc|right; exact Hne].
Qed.

Lemma omp_render_row_lookup_self (py px c : Z) (image : list Z) :
  0 <= px < W -> 0 <= py -> 0 <= c < 3 ->
  (py * W + px) * 3 + 2 < Z.of_nat (length image) ->
  render_row params py image !! Z.to_nat ((py * W + px) * 3 + c)
  = Some (Spec.channel (color px py) c).
Proof.
  intros Hpx Hpy Hc Hlen. unfold render_row.
  apply (foldl_lookup_written (render_pixel params py)
           (fun acc => length acc = length image) _ _ px).
  - apply NoDup_seqZ.
  - apply elem_of_seqZ. unfold W in Hpx. lia.
  - intros acc x Hacc. rewrite omp_render_pixel_length. exact Hacc.
  - intros acc Hacc.
    apply omp_render_pixel_lookup_self; [exact Hpx|exact Hpy|exact Hc|].
    rewrite Hacc. exact Hlen.
  - intros acc x Hin Hx. apply elem_of_seqZ in Hin.
    apply omp_render_pixel_lookup_other;
      [unfold W; lia|exact Hpy|exact Hpx|exact Hpy|exact Hc|left; exact Hx].
  - reflexivity.
Qed.

(** The rows in any order that takes each row once. *)
Lemma omp_rows_lookup (schedule : list Z) (px py c : Z) (image : list Z) :
  schedule ≡ₚ seqZ 0 H ->
  0 <= px < W -> 0 <= py < H -> 0 <= c < 3 ->
  (py * W + px) * 3 + 2 < Z.of_nat (length image) ->
  foldl (fun acc y => render_row params y acc) image schedule
    !! Z.to_nat ((py * W + px) * 3 + c)
  = Some (Spec.channel (color px py) c).
Proof.
  intros Hperm Hpx Hpy Hc Hlen.
  assert (Hin : forall y, y ∈ schedule <-> 0 <= y < H).
  { intros y. rewrite Hperm, elem_of_seqZ. lia. }
  apply (foldl_lookup_written (fun acc y => render_row params y acc)
           (fun acc => length acc = length image) _ _ py).
  - rewrite Hperm. apply NoDup_seqZ.
  - apply Hin. exact Hpy.
  - intros acc y Hacc. rewrite omp_render_row_length. exact Hacc.
  - intros acc Hacc.
    apply omp_render_row_lookup_self; [exact Hpx|lia|exact Hc|].
    rewrite Hacc. exact Hlen.
  - intros acc y Hy Hne. apply Hin in Hy.
    apply omp_render_row_lookup_other; [lia|exact Hpx|lia|exact Hc|exact Hne].
  - reflexivity.
Qed.

Lemma omp_rows_length (schedule : list Z) (image : list Z) :
  length (foldl (fun acc y => render_row params y acc) image schedule)
  = length image.
Proof.
  apply (foldl_preserves (fun acc y => render_row params y acc)
           (fun acc => length acc = length image)); [|reflexivity].
  intros acc y Hacc. rewrite omp_render_row_length. exact Hacc.
Qed.

(** With [height / 10] nonzero the critical section never traps.  The
    bytes are those of the rows in the order taken; the log depends on the
    number of rows taken and, in the thread numbers only, on who took
    them. *)
Lemma omp_render_rows_done (schedule schedule' : list (Z * Z)) :
  Z.quot H 10 <> 0 -> length schedule = length schedule' ->
  forall (image image' : list Z) (counter : Z) (log log0 : list event),
  map without_thread log = map without_thread log0 ->
  exists log' log0' : list event,
    render_rows params schedule image counter log
    = MandelbrotCPU.Done
        (foldl (fun acc y => render_row params y acc) image
           (fst <$> schedule), log')
    /\ render_rows params schedule' image' counter log0
       = MandelbrotCPU.Done
           (foldl (fun acc y => render_row params y acc) image'
              (fst <$> schedule'), log0')
    /\ map without_thread log' = map without_thread log0'.
Proof.
  intros Hq. revert schedule'.
  induction schedule as [|[py thread] rows IH];
    intros [|[py' thread'] rows'] Hlen;
    try discriminate; intros image image' counter log log0 Hlog.
  - exists log, log0. repeat split. exact Hlog.
  - cbn [render_rows foldl fmap list_fmap fst]. fold H.
    destruct (Z.eqb_spec (Z.quot H 10) 0) as [E|_]; [contradiction|].
    apply IH; [cbn in Hlen; lia|].
    destruct (Z.rem (counter + 1) (Z.quot H 10) =? 0); [|exact Hlog].
    rewrite !map_app, Hlog. reflexivity.
Qed.

Lemma omp_render_rows_trap (schedule : list (Z * Z)) (image : list Z)
  (counter : Z) (log : list event) :
  Z.quot H 10 = 0 -> schedule <> [] ->
  render_rows params schedule image counter log = MandelbrotCPU.DivideByZero.
Proof.
  intros Hq Hne. destruct schedule as [|[py thread] rows]; [contradiction|].
  cbn [render_rows]. fold H. rewrite Hq. reflexivity.
Qed.

(** The two tests on the byte count pass when the exact count fits an
    [int]. *)
Lemma omp_render_allocates (num_threads hw_threads max_threads : Z)
  (schedule : list (Z * Z)) (start_time end_time : Z) :
  0 <= W * H -> W * H * 3 <= Num.INT_MAX ->
  render_mandelbrot_omp params num_threads hw_threads max_threads schedule
    start_time end_time
  = match render_rows params schedule (replicate (Z.to_nat (W * H * 3)) 0) 0
            [Configured (configure_openmp num_threads hw_threads);
             Threads max_threads] with
    | MandelbrotCPU.Done (image_data', log) =>
        MandelbrotCPU.Done
          (image_data',
           log ++ [Finished (end_time - start_time)
                     (Num.of_int (W * H) * 1000.0
                        / Num.of_int (end_time - start_time))%float;
                   Threads max_threads])
    | MandelbrotCPU.LengthError => MandelbrotCPU.LengthError
    | MandelbrotCPU.DivideByZero => MandelbrotCPU.DivideByZero
    | MandelbrotCPU.Undefined => MandelbrotCPU.Undefined
    end.
Proof.
  intros Hlo Hhi. unfold render_mandelbrot_omp. cbv zeta.
  destruct (byte_count_exact params Hlo Hhi) as [-> ->]. fold W H.
  replace (W * H * 3 <? 0) with false by (symmetry; apply Z.ltb_ge; lia).
  rewrite Z.eqb_refl. reflexivity.
Qed.

Lemma omp_render_done (num_threads hw_threads max_threads : Z)
  (schedule : list (Z * Z)) (start_time end_time : Z) :
  0 <= W -> 10 <= H -> W * H * 3 <= Num.INT_MAX ->
  exists log : list event,
    render_mandelbrot_omp params num_threads hw_threads max_threads schedule
      start_time end_time
    = MandelbrotCPU.Done
        (foldl (fun acc y => render_row params y acc)
           (replicate (Z.to_nat (W * H * 3)) 0) (fst <$> schedule), log).
Proof.
  intros HW HH Hfit.
  rewrite omp_render_allocates by (try exact Hfit; nia).
  assert (Hq : Z.quot H 10 <> 0).
  { intros E. apply Z.quot_small_iff in E; lia. }
  destruct (omp_render_rows_done schedule schedule Hq eq_refl
              (replicate (Z.to_nat (W * H * 3)) 0)
              (replicate (Z.to_nat (W * H * 3)) 0) 0
              [Configured (configure_openmp num_threads hw_threads);
               Threads max_threads]
              [Configured (configure_openmp num_threads hw_threads);
               Threads max_threads] eq_refl)
    as (log' & _ & Hrows & _).
  rewrite Hrows. eexists. reflexivity.
Qed.

(** Two schedules of the same rows leave the same bytes. *)
Lemma omp_rows_schedule (schedule schedule' : list Z) :
  0 < W ->
  schedule ≡ₚ seqZ 0 H -> schedule' ≡ₚ seqZ 0 H ->
  foldl (fun acc y => render_row params y acc)
    (replicate (Z.to_nat (W * H * 3)) 0) schedule
  = foldl (fun acc y => render_row params y acc)
      (replicate (Z.to_nat (W * H * 3)) 0) schedule'.
Proof.
  intros HW Hperm Hperm'.
  apply (list_eq_same_length _ _ (Z.to_nat (W * H * 3))).
  - rewrite omp_rows_length. apply length_replicate.
  - rewrite omp_rows_length. apply length_replicate.
  - intros i x y Hi Hx Hy.
    destruct (byte_index_decompose W H i HW Hi)
      as (px & py & c & Hpx & Hpy & Hc & ->).
    pose proof (pixel_index_nonneg W px py Hpx (proj1 Hpy)) as Hidx.
    rewrite omp_rows_lookup in Hx, Hy;
      try assumption; try (rewrite length_replicate; nia).
    congruence.
Qed.

(** Two runs that differ in the schedule and in the threads end the same
    way, with the same bytes and, but for the thread numbers, the same
    lines. *)
Lemma omp_render_schedule (num_threads hw_threads max_threads : Z)
  (schedule schedule' : list (Z * Z)) (start_time end_time : Z) :
  fst <$> schedule ≡ₚ seqZ 0 H -> fst <$> schedule' ≡ₚ seqZ 0 H ->
  0 < W -> 0 < H ->
  without_threads
    (render_mandelbrot_omp params num_threads hw_threads max_threads schedule
       start_time end_time)
  = without_threads
      (render_mandelbrot_omp params num_threads hw_threads max_threads
         schedule' start_time end_time).
Proof.
  intros Hperm Hperm' HW HH.
  assert (Hlen : length schedule = length schedule').
  { rewrite <- (length_fmap fst schedule), <- (length_fmap fst schedule').
    rewrite Hperm, Hperm'. reflexivity. }
  unfold render_mandelbrot_omp. cbv zeta.
  destruct (MandelbrotCPU.byte_count params <? 0); [reflexivity|].
  destruct (MandelbrotCPU.byte_count params
            =? MandelbrotCPU.width params * MandelbrotCPU.height params * 3)
    eqn:Hsize; [|reflexivity].
  apply Z.eqb_eq in Hsize. rewrite Hsize. fold W H. cbn [negb].
  destruct (Z.eq_dec (Z.quot H 10) 0) as [Hq|Hq].
  - rewrite !omp_render_rows_trap; try exact Hq; [reflexivity| |].
    + intros ->. apply Permutation_nil_l in Hperm'.
      unfold H in Hperm'. rewrite seqZ_cons in Hperm' by (fold H; lia).
      discriminate.
    + intros ->. apply Permutation_nil_l in Hperm.
      unfold H in Hperm. rewrite seqZ_cons in Hperm by (fold H; lia).
      discriminate.
  - destruct (omp_render_rows_done schedule schedule' Hq Hlen
                (replicate (Z.to_nat (W * H * 3)) 0)
                (replicate (Z.to_nat (W * H * 3)) 0) 0
                [Configured (configure_openmp num_threads hw_threads);
                 Threads max_threads]
                [Configured (configure_openmp num_threads hw_threads);
                 Threads max_threads] eq_refl)
      as (log' & log0' & Hrows & Hrows' & Hlogs).
    rewrite Hrows, Hrows'.
    rewrite (omp_rows_schedule (fst <$> schedule) (fst <$> schedule') HW
               Hperm Hperm').
    cbn [without_threads]. rewrite !map_app, Hlogs. reflexivity.
Qed.

End MandelbrotOMPAssembler.

(** X11.  [render_mandelbrot_omp] whatever the order in which the rows
    0 .. height - 1 are handed out, and to which threads: for width > 0,
    height >= 10 and a byte count width * height * 3 that fits an [int],
    the call returns a buffer of width * height * 3 bytes in which channel
    c of pixel (px, py) is that of the colour of
    [mandelbrot_iterations_omp] at re = x_min + px * x_scale,
    im = y_min + py * y_scale. *)
Theorem omp_render_pixels (params : MandelbrotCPU.RenderParams)
  (num_threads hw_threads max_threads : Z) (schedule : list (Z * Z))
  (start_time end_time : Z) :
  fst <$> schedule ≡ₚ seqZ 0 (MandelbrotCPU.height params) ->
  0 < MandelbrotCPU.width params -> 10 <= MandelbrotCPU.height params ->
  MandelbrotCPU.width params * MandelbrotCPU.height params * 3
  <= Num.INT_MAX ->
  exists (image : list Z) (log : list MandelbrotOMP.event),
    MandelbrotOMP.render_mandelbrot_omp params num_threads hw_threads
      max_threads schedule start_time end_time
    = MandelbrotCPU.Done (image, log)
    /\ length image
       = Z.to_nat (MandelbrotCPU.width params
                   * MandelbrotCPU.height params * 3)
    /\ forall px py c : Z,
         0 <= px < MandelbrotCPU.width params ->
         0 <= py < MandelbrotCPU.height params ->
         0 <= c < 3 ->
         image !! Z.to_nat ((py * MandelbrotCPU.width params + px) * 3 + c)
         = Some
             (Spec.channel
                (MandelbrotCPU.iterations_to_color
                   (MandelbrotOMP.mandelbrot_iterations_omp
                      (MandelbrotCPU.x_min params
                       + Num.of_int px * MandelbrotOMP.x_scale params)%float
                      (MandelbrotCPU.y_min params
                       + Num.of_int py * MandelbrotOMP.y_scale params)%float
                      (MandelbrotCPU.max_iter params))
                   (MandelbrotCPU.max_iter params)) c).
Proof.
  intros Hperm HW HH Hfit.
  destruct (omp_render_done params num_threads hw_threads max_threads
              schedule start_time end_time)
    as [log Hdone]; [lia|exact HH|exact Hfit|].
  eexists _, log. split; [exact Hdone|].
  split; [rewrite omp_rows_length; apply length_replicate|].
  intros px py c Hpx Hpy Hc.
  apply omp_rows_lookup; try assumption.
  rewrite length_replicate.
  pose proof (pixel_index_nonneg (MandelbrotCPU.width params) px py
                Hpx (proj1 Hpy)).
  nia.
Qed.

Lemma omp_render_pixels_witness :
  exists (image : list Z) (log : list MandelbrotOMP.event),
    MandelbrotOMP.render_mandelbrot_omp
      (MandelbrotCPU.mkParams 3 10 5 (-2) 1 (-1.2) 1.2) 4 8 4
      ((fun py => (py, py mod 4)) <$> reverse (seqZ 0 10)) 0 7
    = MandelbrotCPU.Done (image, log)
    /\ length image = Z.to_nat (3 * 10 * 3)
    /\ forall px py c : Z,
         0 <= px < 3 -> 0 <= py < 10 -> 0 <= c < 3 ->
         image !! Z.to_nat ((py * 3 + px) * 3 + c)
         = Some
             (Spec.channel
                (MandelbrotCPU.iterations_to_color
                   (MandelbrotOMP.mandelbrot_iterations_omp
                      (-2 + Num.of_int px
                            * MandelbrotOMP.x_scale
                                (MandelbrotCPU.mkParams 3 10 5 (-2) 1 (-1.2)
                                   1.2))%float
                      (-1.2 + Num.of_int py
                              * MandelbrotOMP.y_scale
                                  (MandelbrotCPU.mkParams 3 10 5 (-2) 1
                                     (-1.2) 1.2))%float
                      5)
                   5) c).
Proof.
  apply (omp_render_pixels
           (MandelbrotCPU.mkParams 3 10 5 (-2) 1 (-1.2) 1.2) 4 8 4
           ((fun py => (py, py mod 4)) <$> reverse (seqZ 0 10)) 0 7);
    [change (reverse (seqZ 0 10) ≡ₚ seqZ 0 10); apply reverse_Permutation
    |cbn; lia|cbn; lia|cbn; unfold Num.INT_MAX; lia].
Defined.

(** X12.  The schedule does not show in the result: two runs of
    [render_mandelbrot_omp] on the same request (width, height > 0) with
    the same thread count and clock readings, which hand out the rows in
    different orders and to different threads, end the same way, with the
    same bytes and the same lines except that the thread numbers in the
    progress lines may differ (the progress counter counts the rows passed,
    not the row numbers, so the percentages are the same). *)
Theorem omp_render_schedule_independent
  (params : MandelbrotCPU.RenderParams)
  (num_threads hw_threads max_threads : Z)
  (schedule schedule' : list (Z * Z)) (start_time end_time : Z) :
  fst <$> schedule ≡ₚ seqZ 0 (MandelbrotCPU.height params) ->
  fst <$> schedule' ≡ₚ seqZ 0 (MandelbrotCPU.height params) ->
  0 < MandelbrotCPU.width params -> 0 < MandelbrotCPU.height params ->
  MandelbrotOMP.without_threads
    (MandelbrotOMP.render_mandelbrot_omp params num_threads hw_threads
       max_threads schedule start_time end_time)
  = MandelbrotOMP.without_threads
      (MandelbrotOMP.render_mandelbrot_omp params num_threads hw_threads
         max_threads schedule' start_time end_time).
Proof. apply omp_render_schedule. Qed.

Lemma omp_render_schedule_independent_witness :
  MandelbrotOMP.without_threads
    (MandelbrotOMP.render_mandelbrot_omp
       (MandelbrotCPU.mkParams 3 10 5 (-2) 1 (-1.2) 1.2) 4 8 4
       ((fun py => (py, py mod 4)) <$> reverse (seqZ 0 10)) 0 7)
  = MandelbrotOMP.without_threads
      (MandelbrotOMP.render_mandelbrot_omp
         (MandelbrotCPU.mkParams 3 10 5 (-2) 1 (-1.2) 1.2) 4 8 4
         ((fun py => (py, 0)) <$> seqZ 0 10) 0 7).
Proof.
  apply (omp_render_schedule_independent
           (MandelbrotCPU.mkParams 3 10 5 (-2) 1 (-1.2) 1.2) 4 8 4
           ((fun py => (py, py mod 4)) <$> reverse (seqZ 0 10))
           ((fun py => (py, 0)) <$> seqZ 0 10) 0 7);
    [change (reverse (seqZ 0 10) ≡ₚ seqZ 0 10); apply reverse_Permutation
    |reflexivity|cbn; lia|cbn; lia].
Defined.

(** The thread numbers do show: the same rows in the same order, handed to
    different threads, print different progress lines. *)
Example omp_progress_lines_name_the_thread :
  MandelbrotOMP.render_mandelbrot_omp
    (MandelbrotCPU.mkParams 1 10 1 (-2) 1 (-1.2) 1.2) 2 8 2
    ((fun py => (py, 0)) <$> seqZ 0 10) 0 7
  <> MandelbrotOMP.render_mandelbrot_omp
       (MandelbrotCPU.mkParams 1 10 1 (-2) 1 (-1.2) 1.2) 2 8 2
       ((fun py => (py, 1)) <$> seqZ 0 10) 0 7.
Proof. vm_compute. discriminate. Qed.

(** X13.  The progress check of the OpenMP render divides by
    [height / 10] as the CPU render does: for width >= 0, height > 0 and a
    byte count width * height * 3 that fits an [int], and under any
    schedule, the call ends in the modulo by zero exactly when
    height < 10. *)
Theorem omp_progress_check_traps (params : MandelbrotCPU.RenderParams)
  (num_threads hw_threads max_threads : Z) (schedule : list (Z * Z))
  (start_time end_time : Z) :
  fst <$> schedule ≡ₚ seqZ 0 (MandelbrotCPU.height params) ->
  0 <= MandelbrotCPU.width params -> 0 < MandelbrotCPU.height params ->
  MandelbrotCPU.width params * MandelbrotCPU.height params * 3
  <= Num.INT_MAX ->
  (MandelbrotOMP.render_mandelbrot_omp params num_threads hw_threads
     max_threads schedule start_time end_time
   = MandelbrotCPU.DivideByZero
   <-> MandelbrotCPU.height params < 10).
Proof.
  intros Hperm HW HH Hfit. split.
  - intros Htrap.
    destruct (Z_lt_le_dec (MandelbrotCPU.height params) 10) as [Hlt|Hge];
      [exact Hlt|].
    destruct (omp_render_done params num_threads hw_threads max_threads
                schedule start_time end_time HW Hge Hfit) as [log Hdone].
    rewrite Hdone in Htrap. discriminate.
  - intros Hlt.
    rewrite omp_render_allocates by (try exact Hfit; nia).
    rewrite omp_render_rows_trap; [reflexivity| |].
    + apply Z.quot_small_iff; lia.
    + intros ->. apply Permutation_nil_l in Hperm.
      rewrite seqZ_cons in Hperm by lia. discriminate.
Qed.

Lemma omp_progress_check_traps_witness :
  MandelbrotOMP.render_mandelbrot_omp
    (MandelbrotCPU.mkParams 3 5 5 (-2) 1 (-1.2) 1.2) 4 8 4
    ((fun py => (py, py mod 4)) <$> reverse (seqZ 0 5)) 0 7
  = MandelbrotCPU.DivideByZero.
Proof.
  apply (omp_progress_check_traps
           (MandelbrotCPU.mkParams 3 5 5 (-2) 1 (-1.2) 1.2) 4 8 4
           ((fun py => (py, py mod 4)) <$> reverse (seqZ 0 5)) 0 7);
    [change (reverse (seqZ 0 5) ≡ₚ seqZ 0 5); apply reverse_Permutation
    |cbn; lia|cbn; lia|cbn; unfold Num.INT_MAX; lia|cbn; lia].
Defined.

(** ** Determinism *)

(** Lists built chunk by chunk, all chunks of one length. *)
Lemma bind_length_const {A B : Type} (f : A -> list B) (n : nat) (l : list A) :
  (forall a, length (f a) = n) -> length (l ≫= f) = (length l * n)%nat.
Proof.
  intros Hf. induction l as [|a l IH]; [reflexivity|].
  rewrite bind_cons, length_app, Hf, IH. cbn. lia.
Qed.

Lemma bind_lookup_const {A B : Type} (f : A -> list B) (n : nat) (l : list A) :
  (forall a, length (f a) = n) ->
  forall (i j : nat) (a : A),
    l !! i = Some a -> (j < n)%nat -> (l ≫= f) !! (i * n + j)%nat = f a !! j.
Proof.
  intros Hf. induction l as [|a0 l IH]; intros i j a Hi Hj; [discriminate|].
  rewrite bind_cons. destruct i as [|i].
  - cbn in Hi. injection Hi as ->. cbn [Nat.mul Nat.add].
    apply lookup_app_l. rewrite Hf. exact Hj.
  - cbn in Hi. rewrite lookup_app_r by (rewrite Hf; lia).
    rewrite Hf. replace (S i * n + j - n)%nat with (i * n + j)%nat by lia.
    apply IH; assumption.
Qed.

Lemma image_bytes_length (W H : Z) (color : Z -> Z -> MandelbrotCPU.RGB) :
  0 <= W -> 0 <= H ->
  length (Spec.image_bytes W H color) = Z.to_nat (W * H * 3).
Proof.
  intros HW HH. unfold Spec.image_bytes.
  rewrite (bind_length_const _ (Z.to_nat W * 3)).
  - rewrite length_seqZ. nia.
  - intros py. rewrite (bind_length_const _ 3); [|reflexivity].
    rewrite length_seqZ. reflexivity.
Qed.

Lemma image_bytes_lookup (W H : Z) (color : Z -> Z -> MandelbrotCPU.RGB)
  (px py c : Z) :
  0 <= px < W -> 0 <= py < H -> 0 <= c < 3 ->
  Spec.image_bytes W H color !! Z.to_nat ((py * W + px) * 3 + c)
  = Some (Spec.channel (color px py) c).
Proof.
  intros Hpx Hpy Hc. unfold Spec.image_bytes.
  replace (Z.to_nat ((py * W + px) * 3 + c))
    with (Z.to_nat py * (Z.to_nat W * 3) + (Z.to_nat px * 3 + Z.to_nat c))%nat
    by nia.
  assert (Hrow : forall y : Z,
            length (seqZ 0 W ≫= λ x : Z,
                      [MandelbrotCPU.r (color x y); MandelbrotCPU.g (color x y);
                       MandelbrotCPU.b (color x y)])
            = (Z.to_nat W * 3)%nat).
  { intros y. rewrite (bind_length_const _ 3); [|reflexivity].
    rewrite length_seqZ. reflexivity. }
  rewrite (bind_lookup_const _ (Z.to_nat W * 3) _ Hrow _ _ py);
    [|rewrite lookup_seqZ_lt by lia; f_equal; lia|nia].
  rewrite (bind_lookup_const
             (λ x : Z,
                [MandelbrotCPU.r (color x py); MandelbrotCPU.g (color x py);
                 MandelbrotCPU.b (color x py)]) 3 _ (fun _ => eq_refl) _ _ px);
    [|rewrite lookup_seqZ_lt by lia; f_equal; lia|lia].
  assert (Hcases : c = 0 \/ c = 1 \/ c = 2) by lia.
  destruct Hcases as [-> | [-> | ->]]; reflexivity.
Qed.

(** The buffer the row loop of [render_mandelbrot_cpu] leaves is the image
    given pixel by pixel. *)
Lemma cpu_rows_image (params : MandelbrotCPU.RenderParams) :
  0 < MandelbrotCPU.width params -> 0 <= MandelbrotCPU.height params ->
  foldl (fun acc y => MandelbrotCPU.render_row params y acc)
    (replicate
       (Z.to_nat (MandelbrotCPU.width params * MandelbrotCPU.height params
                  * 3)) 0)
    (seqZ 0 (MandelbrotCPU.height params))
  = Spec.image_bytes (MandelbrotCPU.width params)
      (MandelbrotCPU.height params) (Spec.mandelbrot_pixel_color params).
Proof.
  intros HW HH.
  set (W := MandelbrotCPU.width params) in *.
  set (H := MandelbrotCPU.height params) in *.
  apply (list_eq_same_length _ _ (Z.to_nat (W * H * 3))).
  - apply image_bytes_length; lia.
  - apply (foldl_preserves (fun acc y => MandelbrotCPU.render_row params y acc)
             (fun acc => length acc = Z.to_nat (W * H * 3)));
      [|apply length_replicate].
    intros acc y Hacc. rewrite render_row_length. exact Hacc.
  - intros i x y Hi Hx Hy.
    destruct (byte_index_decompose W H i HW Hi)
      as (px & py & c & Hpx & Hpy & Hc & ->).
    pose proof (pixel_index_nonneg W px py Hpx (proj1 Hpy)) as Hidx.
    unfold W, H in Hx. rewrite rows_lookup in Hx;
      try assumption; try (rewrite length_replicate; fold W H; nia).
    rewrite image_bytes_lookup in Hy by assumption.
    congruence.
Qed.

(** The buffer the rows of [render_mandelbrot_omp] leave, taken in any
    order, is the image given pixel by pixel. *)
Lemma omp_rows_image (params : MandelbrotCPU.RenderParams)
  (rows : list Z) :
  0 < MandelbrotCPU.width params ->
  rows ≡ₚ seqZ 0 (MandelbrotCPU.height params) ->
  foldl (fun acc y => MandelbrotOMP.render_row params y acc)
    (replicate
       (Z.to_nat (MandelbrotCPU.width params * MandelbrotCPU.height params
                  * 3)) 0) rows
  = Spec.image_bytes (MandelbrotCPU.width params)
      (MandelbrotCPU.height params) (Spec.omp_pixel_color params).
Proof.
  intros HW Hperm.
  set (W := MandelbrotCPU.width params) in *.
  set (H := MandelbrotCPU.height params) in *.
  destruct (Z_lt_le_dec H 0) as [Hneg|HH].
  { rewrite seqZ_nil in Hperm by lia. apply Permutation_nil_r in Hperm.
    subst rows. unfold Spec.image_bytes. rewrite (seqZ_nil 0 H) by lia.
    rewrite Z2Nat.nonpos by nia. reflexivity. }
  apply (list_eq_same_length _ _ (Z.to_nat (W * H * 3))).
  - apply image_bytes_length; lia.
  - rewrite omp_rows_length. apply length_replicate.
  - intros i x y Hi Hx Hy.
    destruct (byte_index_decompose W H i HW Hi)
      as (px & py & c & Hpx & Hpy & Hc & ->).
    pose proof (pixel_index_nonneg W px py Hpx (proj1 Hpy)) as Hidx.
    unfold W, H in Hx. rewrite omp_rows_lookup in Hx;
      try assumption; try (rewrite length_replicate; fold W H; nia).
    rewrite image_bytes_lookup in Hy by assumption.
    unfold Spec.omp_pixel_color in Hy. congruence.
Qed.

(** What a run of [render_mandelbrot_omp] hands back, whatever the clock,
    the thread count and the schedule. *)
Lemma omp_image_of (params : MandelbrotCPU.RenderParams)
  (num_threads hw_threads max_threads : Z) (schedule : list (Z * Z))
  (start_time end_time : Z) :
  0 < MandelbrotCPU.width params -> 0 < MandelbrotCPU.height params ->
  fst <$> schedule ≡ₚ seqZ 0 (MandelbrotCPU.height params) ->
  MandelbrotOMP.image_of
    (MandelbrotOMP.render_mandelbrot_omp params num_threads hw_threads
       max_threads schedule start_time end_time)
  = if (MandelbrotCPU.byte_count params <? 0)
       || negb (MandelbrotCPU.byte_count params
                =? MandelbrotCPU.width params * MandelbrotCPU.height params
                   * 3)
       || (Z.quot (MandelbrotCPU.height params) 10 =? 0)
    then None
    else Some (Spec.image_bytes (MandelbrotCPU.width params)
                 (MandelbrotCPU.height params) (Spec.omp_pixel_color params)).
Proof.
  intros HW HH Hperm.
  unfold MandelbrotOMP.render_mandelbrot_omp. cbv zeta.
  destruct (MandelbrotCPU.byte_count params <? 0); [reflexivity|].
  destruct (MandelbrotCPU.byte_count params
            =? MandelbrotCPU.width params * MandelbrotCPU.height params * 3)
    eqn:Hsize; [|reflexivity].
  apply Z.eqb_eq in Hsize. rewrite Hsize. cbn [negb orb].
  destruct (Z.eqb_spec (Z.quot (MandelbrotCPU.height params) 10) 0)
    as [Hq|Hq].
  - rewrite omp_render_rows_trap; [reflexivity|exact Hq|].
    intros ->. apply Permutation_nil_l in Hperm.
    rewrite seqZ_cons in Hperm by lia. discriminate.
  - destruct (omp_render_rows_done params schedule schedule Hq eq_refl
                (replicate
                   (Z.to_nat (MandelbrotCPU.width params
                              * MandelbrotCPU.height params * 3)) 0)
                (replicate
                   (Z.to_nat (MandelbrotCPU.width params
                              * MandelbrotCPU.height params * 3)) 0) 0
                [MandelbrotOMP.Configured
                   (MandelbrotOMP.configure_openmp num_threads hw_threads);
                 MandelbrotOMP.Threads max_threads]
                [MandelbrotOMP.Configured
                   (MandelbrotOMP.configure_openmp num_threads hw_threads);
                 MandelbrotOMP.Threads max_threads] eq_refl)
      as (log' & _ & Hrows & _).
    rewrite Hrows. cbn [MandelbrotOMP.image_of].
    rewrite (omp_rows_image params _ HW Hperm). reflexivity.
Qed.

(** The same for [render_mandelbrot_cpu] and its clock. *)
Lemma cpu_image_of (params : MandelbrotCPU.RenderParams)
  (start_time end_time : Z) :
  0 < MandelbrotCPU.width params -> 0 < MandelbrotCPU.height params ->
  MandelbrotCPU.image_of
    (MandelbrotCPU.render_mandelbrot_cpu params start_time end_time)
  = if (MandelbrotCPU.byte_count params <? 0)
       || negb (MandelbrotCPU.byte_count params
                =? MandelbrotCPU.width params * MandelbrotCPU.height params
                   * 3)
       || (Z.quot (MandelbrotCPU.height params) 10 =? 0)
    then None
    else Some (Spec.image_bytes (MandelbrotCPU.width params)
                 (MandelbrotCPU.height params)
                 (Spec.mandelbrot_pixel_color params)).
Proof.
  intros HW HH.
  unfold MandelbrotCPU.render_mandelbrot_cpu.
  destruct (MandelbrotCPU.byte_count params <? 0); [reflexivity|].
  destruct (MandelbrotCPU.byte_count params
            =? MandelbrotCPU.width params * MandelbrotCPU.height params * 3)
    eqn:Hsize; [|reflexivity].
  apply Z.eqb_eq in Hsize. rewrite Hsize. cbn [negb orb].
  destruct (Z.eqb_spec (Z.quot (MandelbrotCPU.height params) 10) 0)
    as [Hq|Hq].
  - rewrite render_rows_trap; [reflexivity|exact Hq|].
    rewrite seqZ_cons by lia. discriminate.
  - destruct (render_rows_done params (seqZ 0 (MandelbrotCPU.height params))
                Hq
                (replicate
                   (Z.to_nat (MandelbrotCPU.width params
                              * MandelbrotCPU.height params * 3)) 0) [])
      as [log' Hrows].
    rewrite Hrows. cbn [MandelbrotCPU.image_of].
    rewrite cpu_rows_image by lia. reflexivity.
Qed.

(** C9.  Rendering is deterministic.  Besides the request, a run of
    [render_mandelbrot_cpu] depends on the clock, and a run of
    [render_mandelbrot_omp] on the clock, on the thread count it is given
    and finds, and on the order in which the runtime hands the rows to the
    threads.  For every request with width, height > 0, two runs of
    [render_mandelbrot_cpu] hand back the same bytes, and so do two runs of
    [render_mandelbrot_omp], whatever these are in each run.  When
    height >= 10 and the byte count width * height * 3 fits an [int], each
    render does hand back a buffer, and it is the image given pixel by
    pixel, the colour of each pixel a function of the pixel and the request
    alone. *)
Theorem render_deterministic (params : MandelbrotCPU.RenderParams)
  (start_time end_time start_time' end_time' : Z)
  (num_threads hw_threads max_threads : Z)
  (num_threads' hw_threads' max_threads' : Z)
  (schedule schedule' : list (Z * Z)) :
  0 < MandelbrotCPU.width params -> 0 < MandelbrotCPU.height params ->
  fst <$> schedule ≡ₚ seqZ 0 (MandelbrotCPU.height params) ->
  fst <$> schedule' ≡ₚ seqZ 0 (MandelbrotCPU.height params) ->
  MandelbrotCPU.image_of
    (MandelbrotCPU.render_mandelbrot_cpu params start_time end_time)
  = MandelbrotCPU.image_of
      (MandelbrotCPU.render_mandelbrot_cpu params start_time' end_time')
  /\ MandelbrotOMP.image_of
       (MandelbrotOMP.render_mandelbrot_omp params num_threads hw_threads
          max_threads schedule start_time end_time)
     = MandelbrotOMP.image_of
         (MandelbrotOMP.render_mandelbrot_omp params num_threads' hw_threads'
            max_threads' schedule' start_time' end_time')
  /\ (10 <= MandelbrotCPU.height params ->
      MandelbrotCPU.width params * MandelbrotCPU.height params * 3
      <= Num.INT_MAX ->
      MandelbrotCPU.image_of
        (MandelbrotCPU.render_mandelbrot_cpu params start_time end_time)
      = Some (Spec.image_bytes (MandelbrotCPU.width params)
                (MandelbrotCPU.height params)
                (Spec.mandelbrot_pixel_color params))
      /\ MandelbrotOMP.image_of
           (MandelbrotOMP.render_mandelbrot_omp params num_threads hw_threads
              max_threads schedule start_time end_time)
         = Some (Spec.image_bytes (MandelbrotCPU.width params)
                   (MandelbrotCPU.height params)
                   (Spec.omp_pixel_color params))).
Proof.
  intros HW HH Hperm Hperm'.
  rewrite !cpu_image_of by assumption.
  rewrite !omp_image_of by assumption.
  split; [reflexivity|]. split; [reflexivity|].
  intros Hten Hfit.
  destruct (byte_count_exact params ltac:(nia) Hfit) as [_ ->].
  replace (_ <? 0) with false by (symmetry; apply Z.ltb_ge; nia).
  rewrite Z.eqb_refl.
  replace (Z.quot (MandelbrotCPU.height params) 10 =? 0) with false.
  - split; reflexivity.
  - symmetry. apply Z.eqb_neq. intros E.
    apply Z.quot_small_iff in E; lia.
Qed.

Lemma render_deterministic_witness :
  MandelbrotCPU.image_of
    (MandelbrotCPU.render_mandelbrot_cpu
       (MandelbrotCPU.mkParams 3 10 5 (-2) 1 (-1.2) 1.2) 0 7)
  = MandelbrotCPU.image_of
      (MandelbrotCPU.render_mandelbrot_cpu
         (MandelbrotCPU.mkParams 3 10 5 (-2) 1 (-1.2) 1.2) 100 250)
  /\ MandelbrotOMP.image_of
       (MandelbrotOMP.render_mandelbrot_omp
          (MandelbrotCPU.mkParams 3 10 5 (-2) 1 (-1.2) 1.2) 4 8 4
          ((fun py => (py, py mod 4)) <$> reverse (seqZ 0 10)) 0 7)
     = MandelbrotOMP.image_of
         (MandelbrotOMP.render_mandelbrot_omp
            (MandelbrotCPU.mkParams 3 10 5 (-2) 1 (-1.2) 1.2) 0 2 2
            ((fun py => (py, py mod 2)) <$> seqZ 0 10) 100 250).
Proof.
  destruct (render_deterministic
              (MandelbrotCPU.mkParams 3 10 5 (-2) 1 (-1.2) 1.2)
              0 7 100 250 4 8 4 0 2 2
              ((fun py => (py, py mod 4)) <$> reverse (seqZ 0 10))
              ((fun py => (py, py mod 2)) <$> seqZ 0 10))
    as (Hcpu & Homp & _);
    [cbn; lia|cbn; lia
    |change (reverse (seqZ 0 10) ≡ₚ seqZ 0 10); apply reverse_Permutation
    |reflexivity|].
  split; [exact Hcpu|exact Homp].
Defined.

(** ** The Julia render: the file it writes, and the OpenMP variant *)

Lemma flat_map_ext_in {A B : Type} (f g : A -> list B) (l : list A) :
  (forall a, In a l -> f a = g a) -> flat_map f l = flat_map g l.
Proof.
  induction l as [|a l IH]; intros Hfg; [reflexivity|]. cbn.
  rewrite (Hfg a) by (left; reflexivity).
  rewrite IH; [reflexivity|].
  intros a' Ha'. apply Hfg. right. exact Ha'.
Qed.

Lemma cell_index_decompose (W H : Z) (i : nat) :
  0 < W -> (i < Z.to_nat (W * H))%nat ->
  exists px py : Z,
    0 <= px < W /\ 0 <= py < H /\ i = Z.to_nat (py * W + px).
Proof.
  intros HW Hi.
  set (k := Z.of_nat i).
  assert (Hk : 0 <= k < W * H) by lia.
  exists (k mod W), (k / W).
  pose proof (Z.mod_pos_bound k W HW) as Hpx.
  pose proof (Z.div_mod k W ltac:(lia)) as HkW.
  assert (Hpy : 0 <= k / W < H).
  { split; [apply Z.div_pos; lia|].
    apply Z.div_lt_upper_bound; lia. }
  repeat split; lia.
Qed.

Section JuliaFile.

Import JuliaRenderer.

Variable params : JuliaParams.
Let W := width params.
Let H := height params.

(** The count the loop body stores for pixel (px, py). *)
Let count (px py : Z) : Z :=
  julia_iterations (sample_x params px) (sample_y params py)
    (cx params) (cy params) (max_iterations params).

(** What [save_ppm] writes for a buffer that holds [count] at every pixel. *)
Lemma save_ppm_pixels (data : list Z) :
  (forall px py, 0 <= px < W -> 0 <= py < H ->
     data !! Z.to_nat (py * W + px) = Some (count px py)) ->
  save_ppm data W H
  = flat_map
      (fun py =>
         map (fun px => iterations_to_color (count px py) 1000) (seqZ 0 W))
      (seqZ 0 H).
Proof.
  intros Hdata. unfold save_ppm.
  apply flat_map_ext_in. intros py Hpy.
  apply list_elem_of_In, elem_of_seqZ in Hpy.
  apply map_ext_in. intros px Hpx.
  apply list_elem_of_In, elem_of_seqZ in Hpx.
  rewrite Hdata by lia. reflexivity.
Qed.

Lemma julia_render_pixels :
  allocates params = true ->
  render params
  = flat_map
      (fun py =>
         map (fun px => iterations_to_color (count px py) 1000) (seqZ 0 W))
      (seqZ 0 H).
Proof.
  intros Halloc. unfold render. rewrite Halloc. apply save_ppm_pixels.
  intros px py Hpx Hpy. apply julia_render_data_lookup; try assumption.
  apply julia_allocates_range, Halloc.
Qed.

Lemma julia_count_bounds (px py : Z) :
  0 <= max_iterations params -> 0 <= count px py <= max_iterations params.
Proof.
  intros Hmax. unfold count.
  rewrite julia_iterations_escape_index by exact Hmax.
  apply escape_index_bounds. exact Hmax.
Qed.

(** A property of the colours of all counts up to the cap holds of every
    pixel written. *)
Lemma julia_render_Forall (P : Z * Z * Z -> Prop) :
  0 <= max_iterations params ->
  (forall iterations, 0 <= iterations <= max_iterations params ->
     P (iterations_to_color iterations 1000)) ->
  Forall P (render params).
Proof.
  intros Hmax HP.
  destruct (allocates params) eqn:Halloc;
    [|unfold render; rewrite Halloc; constructor].
  rewrite julia_render_pixels by exact Halloc.
  apply Forall_forall. intros color Hin.
  apply list_elem_of_In, in_flat_map in Hin as (py & _ & Hin).
  apply in_map_iff in Hin as (px & <- & _).
  apply HP, julia_count_bounds, Hmax.
Qed.

(** The tasks of the collapsed loop. *)
Lemma pixel_tasks_elem (py px : Z) :
  (py, px) ∈ JuliaRendererOMP.pixel_tasks params
  <-> 0 <= px < W /\ 0 <= py < H.
Proof.
  unfold JuliaRendererOMP.pixel_tasks. rewrite list_elem_of_bind. split.
  - intros (y & Hin & Hy).
    apply list_elem_of_fmap in Hin as (x & Heq & Hx).
    apply elem_of_seqZ in Hx, Hy. inversion Heq; subst. unfold W, H. lia.
  - intros [Hpx Hpy]. exists py. split.
    + apply list_elem_of_fmap. exists px. split; [reflexivity|].
      apply elem_of_seqZ. unfold W in Hpx. lia.
    + apply elem_of_seqZ. unfold H in Hpy. lia.
Qed.

Lemma pixel_tasks_NoDup : NoDup (JuliaRendererOMP.pixel_tasks params).
Proof.
  unfold JuliaRendererOMP.pixel_tasks. apply NoDup_bind.
  - intros y1 y2 [py px] _ _ H1 H2.
    apply list_elem_of_fmap in H1 as (x1 & E1 & _).
    apply list_elem_of_fmap in H2 as (x2 & E2 & _).
    congruence.
  - intros y _. apply NoDup_fmap; [|apply NoDup_seqZ].
    intros x1 x2 E. congruence.
  - apply NoDup_seqZ.
Qed.

Lemma julia_omp_length (schedule : list (Z * Z)) (image : list Z) :
  length (foldl (fun data '(py, px) => render_pixel params py data px)
            image schedule)
  = length image.
Proof.
  apply (foldl_preserves
           (fun data '(py, px) => render_pixel params py data px)
           (fun acc => length acc = length image)); [|reflexivity].
  intros acc [py px] Hacc. rewrite julia_render_pixel_length. exact Hacc.
Qed.

Lemma julia_omp_render_data_lookup (schedule : list (Z * Z)) (px py : Z) :
  schedule ≡ₚ JuliaRendererOMP.pixel_tasks params ->
  allocates params = true ->
  0 <= px < W -> 0 <= py < H ->
  JuliaRendererOMP.render_data params schedule !! Z.to_nat (py * W + px)
  = Some (count px py).
Proof.
  intros Hperm Halloc Hpx Hpy. unfold JuliaRendererOMP.render_data.
  rewrite Halloc. cbv zeta. fold W H.
  set (image := replicate (Z.to_nat (W * H)) 0).
  assert (Hlen : py * W + px < Z.of_nat (length image)).
  { unfold image. rewrite length_replicate. nia. }
  pose proof (pixel_index_nonneg W px py Hpx (proj1 Hpy)) as Ha.
  apply (foldl_lookup_written
           (fun data '(py, px) => render_pixel params py data px)
           (fun acc => length acc = length image) _ _ (py, px)).
  - rewrite Hperm. apply pixel_tasks_NoDup.
  - rewrite Hperm. apply pixel_tasks_elem. split; assumption.
  - intros acc [y x] Hacc. rewrite julia_render_pixel_length. exact Hacc.
  - intros acc Hacc. unfold render_pixel. cbv zeta. fold W.
    apply list_lookup_insert_eq. lia.
  - intros acc [y x] Hin Hne. rewrite Hperm in Hin.
    apply pixel_tasks_elem in Hin as [Hx Hy].
    unfold render_pixel. cbv zeta. fold W.
    apply list_lookup_insert_ne.
    assert (Hidx : y * W + x <> py * W + px).
    { intros Heq. apply pixel_index_inj in Heq; [|assumption..].
      apply Hne. f_equal; lia. }
    assert (0 <= y * W + x) by (apply pixel_index_nonneg; lia). lia.
  - reflexivity.
Qed.

Lemma julia_omp_render_data (schedule : list (Z * Z)) :
  0 < W -> schedule ≡ₚ JuliaRendererOMP.pixel_tasks params ->
  JuliaRendererOMP.render_data params schedule = render_data params.
Proof.
  intros HW Hperm.
  destruct (allocates params) eqn:Halloc;
    [|unfold JuliaRendererOMP.render_data, render_data; rewrite Halloc;
      reflexivity].
  pose proof (julia_allocates_range params Halloc) as Hfit.
  apply (list_eq_same_length _ _ (Z.to_nat (W * H))).
  - unfold render_data. rewrite Halloc. cbv zeta. fold W H.
    apply (foldl_preserves
             (fun data y => foldl (render_pixel params y) data (seqZ 0 W))
             (fun acc => length acc = Z.to_nat (W * H)));
      [|apply length_replicate].
    intros acc y Hacc. rewrite julia_row_length. exact Hacc.
  - unfold JuliaRendererOMP.render_data. rewrite Halloc. cbv zeta. fold W H.
    rewrite julia_omp_length. apply length_replicate.
  - intros i x y Hi Hx Hy.
    destruct (cell_index_decompose W H i HW Hi) as (px & py & Hpx & Hpy & ->).
    rewrite julia_omp_render_data_lookup in Hx by assumption.
    unfold W in Hy.
    rewrite julia_render_data_lookup in Hy by (try assumption; apply Hfit).
    unfold count in Hx. congruence.
Qed.

End JuliaFile.

Lemma julia_colours_checked :
  forallb
    (fun iterations =>
       let '(r, g, b) := JuliaRenderer.iterations_to_color iterations 1000 in
       (0 <=? r) && (r <=? 255) && (0 <=? g) && (g <=? 255)
       && (0 <=? b) && (b <=? 255)
       && ((iterations =? 1000)
           || negb (Spec.is_black (r, g, b))))
    (seqZ 0 1001) = true.
Proof. vm_compute. reflexivity. Qed.

Lemma julia_colour_checked (iterations : Z) :
  0 <= iterations <= 1000 ->
  let '(r, g, b) := JuliaRenderer.iterations_to_color iterations 1000 in
  0 <= r <= 255 /\ 0 <= g <= 255 /\ 0 <= b <= 255
  /\ (iterations < 1000 -> Spec.is_black (r, g, b) = false).
Proof.
  intros Hit. pose proof julia_colours_checked as Hall.
  rewrite forallb_forall in Hall. specialize (Hall iterations).
  destruct (JuliaRenderer.iterations_to_color iterations 1000)
    as [[r g] b].
  rewrite !andb_true_iff, orb_true_iff, !Z.leb_le, Z.eqb_eq, negb_true_iff
    in Hall.
  destruct Hall as [[[[[[? ?] ?] ?] ?] ?] Hblack].
  { apply list_elem_of_In, elem_of_seqZ. lia. }
  repeat split; try assumption.
  intros Hlt. destruct Hblack as [E|Hb]; [lia|exact Hb].
Qed.

(** X14.  A Julia render with a cap below 1000 writes no black pixel at
    all, whatever the viewport and the constant: [save_ppm] normalises by the
    literal 1000, a stored count is at most the cap, and no count below 1000
    maps to (0, 0, 0).  Samples that never escape are therefore never shown
    in black. *)
Theorem julia_image_never_black (params : JuliaRenderer.JuliaParams) :
  0 <= JuliaRenderer.max_iterations params < 1000 ->
  Forall (fun color => Spec.is_black color = false)
    (JuliaRenderer.render params).
Proof.
  intros Hmax. apply julia_render_Forall; [lia|].
  intros iterations Hit.
  pose proof (julia_colour_checked iterations ltac:(lia)) as Hc.
  destruct (JuliaRenderer.iterations_to_color iterations 1000) as [[r g] b].
  apply Hc. lia.
Qed.

Lemma julia_image_never_black_witness :
  Forall (fun color => Spec.is_black color = false)
    (JuliaRenderer.render
       (JuliaRenderer.mkParams (-0.8) 0.156 3 2 50 (-2) 2 (-1.5) 1.5)).
Proof.
  apply (julia_image_never_black
           (JuliaRenderer.mkParams (-0.8) 0.156 3 2 50 (-2) 2 (-1.5) 1.5)).
  cbn. lia.
Defined.

(** X15.  A Julia render with a cap of at most 1000 (the default and every
    preset use 1000) whose pixel count width * height fits an [int] writes
    width * height pixels whose three channels all lie in 0 .. 255, the
    maximum the P3 header announces. *)
Theorem julia_image_channels_in_range (params : JuliaRenderer.JuliaParams) :
  0 <= JuliaRenderer.width params -> 0 <= JuliaRenderer.height params ->
  JuliaRenderer.width params * JuliaRenderer.height params <= Num.INT_MAX ->
  0 <= JuliaRenderer.max_iterations params <= 1000 ->
  Forall (fun '(r, g, b) => 0 <= r <= 255 /\ 0 <= g <= 255 /\ 0 <= b <= 255)
    (JuliaRenderer.render params)
  /\ length (JuliaRenderer.render params)
     = Z.to_nat (JuliaRenderer.width params * JuliaRenderer.height params).
Proof.
  intros HW HH Hfit Hmax. split.
  - apply julia_render_Forall; [lia|].
    intros iterations Hit.
    pose proof (julia_colour_checked iterations ltac:(lia)) as Hc.
    destruct (JuliaRenderer.iterations_to_color iterations 1000) as [[r g] b].
    tauto.
  - unfold JuliaRenderer.render.
    rewrite julia_allocates_fit by (try exact Hfit; nia).
    unfold JuliaRenderer.save_ppm.
    rewrite (flat_map_constant_length
               (c := Z.to_nat (JuliaRenderer.width params))).
    + rewrite length_seqZ. lia.
    + intros py _. rewrite length_map, length_seqZ. reflexivity.
Qed.

Lemma julia_image_channels_in_range_witness :
  Forall (fun '(r, g, b) => 0 <= r <= 255 /\ 0 <= g <= 255 /\ 0 <= b <= 255)
    (JuliaRenderer.render
       (JuliaRenderer.mkParams (-0.8) 0.156 3 2 1000 (-2) 2 (-1.5) 1.5))
  /\ length (JuliaRenderer.render
               (JuliaRenderer.mkParams (-0.8) 0.156 3 2 1000 (-2) 2 (-1.5)
                  1.5))
     = Z.to_nat (3 * 2).
Proof.
  apply (julia_image_channels_in_range
           (JuliaRenderer.mkParams (-0.8) 0.156 3 2 1000 (-2) 2 (-1.5) 1.5));
    cbn; unfold Num.INT_MAX; lia.
Defined.

(** X16.  [JuliaRendererOMP::render] agrees with [JuliaRenderer::render]:
    for width > 0 and any order in which the pixel tasks of the collapsed
    loop are carried out, it fills the same buffer of counts and writes the
    same pixels. *)
Theorem julia_omp_matches_cpu (params : JuliaRenderer.JuliaParams)
  (schedule : list (Z * Z)) :
  0 < JuliaRenderer.width params ->
  schedule ≡ₚ JuliaRendererOMP.pixel_tasks params ->
  JuliaRendererOMP.render_data params schedule
  = JuliaRenderer.render_data params
  /\ JuliaRendererOMP.render params schedule = JuliaRenderer.render params.
Proof.
  intros HW Hperm.
  pose proof (julia_omp_render_data params schedule HW Hperm) as Hdata.
  split; [exact Hdata|].
  unfold JuliaRendererOMP.render, JuliaRenderer.render. rewrite Hdata.
  reflexivity.
Qed.

Lemma julia_omp_matches_cpu_witness :
  JuliaRendererOMP.render_data
    (JuliaRenderer.mkParams (-0.8) 0.156 3 2 50 (-2) 2 (-1.5) 1.5)
    (reverse
       (JuliaRendererOMP.pixel_tasks
          (JuliaRenderer.mkParams (-0.8) 0.156 3 2 50 (-2) 2 (-1.5) 1.5)))
  = JuliaRenderer.render_data
      (JuliaRenderer.mkParams (-0.8) 0.156 3 2 50 (-2) 2 (-1.5) 1.5)
  /\ JuliaRendererOMP.render
       (JuliaRenderer.mkParams (-0.8) 0.156 3 2 50 (-2) 2 (-1.5) 1.5)
       (reverse
          (JuliaRendererOMP.pixel_tasks
             (JuliaRenderer.mkParams (-0.8) 0.156 3 2 50 (-2) 2 (-1.5) 1.5)))
     = JuliaRenderer.render
         (JuliaRenderer.mkParams (-0.8) 0.156 3 2 50 (-2) 2 (-1.5) 1.5).
Proof.
  apply (julia_omp_matches_cpu
           (JuliaRenderer.mkParams (-0.8) 0.156 3 2 50 (-2) 2 (-1.5) 1.5));
    [cbn; lia|apply reverse_Permutation].
Defined.

(** ** The Burning Ship and Newton renderer objects *)

Section FoldObserve.

Context {S B V : Type} (f : S -> B -> S) (obs : S -> V).

Lemma foldl_invariant (P : S -> Prop) (l : list B) :
  (forall acc x, x ∈ l -> P acc -> P (f acc x)) ->
  forall s : S, P s -> P (foldl f s l).
Proof.
  induction l as [|x l IH]; intros Hstep s HP; cbn; [exact HP|].
  apply IH.
  - intros acc y Hy. apply Hstep. right. exact Hy.
  - apply Hstep; [left|exact HP].
Qed.

Lemma foldl_observe_untouched (l : list B) :
  (forall acc x, x ∈ l -> obs (f acc x) = obs acc) ->
  forall s : S, obs (foldl f s l) = obs s.
Proof.
  induction l as [|x l IH]; intros Hmiss s; cbn; [reflexivity|].
  rewrite IH.
  - apply Hmiss. left.
  - intros acc y Hy. apply Hmiss. right. exact Hy.
Qed.

Lemma foldl_observe_written (P : S -> Prop) (l : list B) (x0 : B) (v : V) :
  NoDup l -> x0 ∈ l ->
  (forall acc x, x ∈ l -> P acc -> P (f acc x)) ->
  (forall acc, P acc -> obs (f acc x0) = v) ->
  (forall acc x, x ∈ l -> x <> x0 -> obs (f acc x) = obs acc) ->
  forall s : S, P s -> obs (foldl f s l) = v.
Proof.
  intros Hnodup Hin.
  induction l as [|x l IH]; intros Hstep Hhit Hmiss s HP.
  - inversion Hin.
  - cbn. apply NoDup_cons in Hnodup as [Hnotin Hnodup].
    apply elem_of_cons in Hin as [-> | Hin].
    + rewrite foldl_observe_untouched; [apply Hhit, HP|].
      intros acc y Hy. apply Hmiss; [right; exact Hy|].
      intros ->. contradiction.
    + apply IH; [exact Hnodup|exact Hin| |exact Hhit| |].
      * intros acc y Hy. apply Hstep. right. exact Hy.
      * intros acc y Hy. apply Hmiss. right. exact Hy.
      * apply Hstep; [left|exact HP].
Qed.

End FoldObserve.

Section GridFill.

Context {A : Type} (cell : Z -> Z -> A) (W H : Z).

Lemma shaped_spec (data : list (list A)) :
  Grid.shaped H W data = true
  <-> Z.of_nat (length data) = H
      /\ forall (i : nat) (row : list A),
           data !! i = Some row -> Z.of_nat (length row) = W.
Proof.
  unfold Grid.shaped. rewrite andb_true_iff, Z.eqb_eq, forallb_forall.
  split; intros [Hlen Hrows]; (split; [exact Hlen|]).
  - intros i row Hrow. apply Z.eqb_eq, Hrows.
    apply list_elem_of_In, list_elem_of_lookup. exists i. exact Hrow.
  - intros row Hin. apply list_elem_of_In, list_elem_of_lookup in Hin as [i Hi].
    apply Z.eqb_eq. apply (Hrows i). exact Hi.
Qed.

Lemma set_cell_shaped (data : list (list A)) (y x : Z) (v : A) :
  Grid.shaped H W data = true ->
  Grid.shaped H W (Grid.set_cell data y x v) = true.
Proof.
  rewrite !shaped_spec. intros [Hlen Hrows]. unfold Grid.set_cell. split.
  - rewrite length_alter. exact Hlen.
  - intros i row. rewrite list_lookup_alter.
    destruct (decide (Z.to_nat y = i)) as [->|_]; [|apply Hrows].
    destruct (data !! i) as [row0|] eqn:Hrow0;
      [|intros Hn; cbn in Hn; discriminate Hn].
    cbn. intros Heq. injection Heq as <-.
    rewrite length_insert. apply (Hrows _ _ Hrow0).
Qed.

Lemma set_cell_lookup_self (data : list (list A)) (y x : Z) (v : A) :
  Grid.shaped H W data = true -> 0 <= y < H -> 0 <= x < W ->
  Grid.set_cell data y x v !! Z.to_nat y
    ≫= (fun row => row !! Z.to_nat x) = Some v.
Proof.
  rewrite shaped_spec. intros [Hlen Hrows] Hy Hx. unfold Grid.set_cell.
  rewrite list_lookup_alter_eq.
  destruct (lookup_lt_is_Some_2 data (Z.to_nat y) ltac:(lia)) as [row Hrow].
  rewrite Hrow. cbn. apply list_lookup_insert_eq.
  specialize (Hrows _ _ Hrow). lia.
Qed.

Lemma set_cell_lookup_other (data : list (list A)) (y x y0 x0 : Z) (v : A) :
  0 <= y -> 0 <= x -> 0 <= y0 -> 0 <= x0 -> y <> y0 \/ x <> x0 ->
  Grid.set_cell data y x v !! Z.to_nat y0
    ≫= (fun row => row !! Z.to_nat x0)
  = data !! Z.to_nat y0 ≫= (fun row => row !! Z.to_nat x0).
Proof.
  intros Hy Hx Hy0 Hx0 Hne. unfold Grid.set_cell.
  rewrite list_lookup_alter.
  destruct (decide (Z.to_nat y = Z.to_nat y0)) as [E|_]; [|reflexivity].
  rewrite E. destruct (data !! Z.to_nat y0) as [row|]; [|reflexivity].
  cbn. apply list_lookup_insert_ne. lia.
Qed.

(** The nested loops that store [cell y x] at every (y, x). *)
Lemma fill_shaped (data : list (list A)) :
  Grid.shaped H W data = true ->
  Grid.shaped H W
    (foldl
       (fun data y =>
          foldl (fun data x => Grid.set_cell data y x (cell y x)) data
            (seqZ 0 W))
       data (seqZ 0 H)) = true.
Proof.
  apply (foldl_invariant _ (fun acc => Grid.shaped H W acc = true)).
  intros acc y _.
  apply (foldl_invariant _ (fun acc => Grid.shaped H W acc = true)).
  intros acc' x _. apply set_cell_shaped.
Qed.

Lemma fill_lookup (data : list (list A)) (y x : Z) :
  Grid.shaped H W data = true -> 0 <= y < H -> 0 <= x < W ->
  foldl
    (fun data y =>
       foldl (fun data x => Grid.set_cell data y x (cell y x)) data
         (seqZ 0 W))
    data (seqZ 0 H) !! Z.to_nat y
    ≫= (fun row => row !! Z.to_nat x)
  = Some (cell y x).
Proof.
  intros Hshape Hy Hx.
  apply (foldl_observe_written _
           (fun acc => acc !! Z.to_nat y ≫= (fun row => row !! Z.to_nat x))
           (fun acc => Grid.shaped H W acc = true) _ y).
  - apply NoDup_seqZ.
  - apply elem_of_seqZ. lia.
  - intros acc y' _.
    apply (foldl_invariant _ (fun acc => Grid.shaped H W acc = true)).
    intros acc' x' _. apply set_cell_shaped.
  - intros acc Hacc.
    apply (foldl_observe_written _
             (fun acc => acc !! Z.to_nat y ≫= (fun row => row !! Z.to_nat x))
             (fun acc => Grid.shaped H W acc = true) _ x).
    + apply NoDup_seqZ.
    + apply elem_of_seqZ. lia.
    + intros acc' x' _. apply set_cell_shaped.
    + intros acc' Hacc'. apply set_cell_lookup_self; assumption.
    + intros acc' x' Hin Hne. apply elem_of_seqZ in Hin.
      apply set_cell_lookup_other; try lia.
    + exact Hacc.
  - intros acc y' Hin Hne. apply elem_of_seqZ in Hin.
    apply (foldl_observe_untouched _
             (fun acc => acc !! Z.to_nat y
                           ≫= (fun row => row !! Z.to_nat x))).
    intros acc' x' Hin'. apply elem_of_seqZ in Hin'.
    apply set_cell_lookup_other; try lia.
  - exact Hshape.
Qed.

(** A shaped table is determined by its cells. *)
Lemma shaped_table (data : list (list A)) :
  Grid.shaped H W data = true ->
  (forall y x, 0 <= y < H -> 0 <= x < W ->
     data !! Z.to_nat y ≫= (fun row => row !! Z.to_nat x)
     = Some (cell y x)) ->
  data = (fun y => (fun x => cell y x) <$> seqZ 0 W) <$> seqZ 0 H.
Proof.
  rewrite shaped_spec. intros [Hlen Hrows] Hcells.
  apply (list_eq_same_length _ _ (Z.to_nat H)).
  - rewrite length_fmap, length_seqZ. reflexivity.
  - lia.
  - intros i row row' Hi Hrow Hrow'.
    rewrite list_lookup_fmap, lookup_seqZ_lt in Hrow' by lia.
    cbn in Hrow'. injection Hrow' as <-.
    pose proof (Hrows _ _ Hrow) as Hw.
    apply (list_eq_same_length _ _ (Z.to_nat W)).
    + rewrite length_fmap, length_seqZ. reflexivity.
    + lia.
    + intros j a a' Hj Ha Ha'.
      rewrite list_lookup_fmap, lookup_seqZ_lt in Ha' by lia.
      cbn in Ha'. injection Ha' as <-.
      specialize (Hcells (Z.of_nat i) (Z.of_nat j) ltac:(lia) ltac:(lia)).
      rewrite !Nat2Z.id, Hrow in Hcells. cbn in Hcells.
      rewrite !Z.add_0_l. congruence.
Qed.

Lemma fill_table (data : list (list A)) :
  Grid.shaped H W data = true ->
  foldl
    (fun data y =>
       foldl (fun data x => Grid.set_cell data y x (cell y x)) data
         (seqZ 0 W))
    data (seqZ 0 H)
  = (fun y => (fun x => cell y x) <$> seqZ 0 W) <$> seqZ 0 H.
Proof.
  intros Hshape. apply shaped_table.
  - apply fill_shaped, Hshape.
  - intros y x Hy Hx. apply fill_lookup; assumption.
Qed.

(** Reading a table of [cell] inside the image. *)
Lemma table_get_cell (d : A) (y x : Z) :
  0 <= y < H -> 0 <= x < W ->
  Grid.get_cell d ((fun y => (fun x => cell y x) <$> seqZ 0 W) <$> seqZ 0 H)
    y x
  = cell y x.
Proof.
  intros Hy Hx. unfold Grid.get_cell.
  rewrite list_lookup_fmap, lookup_seqZ_lt by lia. cbn.
  rewrite list_lookup_fmap, lookup_seqZ_lt by lia. cbn.
  f_equal; lia.
Qed.

Lemma table_shaped :
  0 <= H -> 0 <= W ->
  Grid.shaped H W
    ((fun y => (fun x => cell y x) <$> seqZ 0 W) <$> seqZ 0 H) = true.
Proof.
  intros HH HW. apply shaped_spec. split.
  - rewrite length_fmap, length_seqZ. lia.
  - intros i row Hrow. rewrite list_lookup_fmap in Hrow.
    destruct (seqZ 0 H !! i); [|discriminate]. cbn in Hrow.
    injection Hrow as <-. rewrite length_fmap, length_seqZ. lia.
Qed.

End GridFill.

Lemma replicate_shaped {A : Type} (H W : Z) (v : A) :
  0 <= H -> 0 <= W ->
  Grid.shaped H W (replicate (Z.to_nat H) (replicate (Z.to_nat W) v)) = true.
Proof.
  intros HH HW. apply shaped_spec. split.
  - rewrite length_replicate. lia.
  - intros i row Hrow. apply lookup_replicate in Hrow as [-> _].
    rewrite length_replicate. lia.
Qed.

Section BurningShipObject.

Import BurningShipCPU.

Variables (width height max_iterations : Z).
Variables (center_x center_y zoom : float).

Let count (y x : Z) : Z :=
  computeBurningShip max_iterations
    (sample center_x zoom width x) (sample center_y zoom height y).

Lemma burning_ship_render_data (data : list (list Z)) :
  Grid.shaped height width data = true ->
  render (mkRenderer width height max_iterations data) center_x center_y zoom
  = mkRenderer width height max_iterations
      ((fun y => (fun x => count y x) <$> seqZ 0 width) <$> seqZ 0 height).
Proof.
  intros Hshape. unfold render. cbn [width_ height_ max_iterations_
                                      fractal_data_].
  f_equal. apply (fill_table (fun y x => count y x)). exact Hshape.
Qed.

Lemma burning_ship_saveAsPPM_table :
  saveAsPPM
    (mkRenderer width height max_iterations
       ((fun y => (fun x => count y x) <$> seqZ 0 width) <$> seqZ 0 height))
  = flat_map
      (fun y =>
         map (fun x => iterationsToRGB max_iterations (count y x))
           (seqZ 0 width))
      (seqZ 0 height).
Proof.
  unfold saveAsPPM. cbn [width_ height_ max_iterations_ fractal_data_].
  apply flat_map_ext_in. intros y Hy.
  apply list_elem_of_In, elem_of_seqZ in Hy.
  apply map_ext_in. intros x Hx.
  apply list_elem_of_In, elem_of_seqZ in Hx.
  rewrite (table_get_cell (fun y x => count y x)) by lia. reflexivity.
Qed.

End BurningShipObject.

(** An object that was constructed and then rendered any number of times
    keeps its sizes and the shape of its table. *)
Lemma burning_ship_history (width height max_iterations : Z)
  (history : list (float * float * float)) :
  0 <= width -> 0 <= height ->
  exists data : list (list Z),
    foldl (fun self '(x, y, zoom) => BurningShipCPU.render self x y zoom)
      (BurningShipCPU.new width height max_iterations) history
    = BurningShipCPU.mkRenderer width height max_iterations data
    /\ Grid.shaped height width data = true.
Proof.
  intros HW HH.
  apply (foldl_invariant _
           (fun self => exists data,
              self = BurningShipCPU.mkRenderer width height max_iterations data
              /\ Grid.shaped height width data = true)).
  - intros acc [[x y] zoom] _ (data & -> & Hshape).
    rewrite burning_ship_render_data by exact Hshape.
    eexists. split; [reflexivity|]. apply table_shaped; assumption.
  - eexists. split; [reflexivity|]. apply replicate_shaped; assumption.
Qed.

(** X17.  [BurningShipCPU::renderToFile] on an object constructed with
    sizes >= 0 and then rendered any number of times before: the call leaves
    the sizes as they were, makes [fractal_data_] the table of
    [computeBurningShip] at the samples of the requested view, and writes,
    row by row, the [iterationsToRGB] colour of each entry.  Nothing of an
    earlier render survives. *)
Theorem burning_ship_renderToFile (width height max_iterations : Z)
  (history : list (float * float * float)) (center_x center_y zoom : float) :
  0 <= width -> 0 <= height ->
  let self :=
    foldl (fun self '(x, y, zoom) => BurningShipCPU.render self x y zoom)
      (BurningShipCPU.new width height max_iterations) history in
  let count y x :=
    BurningShipCPU.computeBurningShip max_iterations
      (BurningShipCPU.sample center_x zoom width x)
      (BurningShipCPU.sample center_y zoom height y) in
  BurningShipCPU.renderToFile self center_x center_y zoom
  = (BurningShipCPU.mkRenderer width height max_iterations
       ((fun y => (fun x => count y x) <$> seqZ 0 width) <$> seqZ 0 height),
     flat_map
       (fun y =>
          map (fun x =>
                 BurningShipCPU.iterationsToRGB max_iterations (count y x))
            (seqZ 0 width))
       (seqZ 0 height)).
Proof.
  intros HW HH self count.
  destruct (burning_ship_history width height max_iterations history HW HH)
    as (data & Hself & Hshape).
  unfold BurningShipCPU.renderToFile. subst self. rewrite Hself.
  rewrite burning_ship_render_data by exact Hshape.
  rewrite burning_ship_saveAsPPM_table. reflexivity.
Qed.

Lemma burning_ship_renderToFile_witness :
  BurningShipCPU.renderToFile
    (BurningShipCPU.render (BurningShipCPU.new 2 2 20) (-0.5) (-0.5) 1)
    (-1.75) (-0.03) 100
  = (BurningShipCPU.mkRenderer 2 2 20 [[20; 20]; [20; 19]],
     [(0, 0, 0); (0, 0, 0); (0, 0, 0); (255, 255, 165)]).
Proof.
  pose proof (burning_ship_renderToFile 2 2 20 [(-0.5, -0.5, 1)%float]
                (-1.75) (-0.03) 100 ltac:(lia) ltac:(lia)) as H.
  vm_compute in H. vm_compute. exact H.
Defined.

Section NewtonObject.

Import NewtonFractalCPU.

Variable cdiv : Cx.complex -> Cx.complex -> Cx.complex.
Variables (width height max_iterations : Z).
Variables (center_x center_y zoom : float).

Let pixel (y x : Z) : Z * Z :=
  render_pixel cdiv max_iterations
    (sample center_x zoom width x) (sample center_y zoom height y).

Lemma newton_render_data (data : list (list (Z * Z))) :
  Grid.shaped height width data = true ->
  render cdiv (mkRenderer width height max_iterations data)
    center_x center_y zoom
  = mkRenderer width height max_iterations
      ((fun y => (fun x => pixel y x) <$> seqZ 0 width) <$> seqZ 0 height).
Proof.
  intros Hshape. unfold render. cbn [width_ height_ max_iterations_
                                      fractal_data_].
  f_equal. apply (fill_table (fun y x => pixel y x)). exact Hshape.
Qed.

Lemma newton_saveAsPPM_table :
  saveAsPPM
    (mkRenderer width height max_iterations
       ((fun y => (fun x => pixel y x) <$> seqZ 0 width) <$> seqZ 0 height))
  = flat_map
      (fun y =>
         map (fun x =>
                rootToRGB max_iterations (fst (pixel y x)) (snd (pixel y x)))
           (seqZ 0 width))
      (seqZ 0 height).
Proof.
  unfold saveAsPPM. cbn [width_ height_ max_iterations_ fractal_data_].
  apply flat_map_ext_in. intros y Hy.
  apply list_elem_of_In, elem_of_seqZ in Hy.
  apply map_ext_in. intros x Hx.
  apply list_elem_of_In, elem_of_seqZ in Hx.
  rewrite (table_get_cell (fun y x => pixel y x)) by lia.
  destruct (pixel y x) as [root iterations]. reflexivity.
Qed.

End NewtonObject.

Lemma newton_history (cdiv : Cx.complex -> Cx.complex -> Cx.complex)
  (width height max_iterations : Z)
  (history : list (float * float * float)) :
  0 <= width -> 0 <= height ->
  exists data : list (list (Z * Z)),
    foldl (fun self '(x, y, zoom) => NewtonFractalCPU.render cdiv self x y zoom)
      (NewtonFractalCPU.new width height max_iterations) history
    = NewtonFractalCPU.mkRenderer width height max_iterations data
    /\ Grid.shaped height width data = true.
Proof.
  intros HW HH.
  apply (foldl_invariant _
           (fun self => exists data,
              self = NewtonFractalCPU.mkRenderer width height max_iterations
                       data
              /\ Grid.shaped height width data = true)).
  - intros acc [[x y] zoom] _ (data & -> & Hshape).
    rewrite newton_render_data by exact Hshape.
    eexists. split; [reflexivity|]. apply table_shaped; assumption.
  - eexists. split; [reflexivity|]. apply replicate_shaped; assumption.
Qed.

(** X18.  [NewtonFractalCPU::renderToFile], for any complex division, on
    an object constructed with sizes >= 0 and then rendered any number of
    times before: [fractal_data_] becomes the table of the pairs
    (root, iterations) of the pixel loop at the samples of the requested
    view, and the file holds, row by row, the [rootToRGB] colour of each
    pair. *)
Theorem newton_renderToFile
  (cdiv : Cx.complex -> Cx.complex -> Cx.complex)
  (width height max_iterations : Z)
  (history : list (float * float * float)) (center_x center_y zoom : float) :
  0 <= width -> 0 <= height ->
  let self :=
    foldl (fun self '(x, y, zoom) => NewtonFractalCPU.render cdiv self x y zoom)
      (NewtonFractalCPU.new width height max_iterations) history in
  let pixel y x :=
    NewtonFractalCPU.render_pixel cdiv max_iterations
      (NewtonFractalCPU.sample center_x zoom width x)
      (NewtonFractalCPU.sample center_y zoom height y) in
  NewtonFractalCPU.renderToFile cdiv self center_x center_y zoom
  = (NewtonFractalCPU.mkRenderer width height max_iterations
       ((fun y => (fun x => pixel y x) <$> seqZ 0 width) <$> seqZ 0 height),
     flat_map
       (fun y =>
          map (fun x =>
                 NewtonFractalCPU.rootToRGB max_iterations
                   (fst (pixel y x)) (snd (pixel y x)))
            (seqZ 0 width))
       (seqZ 0 height)).
Proof.
  intros HW HH self pixel.
  destruct (newton_history cdiv width height max_iterations history HW HH)
    as (data & Hself & Hshape).
  unfold NewtonFractalCPU.renderToFile. subst self. rewrite Hself.
  rewrite newton_render_data by exact Hshape.
  rewrite newton_saveAsPPM_table. reflexivity.
Qed.

Lemma newton_renderToFile_witness :
  NewtonFractalCPU.renderToFile Cx.div
    (NewtonFractalCPU.render Cx.div (NewtonFractalCPU.new 2 2 30) 0 0 1)
    0.5 0.5 2
  = (NewtonFractalCPU.mkRenderer 2 2 30
       [[(3, 5); (1, 5)]; [(2, 5); (1, 8)]],
     [(41, 41, 212); (212, 41, 41); (41, 212, 41); (187, 36, 36)]).
Proof.
  pose proof (newton_renderToFile Cx.div 2 2 30 [(0, 0, 1)%float]
                0.5 0.5 2 ltac:(lia) ltac:(lia)) as H.
  vm_compute in H. vm_compute. exact H.
Defined.

(** ** The WebAssembly entry points *)

Section WasmBatch.

Variable cdiv : Cx.complex -> Cx.complex -> Cx.complex.
Variables (fractalType : Z) (realValues imagValues : list float).
Variables (cReal cImag : float) (maxIter : Z).

Let kernel (real imag : float) : Z :=
  match fractalType with
  | 0 => Wasm.mandelbrotIterations real imag maxIter
  | 1 => Wasm.juliaIterations real imag cReal cImag maxIter
  | 2 => Wasm.burningShipIterations real imag maxIter
  | 3 => Wasm.newtonIterations cdiv real imag maxIter
  | _ => 0
  end.

Let body (results : list Z) (i : Z) : list Z :=
  <[Z.to_nat i :=
      kernel (default 0%float (realValues !! Z.to_nat i))
        (default 0%float (imagValues !! Z.to_nat i))]> results.

Lemma batch_fold (count : Z) (results : list Z) :
  Wasm.computeFractalBatch cdiv fractalType realValues imagValues cReal cImag
    count maxIter results
  = foldl body results (seqZ 0 count).
Proof. reflexivity. Qed.

Lemma batch_length (count : Z) (results : list Z) :
  length (foldl body results (seqZ 0 count)) = length results.
Proof.
  apply (foldl_preserves body (fun acc => length acc = length results));
    [|reflexivity].
  intros acc i Hacc. unfold body. rewrite length_insert. exact Hacc.
Qed.

Lemma batch_lookup_written (count : Z) (results : list Z) (i : Z) :
  0 <= i < count -> i < Z.of_nat (length results) ->
  foldl body results (seqZ 0 count) !! Z.to_nat i
  = Some (kernel (default 0%float (realValues !! Z.to_nat i))
            (default 0%float (imagValues !! Z.to_nat i))).
Proof.
  intros Hi Hlen.
  apply (foldl_lookup_written body
           (fun acc => length acc = length results) _ _ i).
  - apply NoDup_seqZ.
  - apply elem_of_seqZ. lia.
  - intros acc k Hacc. unfold body. rewrite length_insert. exact Hacc.
  - intros acc Hacc. unfold body. apply list_lookup_insert_eq. lia.
  - intros acc k Hin Hne. apply elem_of_seqZ in Hin. unfold body.
    apply list_lookup_insert_ne. lia.
  - reflexivity.
Qed.

Lemma batch_lookup_untouched (count : Z) (results : list Z) (j : nat) :
  count <= Z.of_nat j ->
  foldl body results (seqZ 0 count) !! j = results !! j.
Proof.
  intros Hj. apply foldl_lookup_untouched.
  intros acc k Hin. apply elem_of_seqZ in Hin. unfold body.
  apply list_lookup_insert_ne. lia.
Qed.

End WasmBatch.

(** X19.  [computeFractalBatch] with count <= the length of [results]:
    entry i < count of the result is the step count of the selected kernel
    at (realValues[i], imagValues[i]), and 0 for a fractal type outside
    0 .. 3; the entries from count on and the length of the array are left
    as they were. *)
Theorem computeFractalBatch_results
  (cdiv : Cx.complex -> Cx.complex -> Cx.complex) (fractalType : Z)
  (realValues imagValues : list float) (cReal cImag : float)
  (count maxIter : Z) (results : list Z) :
  count <= Z.of_nat (length results) ->
  let out :=
    Wasm.computeFractalBatch cdiv fractalType realValues imagValues
      cReal cImag count maxIter results in
  length out = length results
  /\ (forall (i : nat) (real imag : float),
        Z.of_nat i < count ->
        realValues !! i = Some real -> imagValues !! i = Some imag ->
        out !! i
        = Some match fractalType with
               | 0 => Wasm.mandelbrotIterations real imag maxIter
               | 1 => Wasm.juliaIterations real imag cReal cImag maxIter
               | 2 => Wasm.burningShipIterations real imag maxIter
               | 3 => Wasm.newtonIterations cdiv real imag maxIter
               | _ => 0
               end)
  /\ (forall j : nat, count <= Z.of_nat j -> out !! j = results !! j).
Proof.
  intros Hcount out. subst out. rewrite batch_fold. split; [|split].
  - apply batch_length.
  - intros i real imag Hi Hreal Himag.
    pose proof (batch_lookup_written cdiv fractalType realValues imagValues
                  cReal cImag maxIter count results (Z.of_nat i)
                  ltac:(lia) ltac:(lia)) as Hw.
    rewrite Nat2Z.id in Hw. rewrite Hw, Hreal, Himag. reflexivity.
  - intros j Hj. apply batch_lookup_untouched. exact Hj.
Qed.

Lemma computeFractalBatch_results_witness :
  length
    (Wasm.computeFractalBatch Cx.div 0 [0; 3; 1]%float [0; 0; 1]%float 0 0 2
       50 [7; 7; 7])
  = length [7; 7; 7]
  /\ Wasm.computeFractalBatch Cx.div 0 [0; 3; 1]%float [0; 0; 1]%float 0 0 2
       50 [7; 7; 7] !! 1%nat
     = Some (Wasm.mandelbrotIterations 3 0 50)
  /\ Wasm.computeFractalBatch Cx.div 0 [0; 3; 1]%float [0; 0; 1]%float 0 0 2
       50 [7; 7; 7] !! 2%nat
     = Some 7.
Proof.
  destruct (computeFractalBatch_results Cx.div 0 [0; 3; 1]%float
              [0; 0; 1]%float 0 0 2 50 [7; 7; 7])
    as (Hlen & Hin & Hout); [cbn; lia|].
  split; [exact Hlen|]. split.
  - apply (Hin 1%nat 3%float 0%float); [lia|reflexivity|reflexivity].
  - apply (Hout 2%nat). lia.
Defined.

Section WasmImage.

Variables (W : Z) (color : Z -> Z -> Wasm.Color).

Let body (y : Z) (data : list Z) (x : Z) : list Z :=
  Wasm.store W y data x (color y x).

Lemma wasm_store_length (y x : Z) (c : Wasm.Color) (data : list Z) :
  length (Wasm.store W y data x c) = length data.
Proof. unfold Wasm.store. cbv zeta. rewrite !length_insert. reflexivity. Qed.

Lemma wasm_store_lookup_other (y x : Z) (c : Wasm.Color) (data : list Z)
  (j : nat) :
  0 <= x < W -> 0 <= y ->
  (Z.of_nat j < (y * W + x) * 4 \/ (y * W + x) * 4 + 4 <= Z.of_nat j) ->
  Wasm.store W y data x c !! j = data !! j.
Proof.
  intros Hx Hy Hj.
  pose proof (pixel_index_nonneg W x y Hx Hy) as Ha.
  unfold Wasm.store. cbv zeta.
  rewrite !list_lookup_insert_ne by lia. reflexivity.
Qed.

Lemma wasm_store_lookup_self (y x : Z) (c : Wasm.Color) (data : list Z) :
  0 <= x < W -> 0 <= y ->
  (y * W + x) * 4 + 3 < Z.of_nat (length data) ->
  Wasm.store W y data x c !! Z.to_nat ((y * W + x) * 4) = Some (Wasm.r c)
  /\ Wasm.store W y data x c !! Z.to_nat ((y * W + x) * 4 + 1)
     = Some (Wasm.g c)
  /\ Wasm.store W y data x c !! Z.to_nat ((y * W + x) * 4 + 2)
     = Some (Wasm.b c)
  /\ Wasm.store W y data x c !! Z.to_nat ((y * W + x) * 4 + 3)
     = Some (Wasm.a c).
Proof.
  intros Hx Hy Hlen.
  pose proof (pixel_index_nonneg W x y Hx Hy) as Ha.
  unfold Wasm.store. cbv zeta. repeat split.
  - rewrite !list_lookup_insert_ne by lia.
    apply list_lookup_insert_eq. lia.
  - rewrite !list_lookup_insert_ne by lia.
    apply list_lookup_insert_eq. rewrite !length_insert. lia.
  - rewrite !list_lookup_insert_ne by lia.
    apply list_lookup_insert_eq. rewrite !length_insert. lia.
  - apply list_lookup_insert_eq. rewrite !length_insert. lia.
Qed.

Lemma wasm_image_length (H : Z) (data : list Z) :
  length (foldl (fun data y => foldl (body y) data (seqZ 0 W)) data
            (seqZ 0 H))
  = length data.
Proof.
  apply (foldl_preserves _ (fun acc => length acc = length data));
    [|reflexivity].
  intros acc y Hacc.
  apply (foldl_preserves _ (fun acc => length acc = length data));
    [|exact Hacc].
  intros acc' x Hacc'. unfold body. rewrite wasm_store_length. exact Hacc'.
Qed.

Lemma wasm_image_lookup_beyond (H : Z) (data : list Z) (j : nat) :
  W * H * 4 <= Z.of_nat j ->
  foldl (fun data y => foldl (body y) data (seqZ 0 W)) data (seqZ 0 H) !! j
  = data !! j.
Proof.
  intros Hj. apply foldl_lookup_untouched. intros acc y Hy.
  apply elem_of_seqZ in Hy.
  apply foldl_lookup_untouched. intros acc' x Hx.
  apply elem_of_seqZ in Hx. unfold body.
  apply wasm_store_lookup_other; [lia|lia|]. right. nia.
Qed.

Lemma wasm_image_lookup_written (H : Z) (data : list Z) (x y : Z) (j : nat)
  (v : Z) :
  0 <= x < W -> 0 <= y < H ->
  (y * W + x) * 4 <= Z.of_nat j < (y * W + x) * 4 + 4 ->
  (forall acc, length acc = length data ->
     Wasm.store W y acc x (color y x) !! j = Some v) ->
  foldl (fun data y => foldl (body y) data (seqZ 0 W)) data (seqZ 0 H) !! j
  = Some v.
Proof.
  intros Hx Hy Hj Hhit.
  pose proof (pixel_index_nonneg W x y Hx (proj1 Hy)) as Ha.
  apply (foldl_lookup_written
           (fun data y => foldl (body y) data (seqZ 0 W))
           (fun acc => length acc = length data) _ _ y).
  - apply NoDup_seqZ.
  - apply elem_of_seqZ. lia.
  - intros acc y' Hacc.
    apply (foldl_preserves _ (fun acc => length acc = length data));
      [|exact Hacc].
    intros acc' x' Hacc'. unfold body. rewrite wasm_store_length. exact Hacc'.
  - intros acc Hacc.
    apply (foldl_lookup_written (body y)
             (fun acc => length acc = length data) _ _ x).
    + apply NoDup_seqZ.
    + apply elem_of_seqZ. lia.
    + intros acc' x' Hacc'. unfold body. rewrite wasm_store_length. exact Hacc'.
    + intros acc' Hacc'. unfold body. apply Hhit. exact Hacc'.
    + intros acc' x' Hin Hne. apply elem_of_seqZ in Hin. unfold body.
      apply wasm_store_lookup_other; [lia|lia|]. lia.
    + exact Hacc.
  - intros acc y' Hin Hne. apply elem_of_seqZ in Hin.
    apply foldl_lookup_untouched. intros acc' x' Hin'.
    apply elem_of_seqZ in Hin'. unfold body.
    apply wasm_store_lookup_other; [lia|lia|].
    assert (Hidx : y' * W + x' <> y * W + x).
    { intros Heq. apply pixel_index_inj in Heq; lia. }
    lia.
  - reflexivity.
Qed.

End WasmImage.

Lemma shade_alpha (cdiv : Cx.complex -> Cx.complex -> Cx.complex)
  (fractalType : Z) (real imag cReal cImag : float) (maxIter : Z) :
  Wasm.a (Wasm.shade cdiv fractalType real imag cReal cImag maxIter) = 255.
Proof.
  unfold Wasm.shade, Wasm.hsvToRgb. cbv zeta.
  repeat match goal with
         | |- context [if ?c then _ else _] => destruct c
         end; reflexivity.
Qed.

Lemma wasm_image_pixels
  (cdiv : Cx.complex -> Cx.complex -> Cx.complex)
  (fractalType width height : Z)
  (centerX centerY zoom cReal cImag : float) (maxIter : Z)
  (buffer : list Z) :
  0 < width -> 0 < height -> 0 < maxIter ->
  width * height * 4 <= Z.of_nat (length buffer) ->
  let zoom' := if (zoom <=? 0)%float then 1.0%float else zoom in
  let maxIter' := if 10000 <? maxIter then 1000 else maxIter in
  let color y x :=
    Wasm.shade cdiv fractalType
      (centerX - 4.0 / zoom' / 2.0
       + Num.of_int x * (4.0 / zoom' / Num.of_int width))%float
      (centerY - 4.0 / zoom' / 2.0
       + Num.of_int y * (4.0 / zoom' / Num.of_int height))%float
      cReal cImag maxIter' in
  exists out : list Z,
    Wasm.renderFractalImage cdiv fractalType width height centerX centerY
      zoom cReal cImag maxIter (Some buffer) = Some out
    /\ length out = length buffer
    /\ (forall x y : Z, 0 <= x < width -> 0 <= y < height ->
          out !! Z.to_nat ((y * width + x) * 4) = Some (Wasm.r (color y x))
          /\ out !! Z.to_nat ((y * width + x) * 4 + 1)
             = Some (Wasm.g (color y x))
          /\ out !! Z.to_nat ((y * width + x) * 4 + 2)
             = Some (Wasm.b (color y x))
          /\ out !! Z.to_nat ((y * width + x) * 4 + 3) = Some 255)
    /\ (forall j : nat, width * height * 4 <= Z.of_nat j ->
          out !! j = buffer !! j).
Proof.
  intros HW HH Hmax Hlen zoom' maxIter' color.
  unfold Wasm.renderFractalImage.
  replace ((width <=? 0) || (height <=? 0) || (maxIter <=? 0)) with false.
  2:{ symmetry. rewrite !orb_false_iff, !Z.leb_gt. lia. }
  cbv zeta. fold zoom' maxIter'.
  eexists. split; [reflexivity|].
  split; [apply (wasm_image_length width (fun y x => color y x))|].
  split.
  - intros x y Hx Hy.
    pose proof (pixel_index_nonneg width x y Hx (proj1 Hy)) as Ha.
    assert (Hst : forall acc : list Z, length acc = length buffer ->
              (y * width + x) * 4 + 3 < Z.of_nat (length acc))
      by (intros acc ->; nia).
    repeat split.
    + apply (wasm_image_lookup_written width (fun y x => color y x) height
               buffer x y);
        [exact Hx|exact Hy|lia|].
      intros acc Hacc. apply wasm_store_lookup_self; [lia|lia|apply Hst, Hacc].
    + apply (wasm_image_lookup_written width (fun y x => color y x) height
               buffer x y);
        [exact Hx|exact Hy|lia|].
      intros acc Hacc. apply wasm_store_lookup_self; [lia|lia|apply Hst, Hacc].
    + apply (wasm_image_lookup_written width (fun y x => color y x) height
               buffer x y);
        [exact Hx|exact Hy|lia|].
      intros acc Hacc. apply wasm_store_lookup_self; [lia|lia|apply Hst, Hacc].
    + apply (wasm_image_lookup_written width (fun y x => color y x) height
               buffer x y);
        [exact Hx|exact Hy|lia|].
      intros acc Hacc.
      rewrite <- (shade_alpha cdiv fractalType
                    (centerX - 4.0 / zoom' / 2.0
                     + Num.of_int x * (4.0 / zoom' / Num.of_int width))%float
                    (centerY - 4.0 / zoom' / 2.0
                     + Num.of_int y * (4.0 / zoom' / Num.of_int height))%float
                    cReal cImag maxIter').
      apply wasm_store_lookup_self; [lia|lia|apply Hst, Hacc].
  - intros j Hj.
    apply (wasm_image_lookup_beyond width (fun y x => color y x)). exact Hj.
Qed.

(** X20.  [renderFractalImage] on a request that passes its guard (width,
    height, maxIter > 0) and a buffer of at least width * height * 4 bytes:
    the four bytes of pixel (x, y) at (y * width + x) * 4 are the red, green
    and blue of the colour of the sample
    (centerX - scale / 2 + x * (scale / width),
     centerY - scale / 2 + y * (scale / height)), scale = 4 / zoom, and an
    alpha of 255, where a zoom <= 0 counts as 1.0 and a maxIter above 10000
    as 1000; the buffer keeps its length, and every byte from
    width * height * 4 on is left as it was. *)
Theorem renderFractalImage_pixels
  (cdiv : Cx.complex -> Cx.complex -> Cx.complex)
  (fractalType width height : Z)
  (centerX centerY zoom cReal cImag : float) (maxIter : Z)
  (buffer : list Z) :
  0 < width -> 0 < height -> 0 < maxIter ->
  width * height * 4 <= Z.of_nat (length buffer) ->
  let zoom' := if (zoom <=? 0)%float then 1.0%float else zoom in
  let maxIter' := if 10000 <? maxIter then 1000 else maxIter in
  let color y x :=
    Wasm.shade cdiv fractalType
      (centerX - 4.0 / zoom' / 2.0
       + Num.of_int x * (4.0 / zoom' / Num.of_int width))%float
      (centerY - 4.0 / zoom' / 2.0
       + Num.of_int y * (4.0 / zoom' / Num.of_int height))%float
      cReal cImag maxIter' in
  exists out : list Z,
    Wasm.renderFractalImage cdiv fractalType width height centerX centerY
      zoom cReal cImag maxIter (Some buffer) = Some out
    /\ length out = length buffer
    /\ (forall x y : Z, 0 <= x < width -> 0 <= y < height ->
          out !! Z.to_nat ((y * width + x) * 4) = Some (Wasm.r (color y x))
          /\ out !! Z.to_nat ((y * width + x) * 4 + 1)
             = Some (Wasm.g (color y x))
          /\ out !! Z.to_nat ((y * width + x) * 4 + 2)
             = Some (Wasm.b (color y x))
          /\ out !! Z.to_nat ((y * width + x) * 4 + 3) = Some 255)
    /\ (forall j : nat, width * height * 4 <= Z.of_nat j ->
          out !! j = buffer !! j).
Proof. apply wasm_image_pixels. Qed.

Lemma renderFractalImage_pixels_witness :
  exists out : list Z,
    Wasm.renderFractalImage Cx.div 0 1 1 0 0 (-1) 0 0 20000
      (Some [9; 9; 9; 9; 8]) = Some out
    /\ length out = length [9; 9; 9; 9; 8]
    /\ (forall x y : Z, 0 <= x < 1 -> 0 <= y < 1 ->
          out !! Z.to_nat ((y * 1 + x) * 4)
          = Some (Wasm.r (Wasm.shade Cx.div 0
                            (0 - 4.0 / 1.0 / 2.0
                             + Num.of_int x * (4.0 / 1.0 / Num.of_int 1))%float
                            (0 - 4.0 / 1.0 / 2.0
                             + Num.of_int y * (4.0 / 1.0 / Num.of_int 1))%float
                            0 0 1000))
          /\ out !! Z.to_nat ((y * 1 + x) * 4 + 1)
             = Some (Wasm.g (Wasm.shade Cx.div 0
                               (0 - 4.0 / 1.0 / 2.0
                                + Num.of_int x
                                  * (4.0 / 1.0 / Num.of_int 1))%float
                               (0 - 4.0 / 1.0 / 2.0
                                + Num.of_int y
                                  * (4.0 / 1.0 / Num.of_int 1))%float
                               0 0 1000))
          /\ out !! Z.to_nat ((y * 1 + x) * 4 + 2)
             = Some (Wasm.b (Wasm.shade Cx.div 0
                               (0 - 4.0 / 1.0 / 2.0
                                + Num.of_int x
                                  * (4.0 / 1.0 / Num.of_int 1))%float
                               (0 - 4.0 / 1.0 / 2.0
                                + Num.of_int y
                                  * (4.0 / 1.0 / Num.of_int 1))%float
                               0 0 1000))
          /\ out !! Z.to_nat ((y * 1 + x) * 4 + 3) = Some 255)
    /\ (forall j : nat, 1 * 1 * 4 <= Z.of_nat j ->
          out !! j = [9; 9; 9; 9; 8] !! j).
Proof.
  apply (renderFractalImage_pixels Cx.div 0 1 1 0 0 (-1) 0 0 20000
           [9; 9; 9; 9; 8]); cbn; lia.
Defined.

Lemma wasm_zero_count_checked :
  forallb
    (fun maxIter =>
       let t := (Num.of_int 0 / Num.of_int maxIter)%float in
       match Wasm.hsvToRgb (240.0 * (1.0 - t))%float 1.0 t with
       | Wasm.mkColor r g b a => (r =? 0) && (g =? 0) && (b =? 0) && (a =? 255)
       end)
    (seqZ 1 10000) = true.
Proof. vm_compute. reflexivity. Qed.

Lemma wasm_julia_immediate (real imag cReal cImag : float) (maxIter : Z) :
  0 < maxIter -> (2 <? Cx.abs (Cx.mk real imag))%float = true ->
  Wasm.juliaIterations real imag cReal cImag maxIter = 0.
Proof.
  intros Hmax Habs. unfold Wasm.juliaIterations.
  replace (Z.to_nat maxIter) with (S (Z.to_nat (maxIter - 1))) by lia.
  cbn [Wasm.mandelbrot_loop].
  replace (0 <? maxIter) with true by (symmetry; apply Z.ltb_lt; lia).
  rewrite Habs. reflexivity.
Qed.

Lemma wasm_julia_outside_shade
  (cdiv : Cx.complex -> Cx.complex -> Cx.complex)
  (real imag cReal cImag : float) (maxIter : Z) :
  1 <= maxIter <= 10000 -> (2 <? Cx.abs (Cx.mk real imag))%float = true ->
  Wasm.shade cdiv 1 real imag cReal cImag maxIter = Wasm.mkColor 0 0 0 255.
Proof.
  intros Hmax Habs. unfold Wasm.shade. cbv zeta. cbv iota.
  rewrite wasm_julia_immediate by (lia || exact Habs).
  change (1 =? 3) with false. change (1 =? 2) with false. cbv iota.
  replace (0 =? maxIter) with false by (symmetry; apply Z.eqb_neq; lia).
  pose proof wasm_zero_count_checked as Hall.
  rewrite forallb_forall in Hall. specialize (Hall maxIter).
  cbv zeta in Hall.
  destruct (Wasm.hsvToRgb _ _ _) as [r g b a].
  rewrite !andb_true_iff, !Z.eqb_eq in Hall.
  destruct Hall as [[[-> ->] ->] ->]; [|reflexivity].
  apply list_elem_of_In, elem_of_seqZ. lia.
Qed.

(** X21.  In a [renderFractalImage] Julia image (fractal type 1, request
    as in X20), a pixel whose sample lies outside the circle of radius 2 is
    painted opaque black, the colour of the samples that never escape: its
    step count is 0, and the palette gives brightness 0 / maxIter = 0. *)
Theorem wasm_julia_outside_is_black
  (cdiv : Cx.complex -> Cx.complex -> Cx.complex) (width height : Z)
  (centerX centerY zoom cReal cImag : float) (maxIter : Z)
  (buffer : list Z) (x y : Z) :
  0 < width -> 0 < height -> 0 < maxIter ->
  width * height * 4 <= Z.of_nat (length buffer) ->
  0 <= x < width -> 0 <= y < height ->
  let zoom' := if (zoom <=? 0)%float then 1.0%float else zoom in
  let real :=
    (centerX - 4.0 / zoom' / 2.0
     + Num.of_int x * (4.0 / zoom' / Num.of_int width))%float in
  let imag :=
    (centerY - 4.0 / zoom' / 2.0
     + Num.of_int y * (4.0 / zoom' / Num.of_int height))%float in
  (2 <? Cx.abs (Cx.mk real imag))%float = true ->
  exists out : list Z,
    Wasm.renderFractalImage cdiv 1 width height centerX centerY zoom
      cReal cImag maxIter (Some buffer) = Some out
    /\ out !! Z.to_nat ((y * width + x) * 4) = Some 0
    /\ out !! Z.to_nat ((y * width + x) * 4 + 1) = Some 0
    /\ out !! Z.to_nat ((y * width + x) * 4 + 2) = Some 0
    /\ out !! Z.to_nat ((y * width + x) * 4 + 3) = Some 255.
Proof.
  intros HW HH Hmax Hlen Hx Hy zoom' real imag Habs.
  destruct (wasm_image_pixels cdiv 1 width height centerX centerY zoom
              cReal cImag maxIter buffer HW HH Hmax Hlen)
    as (out & Hout & _ & Hpix & _).
  exists out. split; [exact Hout|].
  specialize (Hpix x y Hx Hy). cbv zeta in Hpix. fold zoom' in Hpix.
  fold real imag in Hpix.
  rewrite wasm_julia_outside_shade in Hpix; [exact Hpix| |exact Habs].
  destruct (Z.ltb_spec 10000 maxIter); lia.
Qed.

Lemma wasm_julia_outside_is_black_witness :
  exists out : list Z,
    Wasm.renderFractalImage Cx.div 1 2 2 0 0 1 (-0.8) 0.156 100
      (Some (replicate 16 9)) = Some out
    /\ out !! Z.to_nat ((0 * 2 + 0) * 4) = Some 0
    /\ out !! Z.to_nat ((0 * 2 + 0) * 4 + 1) = Some 0
    /\ out !! Z.to_nat ((0 * 2 + 0) * 4 + 2) = Some 0
    /\ out !! Z.to_nat ((0 * 2 + 0) * 4 + 3) = Some 255.
Proof.
  apply (wasm_julia_outside_is_black Cx.div 2 2 0 0 1 (-0.8) 0.156 100
           (replicate 16 9) 0 0); first [cbn; lia|reflexivity].
Defined.

Lemma wasm_mandelbrot_loop_bounds (c : Cx.complex) (maxIter : Z) (fuel : nat) :
  forall (z : Cx.complex) (i : Z),
    0 <= i <= maxIter ->
    i <= Wasm.mandelbrot_loop fuel c z i maxIter <= maxIter.
Proof.
  induction fuel as [|fuel IH]; intros z i Hi; cbn [Wasm.mandelbrot_loop];
    [lia|].
  destruct (Z.ltb_spec i maxIter); [|lia].
  destruct (2 <? Cx.abs z)%float; [lia|].
  specialize (IH (Cx.add (Cx.mul z z) c) (i + 1) ltac:(lia)). lia.
Qed.

Lemma wasm_ship_loop_bounds (c : Cx.complex) (maxIter : Z) (fuel : nat) :
  forall (z : Cx.complex) (i : Z),
    0 <= i <= maxIter ->
    i <= Wasm.ship_loop fuel c z i maxIter <= maxIter.
Proof.
  induction fuel as [|fuel IH]; intros z i Hi; cbn [Wasm.ship_loop]; [lia|].
  destruct (Z.ltb_spec i maxIter); [|lia].
  destruct (2 <? Cx.abs z)%float; [lia|].
  match goal with
  | |- _ <= Wasm.ship_loop fuel c ?z' _ _ <= _ =>
      specialize (IH z' (i + 1) ltac:(lia))
  end.
  lia.
Qed.

Lemma wasm_newton_loop_bands
  (cdiv : Cx.complex -> Cx.complex -> Cx.complex) (maxIter : Z)
  (fuel : nat) :
  forall (z : Cx.complex) (i : Z),
    0 <= i ->
    Wasm.newton_loop cdiv fuel z i maxIter = 0
    \/ exists root step : Z,
         1 <= root <= 3 /\ i <= step < maxIter
         /\ Wasm.newton_loop cdiv fuel z i maxIter = step + root * 1000.
Proof.
  induction fuel as [|fuel IH]; intros z i Hi; cbn [Wasm.newton_loop];
    [left; reflexivity|].
  cbv zeta.
  destruct (Z.ltb_spec i maxIter); [|left; reflexivity].
  destruct (_ <? _)%float; [left; reflexivity|].
  destruct (_ <? _)%float; [right; exists 1, i; lia|].
  destruct (_ <? _)%float; [right; exists 2, i; lia|].
  destruct (_ <? _)%float; [right; exists 3, i; lia|].
  match goal with
  | |- Wasm.newton_loop cdiv fuel ?z' _ _ = 0 \/ _ =>
      destruct (IH z' (i + 1) ltac:(lia))
        as [E|(root & step & Hroot & Hstep & E)]
  end.
  - left. exact E.
  - right. exists root, step. split; [exact Hroot|]. split; [lia|exact E].
Qed.

(** X22.  The step counts of the WebAssembly kernels, for any sample and
    any cap maxIter >= 0: [mandelbrotIterations], [juliaIterations] and
    [burningShipIterations] return a count in [0, maxIter];
    [newtonIterations] returns 0 (no root) or step + root * 1000 with root
    in {1, 2, 3} and 0 <= step < maxIter. *)
Theorem wasm_counts_bounded
  (cdiv : Cx.complex -> Cx.complex -> Cx.complex)
  (real imag cReal cImag : float) (maxIter : Z) :
  0 <= maxIter ->
  0 <= Wasm.mandelbrotIterations real imag maxIter <= maxIter
  /\ 0 <= Wasm.juliaIterations real imag cReal cImag maxIter <= maxIter
  /\ 0 <= Wasm.burningShipIterations real imag maxIter <= maxIter
  /\ (Wasm.newtonIterations cdiv real imag maxIter = 0
      \/ exists root step : Z,
           1 <= root <= 3 /\ 0 <= step < maxIter
           /\ Wasm.newtonIterations cdiv real imag maxIter
              = step + root * 1000).
Proof.
  intros Hmax. split; [|split; [|split]].
  - apply wasm_mandelbrot_loop_bounds. lia.
  - apply wasm_mandelbrot_loop_bounds. lia.
  - apply wasm_ship_loop_bounds. lia.
  - apply wasm_newton_loop_bands. lia.
Qed.

Lemma wasm_counts_bounded_witness :
  0 <= Wasm.mandelbrotIterations 3 0 1000 <= 1000
  /\ 0 <= Wasm.juliaIterations 3 0 (-0.8) 0.156 1000 <= 1000
  /\ 0 <= Wasm.burningShipIterations 3 0 1000 <= 1000
  /\ (Wasm.newtonIterations Cx.div 3 0 1000 = 0
      \/ exists root step : Z,
           1 <= root <= 3 /\ 0 <= step < 1000
           /\ Wasm.newtonIterations Cx.div 3 0 1000 = step + root * 1000).
Proof. apply (wasm_counts_bounded Cx.div 3 0 (-0.8) 0.156 1000). lia. Defined.

Section FirstStopOrder.

Context {A : Type} (stop stop' : A -> bool) (step : A -> A).
Hypothesis Himp : forall z, stop' z = true -> stop z = true.


End FirstStopOrder.





(** ** Images with a one-pixel axis *)

Lemma float_add_nan_l (t : float) : (nan + t)%float = nan.
Proof.
  apply Prim2SF_inj. rewrite add_spec.
  change (Prim2SF nan) with S754_nan.
  destruct (Prim2SF t); reflexivity.
Qed.

Lemma float_add_nan_r (t : float) : (t + nan)%float = nan.
Proof.
  apply Prim2SF_inj. rewrite add_spec.
  change (Prim2SF nan) with S754_nan.
  destruct (Prim2SF t); reflexivity.
Qed.

Lemma float_sub_nan_l (t : float) : (nan - t)%float = nan.
Proof.
  apply Prim2SF_inj. rewrite sub_spec.
  change (Prim2SF nan) with S754_nan.
  destruct (Prim2SF t); reflexivity.
Qed.

(** The kernels on a sample whose real part is NaN. *)
Lemma mandelbrot_iterations_nan (imag : float) (max_iter : Z) :
  1 <= max_iter -> MandelbrotCPU.mandelbrot_iterations nan imag max_iter = 1.
Proof.
  intros Hmax. unfold MandelbrotCPU.mandelbrot_iterations.
  replace (Z.to_nat max_iter) with (S (Z.to_nat (max_iter - 1))) by lia.
  cbn [MandelbrotCPU.mandelbrot_loop].
  rewrite abs_zero_within_radius.
  replace (0 <? max_iter) with true by (symmetry; apply Z.ltb_lt; lia).
  cbn [andb].
  destruct (Z.to_nat (max_iter - 1)) as [|fuel]; [reflexivity|].
  cbn [MandelbrotCPU.mandelbrot_loop].
  replace (Cx.abs (Cx.add (Cx.mul Cx.zero Cx.zero) (Cx.mk nan imag))
             <=? 2)%float
    with false; [reflexivity|].
  symmetry. change (Cx.mul Cx.zero Cx.zero) with Cx.zero.
  unfold Cx.abs, Cx.add, Cx.zero, Num.hypot. cbn [Cx.re Cx.im].
  change (0 + nan)%float with nan.
  change (Num.isfinite nan) with false. cbn [negb orb].
  change (Num.isinf nan) with false. cbn [orb].
  rewrite float_add_nan_l.
  destruct (Num.isinf (0 + imag)); reflexivity.
Qed.

Lemma omp_loop_nan (imag : float) (max_iter : Z) (fuel : nat) :
  forall (zi : float) (iter : Z),
    fuel = Z.to_nat (max_iter - iter) -> iter <= max_iter ->
    MandelbrotOMP.omp_loop fuel nan imag nan zi iter max_iter = max_iter.
Proof.
  induction fuel as [|fuel IH]; intros zi iter Hfuel Hle;
    cbn [MandelbrotOMP.omp_loop]; [lia|].
  replace (iter <? max_iter) with true by (symmetry; apply Z.ltb_lt; lia).
  cbv zeta. change (nan * nan)%float with nan.
  rewrite float_add_nan_l. change (4 <? nan)%float with false. cbv iota.
  rewrite float_sub_nan_l. change (nan + nan)%float with nan.
  apply IH; lia.
Qed.

Lemma mandelbrot_iterations_omp_nan (imag : float) (max_iter : Z) :
  0 <= max_iter ->
  MandelbrotOMP.mandelbrot_iterations_omp nan imag max_iter = max_iter.
Proof.
  intros Hmax. unfold MandelbrotOMP.mandelbrot_iterations_omp.
  destruct (Z.to_nat max_iter) as [|fuel] eqn:Hfuel;
    cbn [MandelbrotOMP.omp_loop]; [lia|].
  replace (0 <? max_iter) with true by (symmetry; apply Z.ltb_lt; lia).
  cbv zeta. change (4 <? 0 * 0 + 0 * 0)%float with false. cbv iota.
  change (0 * 0 - 0 * 0 + nan)%float with nan.
  apply omp_loop_nan; lia.
Qed.

Lemma computeBurningShip_nan_l (max_iterations : Z) (cy : float) :
  1 <= max_iterations ->
  BurningShipCPU.computeBurningShip max_iterations nan cy = 1.
Proof.
  intros Hmax. unfold BurningShipCPU.computeBurningShip.
  replace (Z.to_nat max_iterations)
    with (S (Z.to_nat (max_iterations - 1))) by lia.
  cbn [BurningShipCPU.ship_loop].
  change (0 * 0 + 0 * 0 <? 4)%float with true.
  replace (0 <? max_iterations) with true by (symmetry; apply Z.ltb_lt; lia).
  cbn [andb]. cbv zeta.
  destruct (Z.to_nat (max_iterations - 1)) as [|fuel]; [reflexivity|].
  cbn [BurningShipCPU.ship_loop].
  change (Num.fabs 0 * Num.fabs 0 - Num.fabs 0 * Num.fabs 0 + nan)%float
    with nan.
  change (nan * nan)%float with nan. rewrite float_add_nan_l.
  change (nan <? 4)%float with false. reflexivity.
Qed.

Lemma computeBurningShip_nan_r (max_iterations : Z) (cx : float) :
  1 <= max_iterations ->
  BurningShipCPU.computeBurningShip max_iterations cx nan = 1.
Proof.
  intros Hmax. unfold BurningShipCPU.computeBurningShip.
  replace (Z.to_nat max_iterations)
    with (S (Z.to_nat (max_iterations - 1))) by lia.
  cbn [BurningShipCPU.ship_loop].
  change (0 * 0 + 0 * 0 <? 4)%float with true.
  replace (0 <? max_iterations) with true by (symmetry; apply Z.ltb_lt; lia).
  cbn [andb]. cbv zeta.
  destruct (Z.to_nat (max_iterations - 1)) as [|fuel]; [reflexivity|].
  cbn [BurningShipCPU.ship_loop].
  change (2 * Num.fabs 0 * Num.fabs 0 + nan)%float with nan.
  change (nan * nan)%float with nan. rewrite float_add_nan_r.
  change (nan <? 4)%float with false. reflexivity.
Qed.

(** The samples of a one-pixel axis. *)
Lemma omp_single_column_nan (params : MandelbrotCPU.RenderParams) :
  MandelbrotCPU.width params = 1 ->
  (MandelbrotCPU.x_min params
   + Num.of_int 0 * MandelbrotOMP.x_scale params)%float = nan.
Proof.
  intros HW. unfold MandelbrotOMP.x_scale. rewrite HW.
  change (Num.of_int 0) with 0%float. change (Num.of_int (1 - 1)) with 0%float.
  apply Prim2SF_inj.
  rewrite add_spec, mul_spec, div_spec.
  change (Prim2SF 0) with (S754_zero false).
  change (Prim2SF nan) with S754_nan.
  destruct (Prim2SF (MandelbrotCPU.x_max params - MandelbrotCPU.x_min params))
    as [s|s| |s m e];
    destruct (Prim2SF (MandelbrotCPU.x_min params)) as [s'|s'| |s' m' e'];
    try reflexivity; destruct s; reflexivity.
Qed.

Lemma burning_ship_sample_single (center zoom : float) :
  BurningShipCPU.sample center zoom 1 0 = nan.
Proof.
  unfold BurningShipCPU.sample. cbv zeta.
  change (Num.of_int 0) with 0%float. change (Num.of_int (1 - 1)) with 0%float.
  apply Prim2SF_inj.
  rewrite add_spec, div_spec, mul_spec.
  change (Prim2SF 0) with (S754_zero false).
  change (Prim2SF nan) with S754_nan.
  destruct (Prim2SF (center + 4 / zoom / 2 - (center - 4 / zoom / 2)))
    as [s|s| |s m e];
    destruct (Prim2SF (center - 4 / zoom / 2)) as [s'|s'| |s' m' e'];
    reflexivity.
Qed.

(** X24.  A one-column Mandelbrot CPU image shows nothing of the set: for
    width = 1, height >= 10 with height * 3 within the [int] range, and
    max_iter >= 1, whatever the bounds, the only column samples re = NaN,
    the kernel returns 1 on every row, and every pixel of the returned
    image is the colour of the count 1. *)
Theorem one_column_image_uniform (params : MandelbrotCPU.RenderParams)
  (start_time end_time : Z) :
  MandelbrotCPU.width params = 1 -> 10 <= MandelbrotCPU.height params ->
  MandelbrotCPU.height params * 3 <= Num.INT_MAX ->
  1 <= MandelbrotCPU.max_iter params ->
  exists (image : list Z) (log : list MandelbrotCPU.event),
    MandelbrotCPU.render_mandelbrot_cpu params start_time end_time
    = MandelbrotCPU.Done (image, log)
    /\ forall py c : Z,
         0 <= py < MandelbrotCPU.height params -> 0 <= c < 3 ->
         image !! Z.to_nat (py * 3 + c)
         = Some (Spec.channel
                   (MandelbrotCPU.iterations_to_color 1
                      (MandelbrotCPU.max_iter params)) c).
Proof.
  intros HW HH Hfit Hmax.
  destruct (render_mandelbrot_cpu_done params start_time end_time)
    as (image & log & Hdone & Himage & Hlen);
    [lia|exact HH|rewrite HW; lia|].
  exists image, log. split; [exact Hdone|].
  intros py c Hpy Hc.
  replace (py * 3 + c) with ((py * MandelbrotCPU.width params + 0) * 3 + c)
    by (rewrite HW; lia).
  rewrite Himage, rows_lookup; [| lia | exact Hpy | exact Hc |].
  - unfold Spec.mandelbrot_pixel_color.
    change (Spec.linear_sample (MandelbrotCPU.x_min params)
              (MandelbrotCPU.x_max params) (MandelbrotCPU.width params) 0)
      with (MandelbrotCPU.sample_real params 0).
    rewrite single_column_always_nan by exact HW.
    rewrite mandelbrot_iterations_nan by exact Hmax. reflexivity.
  - rewrite length_replicate, HW. lia.
Qed.

Lemma one_column_image_uniform_witness :
  exists (image : list Z) (log : list MandelbrotCPU.event),
    MandelbrotCPU.render_mandelbrot_cpu
      (MandelbrotCPU.mkParams 1 10 1000 (-2) 1 (-1.2) 1.2) 0 7
    = MandelbrotCPU.Done (image, log)
    /\ forall py c : Z,
         0 <= py < 10 -> 0 <= c < 3 ->
         image !! Z.to_nat (py * 3 + c)
         = Some (Spec.channel (MandelbrotCPU.iterations_to_color 1 1000) c).
Proof.
  apply (one_column_image_uniform
           (MandelbrotCPU.mkParams 1 10 1000 (-2) 1 (-1.2) 1.2) 0 7);
    cbn; first [reflexivity|unfold Num.INT_MAX; lia].
Defined.

(** X25.  The OpenMP render of the same request is black throughout: for
    width = 1, height >= 10 with height * 3 within the [int] range, and
    max_iter >= 0, under any schedule, the squared-modulus test never fires
    on the NaN sample, every count is the cap, and all height * 3 bytes of
    the returned image are 0. *)
Theorem one_column_omp_image_black (params : MandelbrotCPU.RenderParams)
  (num_threads hw_threads max_threads : Z) (schedule : list (Z * Z))
  (start_time end_time : Z) :
  fst <$> schedule ≡ₚ seqZ 0 (MandelbrotCPU.height params) ->
  MandelbrotCPU.width params = 1 -> 10 <= MandelbrotCPU.height params ->
  MandelbrotCPU.height params * 3 <= Num.INT_MAX ->
  0 <= MandelbrotCPU.max_iter params ->
  exists log : list MandelbrotOMP.event,
    MandelbrotOMP.render_mandelbrot_omp params num_threads hw_threads
      max_threads schedule start_time end_time
    = MandelbrotCPU.Done
        (replicate (Z.to_nat (MandelbrotCPU.height params * 3)) 0, log).
Proof.
  intros Hperm HW HH Hfit Hmax.
  destruct (omp_render_done params num_threads hw_threads max_threads
              schedule start_time end_time)
    as [log Hdone]; [lia|exact HH|rewrite HW; lia|].
  exists log. rewrite Hdone. f_equal. f_equal.
  rewrite HW, Z.mul_1_l.
  apply (list_eq_same_length _ _
           (Z.to_nat (1 * MandelbrotCPU.height params * 3))).
  - rewrite length_replicate. lia.
  - rewrite omp_rows_length, length_replicate. lia.
  - intros i x y Hi Hx Hy.
    destruct (byte_index_decompose 1 (MandelbrotCPU.height params) i
                ltac:(lia) Hi) as (px & py & c & Hpx & Hpy & Hc & ->).
    assert (px = 0) by lia. subst px.
    pose proof (omp_rows_lookup params (fst <$> schedule) 0 py c
                  (replicate (Z.to_nat (MandelbrotCPU.height params * 3)) 0)
                  Hperm ltac:(lia) Hpy Hc) as Hlk.
    rewrite HW in Hlk. rewrite Hlk in Hx
      by (rewrite length_replicate; lia).
    rewrite omp_single_column_nan in Hx by exact HW.
    rewrite mandelbrot_iterations_omp_nan in Hx by exact Hmax.
    rewrite mandelbrot_cap_is_black in Hx.
    apply lookup_replicate in Hy as [-> _].
    injection Hx as <-.
    assert (Hcases : c = 0 \/ c = 1 \/ c = 2) by lia.
    destruct Hcases as [-> | [-> | ->]]; reflexivity.
Qed.

Lemma one_column_omp_image_black_witness :
  exists log : list MandelbrotOMP.event,
    MandelbrotOMP.render_mandelbrot_omp
      (MandelbrotCPU.mkParams 1 10 1000 (-2) 1 (-1.2) 1.2) 4 8 4
      ((fun py => (py, py mod 4)) <$> reverse (seqZ 0 10)) 0 7
    = MandelbrotCPU.Done (replicate (Z.to_nat (10 * 3)) 0, log).
Proof.
  apply (one_column_omp_image_black
           (MandelbrotCPU.mkParams 1 10 1000 (-2) 1 (-1.2) 1.2) 4 8 4
           ((fun py => (py, py mod 4)) <$> reverse (seqZ 0 10)) 0 7);
    [change (reverse (seqZ 0 10) ≡ₚ seqZ 0 10); apply reverse_Permutation
    |reflexivity|cbn; lia|cbn; unfold Num.INT_MAX; lia|cbn; lia].
Defined.

Lemma burning_ship_count_one_pixel_axis (width height max_iterations : Z)
  (center_x center_y zoom : float) (y x : Z) :
  1 <= max_iterations -> width = 1 \/ height = 1 ->
  0 <= y < height -> 0 <= x < width ->
  BurningShipCPU.computeBurningShip max_iterations
    (BurningShipCPU.sample center_x zoom width x)
    (BurningShipCPU.sample center_y zoom height y) = 1.
Proof.
  intros Hmax [-> | ->] Hy Hx.
  - replace x with 0 by lia. rewrite burning_ship_sample_single.
    apply computeBurningShip_nan_l, Hmax.
  - replace y with 0 by lia. rewrite burning_ship_sample_single.
    apply computeBurningShip_nan_r, Hmax.
Qed.

(** X26.  A Burning Ship image with a one-pixel axis: for a fresh object
    with width = 1 or height = 1 (sizes >= 0, cap >= 1) and any view, a
    render stores the count 1 in every cell, and the file holds the colour of
    the count 1 at every pixel. *)
Theorem burning_ship_one_pixel_axis (width height max_iterations : Z)
  (center_x center_y zoom : float) :
  0 <= width -> 0 <= height -> 1 <= max_iterations ->
  width = 1 \/ height = 1 ->
  let self :=
    BurningShipCPU.render (BurningShipCPU.new width height max_iterations)
      center_x center_y zoom in
  (forall y x : Z, 0 <= y < height -> 0 <= x < width ->
     Grid.get_cell 0 (BurningShipCPU.fractal_data_ self) y x = 1)
  /\ Forall
       (fun color =>
          color = BurningShipCPU.iterationsToRGB max_iterations 1)
       (BurningShipCPU.saveAsPPM self).
Proof.
  intros HW HH Hmax Haxis self. subst self. unfold BurningShipCPU.new.
  rewrite burning_ship_render_data by (apply replicate_shaped; assumption).
  split.
  - intros y x Hy Hx. cbn [BurningShipCPU.fractal_data_].
    rewrite (table_get_cell
               (fun y x =>
                  BurningShipCPU.computeBurningShip max_iterations
                    (BurningShipCPU.sample center_x zoom width x)
                    (BurningShipCPU.sample center_y zoom height y)))
      by assumption.
    apply burning_ship_count_one_pixel_axis; assumption.
  - rewrite burning_ship_saveAsPPM_table.
    apply Forall_forall. intros color Hin.
    apply list_elem_of_In, in_flat_map in Hin as (y & Hy & Hin).
    apply in_map_iff in Hin as (x & <- & Hx).
    apply list_elem_of_In, elem_of_seqZ in Hy, Hx.
    rewrite burning_ship_count_one_pixel_axis by (assumption || lia).
    reflexivity.
Qed.

Lemma burning_ship_one_pixel_axis_witness :
  (forall y x : Z, 0 <= y < 3 -> 0 <= x < 1 ->
     Grid.get_cell 0
       (BurningShipCPU.fractal_data_
          (BurningShipCPU.render (BurningShipCPU.new 1 3 20) (-0.5) (-0.5) 1))
       y x = 1)
  /\ Forall (fun color => color = BurningShipCPU.iterationsToRGB 20 1)
       (BurningShipCPU.saveAsPPM
          (BurningShipCPU.render (BurningShipCPU.new 1 3 20) (-0.5) (-0.5)
             1)).
Proof.
  apply (burning_ship_one_pixel_axis 1 3 20 (-0.5) (-0.5) 1);
    first [lia|left; reflexivity].
Defined.

(** ** Point symmetry of the Julia kernels *)

Lemma SFmul_opp_opp (a b : spec_float) :
  SF64mul (SFopp a) (SFopp b) = SF64mul a b.
Proof.
  destruct a as [s|s| |s m e], b as [s'|s'| |s' m' e'];
    try reflexivity; destruct s, s'; reflexivity.
Qed.

Lemma float_mul_opp_opp (x y : float) : (- x * - y)%float = (x * y)%float.
Proof.
  apply Prim2SF_inj. rewrite !mul_spec, !opp_spec. apply SFmul_opp_opp.
Qed.

Lemma binary_round_aux_opp (prec emax : Z) (s : bool) (m e : Z)
  (l : SpecFloat.location) :
  binary_round_aux prec emax (negb s) m e l
  = SFopp (binary_round_aux prec emax s m e l).
Proof.
  unfold binary_round_aux.
  destruct (shr_fexp prec emax m e l) as [mrs' e'].
  destruct (shr_fexp prec emax _ e' loc_Exact) as [mrs'' e''].
  destruct (shr_m mrs''); try reflexivity.
  destruct (_ <=? _); reflexivity.
Qed.

Lemma SFmul_opp_r (a b : spec_float) :
  SF64mul a (SFopp b) = SFopp (SF64mul a b).
Proof.
  destruct a as [s|s| |s m e], b as [s'|s'| |s' m' e'];
    try reflexivity; try (destruct s, s'; reflexivity).
  unfold SF64mul, SFmul, SFopp at 1.
  replace (xorb s (negb s')) with (negb (xorb s s'))
    by (destruct s, s'; reflexivity).
  apply binary_round_aux_opp.
Qed.

Lemma float_mul_opp_r (x y : float) : (x * - y)%float = (- (x * y))%float.
Proof.
  apply Prim2SF_inj. rewrite opp_spec, !mul_spec, opp_spec.
  apply SFmul_opp_r.
Qed.

Lemma float_abs_opp (x : float) : PrimFloat.abs (- x) = PrimFloat.abs x.
Proof.
  apply Prim2SF_inj. rewrite !abs_spec, opp_spec.
  destruct (Prim2SF x); reflexivity.
Qed.

Lemma julia_iterations_symmetry (x y cx cy : float) (max_iter : Z) :
  JuliaRenderer.julia_iterations (- x) (- y) cx cy max_iter
  = JuliaRenderer.julia_iterations x y cx cy max_iter.
Proof.
  unfold JuliaRenderer.julia_iterations.
  destruct (Z.to_nat max_iter) as [|fuel]; [reflexivity|].
  cbn [JuliaRenderer.julia_loop]. cbv zeta.
  rewrite !float_mul_opp_opp.
  rewrite (float_mul_opp_r 2 x), float_mul_opp_opp. reflexivity.
Qed.

Lemma SFmul_opp_l (a b : spec_float) :
  SF64mul (SFopp a) b = SFopp (SF64mul a b).
Proof.
  destruct a as [s|s| |s m e], b as [s'|s'| |s' m' e'];
    try reflexivity; try (destruct s, s'; reflexivity).
  unfold SF64mul, SFmul, SFopp at 1.
  replace (xorb (negb s) s') with (negb (xorb s s'))
    by (destruct s, s'; reflexivity).
  apply binary_round_aux_opp.
Qed.

Lemma float_mul_opp_l (x y : float) : (- x * y)%float = (- (x * y))%float.
Proof.
  apply Prim2SF_inj. rewrite opp_spec, !mul_spec, opp_spec.
  apply SFmul_opp_l.
Qed.

(** The classification of a double read off its specification. *)
Lemma SFcompare_finite_refl (s : bool) (m : positive) (e : Z) :
  SFcompare (S754_finite s m e) (S754_finite s m e) = Some Eq.
Proof.
  cbn. rewrite Z.compare_refl, Pos.compare_cont_refl.
  destruct s; reflexivity.
Qed.

Lemma isnan_spec (x : float) :
  Num.isnan x = match Prim2SF x with S754_nan => true | _ => false end.
Proof.
  unfold Num.isnan, PrimFloat.is_nan. rewrite FloatAxioms.eqb_spec.
  unfold SFeqb.
  destruct (Prim2SF x) as [s|s| |s m e]; try (destruct s; reflexivity);
    [reflexivity|].
  rewrite SFcompare_finite_refl. reflexivity.
Qed.

Lemma isinf_spec (x : float) :
  Num.isinf x
  = match Prim2SF x with S754_infinity _ => true | _ => false end.
Proof.
  unfold Num.isinf, PrimFloat.is_infinity.
  rewrite FloatAxioms.eqb_spec, abs_spec. unfold SFeqb.
  change (Prim2SF infinity) with (S754_infinity false).
  destruct (Prim2SF x) as [s|s| |s m e]; reflexivity.
Qed.

Lemma get_sign_spec (x : float) :
  PrimFloat.get_sign x
  = match Prim2SF x with
    | S754_zero s | S754_infinity s | S754_finite s _ _ => s
    | S754_nan => false
    end.
Proof.
  unfold PrimFloat.get_sign, PrimFloat.is_zero.
  rewrite FloatAxioms.eqb_spec. unfold SFeqb.
  change (Prim2SF zero) with (S754_zero false).
  destruct (Prim2SF x) as [s|s| |s m e] eqn:Hx; cbn.
  - rewrite ltb_spec, div_spec, Hx.
    change (Prim2SF zero) with (S754_zero false).
    change (Prim2SF one) with (S754_finite false 4503599627370496 (-52)).
    destruct s; reflexivity.
  - destruct s; cbn; rewrite ltb_spec, Hx; reflexivity.
  - rewrite ltb_spec, Hx. reflexivity.
  - destruct s; cbn; rewrite ltb_spec, Hx; reflexivity.
Qed.

Lemma isinf_opp (x : float) : Num.isinf (- x) = Num.isinf x.
Proof.
  rewrite !isinf_spec, opp_spec. destruct (Prim2SF x); reflexivity.
Qed.

Lemma isnan_opp (x : float) : Num.isnan (- x) = Num.isnan x.
Proof.
  rewrite !isnan_spec, opp_spec. destruct (Prim2SF x); reflexivity.
Qed.

Lemma get_sign_opp (x : float) :
  PrimFloat.get_sign (- x)
  = if Num.isnan x then false else negb (PrimFloat.get_sign x).
Proof.
  rewrite !get_sign_spec, isnan_spec, opp_spec.
  destruct (Prim2SF x); reflexivity.
Qed.

Lemma float_nan_unique (x : float) : Num.isnan x = true -> x = nan.
Proof.
  rewrite isnan_spec. intros Hn. apply Prim2SF_inj.
  change (Prim2SF nan) with S754_nan.
  destruct (Prim2SF x); try discriminate. reflexivity.
Qed.

Lemma hypot_opp (x y : float) : Num.hypot (- x) (- y) = Num.hypot x y.
Proof.
  unfold Num.hypot, Num.isfinite.
  rewrite !isinf_opp, !isnan_opp, !float_abs_opp.
  destruct (Num.isinf x || Num.isinf y) eqn:Hinf.
  - destruct (negb (Num.isnan x || Num.isinf x)
              || negb (Num.isnan y || Num.isinf y)); reflexivity.
  - apply orb_false_iff in Hinf as [-> ->]. rewrite !orb_false_r.
    destruct (Num.isnan x) eqn:Hx.
    + cbn [negb orb]. rewrite (float_nan_unique x Hx).
      change (- nan)%float with nan. rewrite !float_add_nan_l. reflexivity.
    + destruct (Num.isnan y) eqn:Hy; [|reflexivity].
      cbn [negb orb]. rewrite (float_nan_unique y Hy).
      change (- nan)%float with nan. rewrite !float_add_nan_r. reflexivity.
Qed.

(** The replacements of the recovery under negation. *)
Lemma isnan_not_inf (v : float) : Num.isnan v = true -> Num.isinf v = false.
Proof.
  rewrite isnan_spec, isinf_spec. destruct (Prim2SF v); congruence.
Qed.

Lemma isnan_sign (v : float) :
  Num.isnan v = true -> PrimFloat.get_sign v = false.
Proof.
  rewrite isnan_spec, get_sign_spec. destruct (Prim2SF v); congruence.
Qed.

Lemma box_nan (v : float) : Num.isnan v = true -> Cx.box v = 0%float.
Proof.
  intros Hn. unfold Cx.box, Num.copysign.
  rewrite (isnan_not_inf v Hn), (isnan_sign v Hn). reflexivity.
Qed.

Lemma unnan_nan (v : float) : Num.isnan v = true -> Cx.unnan v = 0%float.
Proof.
  intros Hn. unfold Cx.unnan, Num.copysign.
  rewrite Hn, (isnan_sign v Hn). reflexivity.
Qed.

Lemma isinf_unnan (v : float) : Num.isinf (Cx.unnan v) = Num.isinf v.
Proof.
  destruct (Num.isnan v) eqn:Hn.
  - rewrite (unnan_nan v Hn), (isnan_not_inf v Hn). reflexivity.
  - unfold Cx.unnan. rewrite Hn. reflexivity.
Qed.

Lemma unnan_box (v : float) : Cx.unnan (Cx.box v) = Cx.box v.
Proof.
  unfold Cx.box, Num.copysign.
  destruct (Num.isinf v), (PrimFloat.get_sign v); reflexivity.
Qed.

Lemma box_unnan (v : float) : Cx.box (Cx.unnan v) = Cx.box v.
Proof.
  destruct (Num.isnan v) eqn:Hn.
  - rewrite (unnan_nan v Hn), (box_nan v Hn). reflexivity.
  - unfold Cx.unnan. rewrite Hn. reflexivity.
Qed.

Lemma box_opp (v : float) :
  Num.isnan v = false -> Cx.box (- v) = (- Cx.box v)%float.
Proof.
  intros Hn. unfold Cx.box, Num.copysign.
  rewrite isinf_opp, get_sign_opp, Hn.
  destruct (Num.isinf v), (PrimFloat.get_sign v); reflexivity.
Qed.

Lemma unnan_opp (v : float) :
  Num.isnan v = false -> Cx.unnan (- v) = (- Cx.unnan v)%float.
Proof.
  intros Hn. unfold Cx.unnan. rewrite isnan_opp, Hn. reflexivity.
Qed.

Lemma box_inf (v : float) :
  Num.isinf v = true -> Cx.box v = 1%float \/ Cx.box v = (-1)%float.
Proof.
  intros Hi. unfold Cx.box, Num.copysign. rewrite Hi.
  destruct (PrimFloat.get_sign v); [right|left]; reflexivity.
Qed.

(** A zero times a finite double is a zero, and infinity times a sum of
    such zeros is NaN whatever their signs. *)
Lemma recovery_zero_products (v : float) :
  Num.isnan v = false -> Num.isinf v = false ->
  (infinity * (- (0 * v) + - (v * 0)))%float
  = (infinity * (0 * v + v * 0))%float.
Proof.
  rewrite isnan_spec, isinf_spec. intros Hn Hi.
  apply Prim2SF_inj.
  rewrite !mul_spec, !add_spec, !opp_spec, !mul_spec.
  change (Prim2SF 0) with (S754_zero false).
  change (Prim2SF infinity) with (S754_infinity false).
  destruct (Prim2SF v) as [s|s| |s m e]; try discriminate;
    destruct s; reflexivity.
Qed.

Lemma recovery_zero_products_r (v : float) :
  Num.isnan v = false -> Num.isinf v = false ->
  (infinity * (- (v * 0) + - (0 * v)))%float
  = (infinity * (v * 0 + 0 * v))%float.
Proof.
  rewrite isnan_spec, isinf_spec. intros Hn Hi.
  apply Prim2SF_inj.
  rewrite !mul_spec, !add_spec, !opp_spec, !mul_spec.
  change (Prim2SF 0) with (S754_zero false).
  change (Prim2SF infinity) with (S754_infinity false).
  destruct (Prim2SF v) as [s|s| |s m e]; try discriminate;
    destruct s; reflexivity.
Qed.

Lemma mul_opp_self (a b : float) :
  Cx.mul (Cx.mk (- a) (- b)) (Cx.mk (- a) (- b))
  = Cx.mul (Cx.mk a b) (Cx.mk a b).
Proof.
  unfold Cx.mul. cbn [Cx.re Cx.im]. cbv zeta.
  rewrite !float_mul_opp_opp, !isinf_opp.
  destruct (Num.isnan (a * a - b * b) && Num.isnan (a * b + b * a));
    [|reflexivity].
  destruct (Num.isinf a || Num.isinf b) eqn:Hinf.
  - rewrite !isinf_unnan, !isinf_opp, Hinf.
    rewrite !unnan_box, !box_unnan. cbn [negb andb].
    destruct (Num.isnan a) eqn:Hna, (Num.isnan b) eqn:Hnb.
    + rewrite (isnan_not_inf a Hna), (isnan_not_inf b Hnb) in Hinf.
      discriminate.
    + rewrite (isnan_not_inf a Hna) in Hinf. cbn [orb] in Hinf.
      rewrite (box_nan (- a)) by (rewrite isnan_opp; exact Hna).
      rewrite (box_nan a Hna), (box_opp b Hnb).
      destruct (box_inf b Hinf) as [-> | ->]; reflexivity.
    + rewrite (isnan_not_inf b Hnb), orb_false_r in Hinf.
      rewrite (box_nan (- b)) by (rewrite isnan_opp; exact Hnb).
      rewrite (box_nan b Hnb), (box_opp a Hna).
      destruct (box_inf a Hinf) as [-> | ->]; reflexivity.
    + rewrite (box_opp a Hna), (box_opp b Hnb), !float_mul_opp_opp.
      reflexivity.
  - cbv beta iota zeta. rewrite ?isinf_opp, ?Hinf. cbv beta iota zeta.
    rewrite ?isinf_opp, ?Hinf. cbn [negb andb].
    destruct (Num.isinf (a * a) || Num.isinf (b * b) || Num.isinf (a * b)
              || Num.isinf (b * a)); [|reflexivity].
    apply orb_false_iff in Hinf as [Hia Hib].
    destruct (Num.isnan a) eqn:Hna, (Num.isnan b) eqn:Hnb.
    + rewrite !(unnan_nan (- a)), !(unnan_nan (- b))
        by (rewrite isnan_opp; assumption).
      rewrite !(unnan_nan a Hna), !(unnan_nan b Hnb). reflexivity.
    + rewrite !(unnan_nan (- a)) by (rewrite isnan_opp; assumption).
      rewrite !(unnan_nan a Hna), !(unnan_opp b Hnb), !float_mul_opp_opp.
      rewrite float_mul_opp_r, float_mul_opp_l.
      assert (Hub : Cx.unnan b = b) by (unfold Cx.unnan; rewrite Hnb; reflexivity).
      rewrite Hub, (recovery_zero_products b Hnb Hib). reflexivity.
    + rewrite !(unnan_nan (- b)) by (rewrite isnan_opp; assumption).
      rewrite !(unnan_nan b Hnb), !(unnan_opp a Hna), !float_mul_opp_opp.
      rewrite float_mul_opp_r, float_mul_opp_l.
      assert (Hua : Cx.unnan a = a) by (unfold Cx.unnan; rewrite Hna; reflexivity).
      rewrite Hua, (recovery_zero_products_r a Hna Hia). reflexivity.
    + rewrite !(unnan_opp a Hna), !(unnan_opp b Hnb), !float_mul_opp_opp.
      reflexivity.
Qed.

Lemma wasm_juliaIterations_symmetry (real imag cReal cImag : float)
  (maxIter : Z) :
  Wasm.juliaIterations (- real) (- imag) cReal cImag maxIter
  = Wasm.juliaIterations real imag cReal cImag maxIter.
Proof.
  unfold Wasm.juliaIterations.
  destruct (Z.to_nat maxIter) as [|fuel]; [reflexivity|].
  cbn [Wasm.mandelbrot_loop].
  assert (Habs : Cx.abs (Cx.mk (- real) (- imag))
                 = Cx.abs (Cx.mk real imag)).
  { unfold Cx.abs. cbn [Cx.re Cx.im]. apply hypot_opp. }
  rewrite Habs, mul_opp_self. reflexivity.
Qed.

(** X27.  The Julia kernels are point-symmetric in the sample, exactly and
    in double arithmetic: for every sample, constant and cap,
    [julia_iterations] returns the same count at (-x, -y) as at (x, y), and
    so does the WebAssembly [juliaIterations]. *)
Theorem julia_point_symmetry (x y cx cy : float) (max_iter : Z) :
  JuliaRenderer.julia_iterations (- x) (- y) cx cy max_iter
  = JuliaRenderer.julia_iterations x y cx cy max_iter
  /\ Wasm.juliaIterations (- x) (- y) cx cy max_iter
     = Wasm.juliaIterations x y cx cy max_iter.
Proof.
  split; [apply julia_iterations_symmetry|apply wasm_juliaIterations_symmetry].
Qed.

(** ** Black pixels of a Burning Ship image *)

Lemma ship_colours_checked :
  forallb Spec.ship_colours_visible (seqZ 1 256 ++ [1000]) = true.
Proof. vm_compute. reflexivity. Qed.

(** X28.  For every cap from 1 to 256 and for the cap 1000 (the
    constructor's default), and for every count 0..cap, [iterationsToRGB]
    returns black exactly when the count equals the cap: in a Burning Ship
    file black marks the samples that ran to the cap, and only those. *)
Theorem burning_ship_black_iff_cap (max_iterations iterations : Z) :
  1 <= max_iterations <= 256 \/ max_iterations = 1000 ->
  0 <= iterations <= max_iterations ->
  (Spec.is_black (BurningShipCPU.iterationsToRGB max_iterations iterations)
   = true
   <-> iterations = max_iterations).
Proof.
  intros Hmax Hit. split.
  - intros Hblack.
    destruct (Z.eq_dec iterations max_iterations) as [E|Hne]; [exact E|].
    pose proof ship_colours_checked as Hall.
    rewrite forallb_forall in Hall.
    specialize (Hall max_iterations).
    unfold Spec.ship_colours_visible in Hall.
    rewrite forallb_forall in Hall.
    assert (Hin : In max_iterations (seqZ 1 256 ++ [1000])).
    { apply in_or_app. destruct Hmax as [Hmax | ->].
      - left. apply list_elem_of_In, elem_of_seqZ. lia.
      - right. left. reflexivity. }
    specialize (Hall Hin iterations).
    rewrite Hblack in Hall. discriminate Hall.
    apply list_elem_of_In, elem_of_seqZ. lia.
  - intros ->. rewrite burning_ship_cap_is_black. reflexivity.
Qed.

Lemma burning_ship_black_iff_cap_witness :
  Spec.is_black (BurningShipCPU.iterationsToRGB 1000 1000) = true.
Proof.
  apply (burning_ship_black_iff_cap 1000 1000);
    [right; reflexivity|lia|reflexivity].
Defined.
